(** * WattSaver: hardware detection and state reconciliation

    A shallow embedding of the detection core of [wattsaver.py] (the
    sysfs readers, [CPUInfo], [build_profiles], [_detect_profile],
    [_detect_undervolt], [_detect_gpu_mode], [run_helper]), of the
    sensor polling and of the state the callbacks keep, and the
    properties established about them.

    Conventions.
    - A [str] is a [string]; one character is one code point below 256,
      and the character classes are those of CPython on that range.
    - An [int] is a [Z]; [//] is [Z.div], the floor division.
    - A [float] is a binary64 value: [spec_float] with the operations of
      [SpecFloat] at precision 53 and [emax = 1024].
    - The file system is a finite map from paths to file contents; a
      path that is not mapped stands for any [OSError] of [open].
    - [subprocess.run] is a function from the argument vector and the
      time-out to the outcome of the call.
    - A function that can raise returns a [result].
    - [os.listdir] is a function from a directory to its entries, in
      the order the system gives them.
    - A callback returns the new state and the list of what it did to
      the widgets, or ends in an exception.
    - [int], [str] and the division of two integers have a value on
      every argument in the first part; the part on large numbers gives
      the calls with the exceptions of CPython ([ValueError] beyond
      4300 digits, [OverflowError] beyond the binary64 range), named
      [py_...] for the built-in functions and [..._call] for the
      functions of the program, and the properties relate the two.

    Outside the embedding: characters beyond code point 255 (among
    them the further decimal digits that [isdigit], [int] and [\d]
    accept), the decoding of file contents, and the widgets of the
    graphical part, of which only the calls made on them are kept. *)

From Stdlib Require Import ZArith NArith String Ascii List Bool Lia.
From Stdlib Require Import SpecFloat.
From stdpp Require Import base decidable option list sorting gmap strings.

Local Open Scope string_scope.
Local Open Scope Z_scope.

(** ** Exceptions and results *)

Inductive exn : Set :=
  | ValueError
  | IndexError
  | OverflowError.

Inductive result (A : Type) : Type :=
  | Ret (a : A)
  | Raise (e : exn).

Arguments Ret {A} a.
Arguments Raise {A} e.

Global Instance exn_eq_dec : EqDecision exn.
Proof. solve_decision. Defined.

Global Instance result_ret : MRet result := fun _ a => Ret a.

Global Instance result_bind : MBind result := fun _ _ f m =>
  match m with
  | Ret a => f a
  | Raise e => Raise e
  end.

Global Instance result_fmap : FMap result := fun _ _ f m =>
  match m with
  | Ret a => Ret (f a)
  | Raise e => Raise e
  end.

(** [try: body except kinds: handler]. *)
Definition try_except {A} (body : result A) (caught : exn -> bool)
    (handler : result A) : result A :=
  match body with
  | Ret a => Ret a
  | Raise e => if caught e then handler else Raise e
  end.

(** ** Strings *)

Module PyStr.

Definition code (c : ascii) : N := N_of_ascii c.

(** [str.isspace] on one character; also the set stripped by
    [str.strip()], split on by [str.split()] and matched by [\s]. *)
Definition isspace (c : ascii) : bool :=
  let n := code c in
  ((9 <=? n) && (n <=? 13) || (28 <=? n) && (n <=? 32)
   || (n =? 133) || (n =? 160))%N.

(** Decimal digits [0-9]: what [int], [float] and [\d] accept. *)
Definition isdecimal (c : ascii) : bool :=
  let n := code c in ((48 <=? n) && (n <=? 57))%N.

(** [str.isdigit] on one character: the decimal digits and the
    superscripts two, three and one. *)
Definition isdigit_char (c : ascii) : bool :=
  let n := code c in
  (isdecimal c || (n =? 178) || (n =? 179) || (n =? 185))%N.

Definition digit_val (c : ascii) : Z := Z.of_N (code c) - 48.

Definition lower_char (c : ascii) : ascii :=
  let n := code c in
  if ((65 <=? n) && (n <=? 90)
      || (192 <=? n) && (n <=? 222) && negb (n =? 215))%N
  then ascii_of_N (n + 32) else c.

Fixpoint lower (s : string) : string :=
  match s with
  | EmptyString => EmptyString
  | String c s' => String (lower_char c) (lower s')
  end.

Fixpoint all_chars (f : ascii -> bool) (s : string) : bool :=
  match s with
  | EmptyString => true
  | String c s' => f c && all_chars f s'
  end.

Definition nonempty (s : string) : bool :=
  match s with EmptyString => false | _ => true end.

(** [s.isdigit()]: at least one character, all of them digits. *)
Definition isdigit (s : string) : bool :=
  nonempty s && all_chars isdigit_char s.

(** [s.lstrip(chars)] for a predicate on characters. *)
Fixpoint lstrip_with (f : ascii -> bool) (s : string) : string :=
  match s with
  | EmptyString => EmptyString
  | String c s' => if f c then lstrip_with f s' else s
  end.

Fixpoint rstrip_with (f : ascii -> bool) (s : string) : string :=
  match s with
  | EmptyString => EmptyString
  | String c s' =>
      match rstrip_with f s' with
      | EmptyString => if f c then EmptyString else String c EmptyString
      | r => String c r
      end
  end.

Definition strip (s : string) : string :=
  rstrip_with isspace (lstrip_with isspace s).

Definition is_minus (c : ascii) : bool := (code c =? 45)%N.

Definition startswith (s p : string) : bool := String.prefix p s.

(** [p in s]. *)
Fixpoint contains (s p : string) : bool :=
  String.prefix p s ||
  match s with
  | EmptyString => false
  | String _ s' => contains s' p
  end.

(** [s.split()]: maximal runs of characters that are not white space. *)
Fixpoint split_go (cur : option string) (s : string) : list string :=
  match s with
  | EmptyString =>
      match cur with Some w => [String.rev w] | None => [] end
  | String c s' =>
      if isspace c then
        match cur with
        | Some w => String.rev w :: split_go None s'
        | None => split_go None s'
        end
      else
        split_go (Some (String c (default EmptyString cur))) s'
  end.

Definition split (s : string) : list string := split_go None s.

(** Iterating over a text file: the lines, each with its terminator
    removed (every use strips the line).  In text mode ["\n"], ["\r"]
    and ["\r\n"] all end a line. *)
Fixpoint lines_go (cur : string) (after_cr : bool) (s : string)
    : list string :=
  match s with
  | EmptyString =>
      match cur with EmptyString => [] | _ => [String.rev cur] end
  | String c s' =>
      if (code c =? 10)%N then
        if after_cr then lines_go EmptyString false s'
        else String.rev cur :: lines_go EmptyString false s'
      else if (code c =? 13)%N then
        String.rev cur :: lines_go EmptyString true s'
      else lines_go (String c cur) false s'
  end.

Definition lines (s : string) : list string := lines_go EmptyString false s.

(** Splitting at the first character that satisfies [f], which is
    dropped. *)
Fixpoint break_at (f : ascii -> bool) (s : string)
    : string * option string :=
  match s with
  | EmptyString => (EmptyString, None)
  | String c s' =>
      if f c then (EmptyString, Some s')
      else let '(a, b) := break_at f s' in (String c a, b)
  end.

(** The value of a run of decimal digits, most significant first. *)
Fixpoint digits_val (acc : Z) (s : string) : Z :=
  match s with
  | EmptyString => acc
  | String c s' => digits_val (10 * acc + digit_val c) s'
  end.

(** Digits with single underscores between them (the grouping that
    [int] and [float] accept); returns the digits without the
    underscores, or [None] when the text is not of that form. *)
Fixpoint digit_groups (prev_digit : bool) (s : string) : option string :=
  match s with
  | EmptyString => if prev_digit then Some EmptyString else None
  | String c s' =>
      if isdecimal c then String c <$> digit_groups true s'
      else if (code c =? 95)%N then
        if prev_digit then
          match s' with
          | EmptyString => None
          | String c' _ =>
              if isdecimal c' then digit_groups false s' else None
          end
        else None
      else None
  end.

Definition split_sign (s : string) : bool * string :=
  match s with
  | String c s' =>
      if (code c =? 45)%N then (true, s')
      else if (code c =? 43)%N then (false, s')
      else (false, s)
  | EmptyString => (false, s)
  end.

(** [int(s)] in base ten; [None] is [ValueError].  The limit of 4300
    digits is that of [py_int]. *)
Definition int (s : string) : option Z :=
  let '(neg, body) := split_sign (strip s) in
  ds ← digit_groups false body;
  Some (if neg then - digits_val 0 ds else digits_val 0 ds).

End PyStr.

(** ** Utility functions *)

Abbreviation filesystem := (gmap string string).

Definition read_sysfs (fs : filesystem) (path : string) : option string :=
  PyStr.strip <$> fs !! path.

Definition read_sysfs_int (fs : filesystem) (path : string)
    : result (option Z) :=
  match read_sysfs fs path with
  | Some val =>
      if PyStr.nonempty val
         && PyStr.isdigit (PyStr.lstrip_with PyStr.is_minus val)
      then
        match PyStr.int val with
        | Some n => Ret (Some n)
        | None => Raise ValueError
        end
      else Ret None
  | None => Ret None
  end.

(** ** Floats *)

Module PyFloat.

Definition prec : Z := 53.
Definition emax : Z := 1024.

(** The binary64 value nearest to [n / d] (ties to even), signed. *)
Definition of_ratio (neg : bool) (n d : positive) : spec_float :=
  SFdiv prec emax (S754_finite neg n 0) (S754_finite false d 0).

(** [a / b] on two [int]s with [b] positive: the correctly rounded
    quotient.  Python raises [OverflowError] where the quotient
    exceeds the binary64 range (beyond [10^308]); this value is an
    infinity there. *)
Definition truediv (a : Z) (b : positive) : spec_float :=
  match a with
  | Z0 => S754_zero false
  | Zpos n => of_ratio false n b
  | Zneg n => of_ratio true n b
  end.

Definition of_int (z : Z) : spec_float :=
  binary_normalize prec emax z 0 false.

Definition mul (x y : spec_float) : spec_float := SFmul prec emax x y.

(** [int(x)]: truncation toward zero. *)
Definition to_int (x : spec_float) : result Z :=
  match x with
  | S754_zero _ => Ret 0
  | S754_infinity _ => Raise OverflowError
  | S754_nan => Raise ValueError
  | S754_finite s m e =>
      let mag := Z.shiftl (Zpos m) e in
      Ret (if s then - mag else mag)
  end.

(** [n / 2^k] rounded to the nearest integer, ties to even. *)
Definition shr_half_even (n : Z) (k : Z) : Z :=
  let q := Z.shiftr n k in
  let r := n - Z.shiftl q k in
  match Z.compare (2 * r) (Z.shiftl 1 k) with
  | Lt => q
  | Gt => q + 1
  | Eq => if Z.even q then q else q + 1
  end.

(** [round(x)] without [ndigits], on a finite [x]: the nearest
    integer, ties to even.  (On an infinity or a NaN Python raises;
    no quotient of two machine-range integers is one.) *)
Definition round (x : spec_float) : Z :=
  match x with
  | S754_finite s m e =>
      let mag :=
        if 0 <=? e then Z.shiftl (Zpos m) e
        else shr_half_even (Zpos m) (- e) in
      if s then - mag else mag
  | _ => 0
  end.

(** [x == int(x)] on a finite [x]. *)
Definition is_integer (x : spec_float) : bool :=
  match x with
  | S754_zero _ => true
  | S754_finite _ m e =>
      (0 <=? e) || (Z.land (Zpos m) (Z.ones (- e)) =? 0)
  | _ => false
  end.

Definition digit_char (d : Z) : ascii := ascii_of_N (Z.to_N (48 + d)).

(** The decimal digits of a natural number, at least [width] of
    them. *)
Fixpoint decimal_go (fuel : nat) (width : nat) (n : Z) (acc : string)
    : string :=
  match fuel with
  | O => acc
  | S fuel' =>
      let acc' := String (digit_char (n mod 10)) acc in
      let n' := n / 10 in
      if (n' =? 0) && (Nat.leb width 1) then acc'
      else decimal_go fuel' (Nat.pred width) n' acc'
  end.

Definition decimal (width : nat) (n : Z) : string :=
  decimal_go (Z.to_nat (Z.log2 n) + width + 1) width n EmptyString.

(** [f"{x:.<d>f}"] for [d] positive. *)
Definition format_f (d : nat) (x : spec_float) : string :=
  let body (scaled : Z) :=
    decimal 1 (scaled / 10 ^ Z.of_nat d)%Z ++ "." ++
    decimal d (scaled mod 10 ^ Z.of_nat d)%Z in
  match x with
  | S754_zero s => (if s then "-" else "") ++ body 0%Z
  | S754_finite s m e =>
      let num := Zpos m * 10 ^ Z.of_nat d in
      let scaled :=
        if 0 <=? e then Z.shiftl num e else shr_half_even num (- e) in
      (if s then "-" else "") ++ body scaled
  | S754_infinity s => if s then "-inf" else "inf"
  | S754_nan => "nan"
  end.

Definition is_exp_mark (c : ascii) : bool :=
  let n := PyStr.code c in ((n =? 101) || (n =? 69))%N.

Definition is_dot (c : ascii) : bool := (PyStr.code c =? 46)%N.

(** Optional digit part: absent, or digits with single underscores. *)
Definition opt_digits (s : string) : option string :=
  match s with
  | EmptyString => Some EmptyString
  | _ => PyStr.digit_groups false s
  end.

(** The mantissa [digits], [digits.], [digits.digits] or [.digits]:
    its digits and the number of them after the point. *)
Definition parse_mantissa (s : string) : option (string * Z) :=
  match PyStr.break_at is_dot s with
  | (ip, None) => ds ← PyStr.digit_groups false ip; Some (ds, 0)
  | (ip, Some fp) =>
      ids ← opt_digits ip;
      fds ← opt_digits fp;
      if PyStr.nonempty (ids ++ fds)
      then Some (ids ++ fds, Z.of_nat (String.length fds))
      else None
  end.

Definition parse_exponent (s : option string) : option Z :=
  match s with
  | None => Some 0
  | Some t =>
      let '(neg, body) := PyStr.split_sign t in
      ds ← PyStr.digit_groups false body;
      Some (if neg then - PyStr.digits_val 0 ds
            else PyStr.digits_val 0 ds)
  end.

(** [float(s)]; [None] is [ValueError]. *)
Definition of_string (s : string) : option spec_float :=
  let '(neg, body) := PyStr.split_sign (PyStr.strip s) in
  let word := PyStr.lower body in
  if String.eqb word "inf" || String.eqb word "infinity"
  then Some (S754_infinity neg)
  else if String.eqb word "nan" then Some S754_nan
  else
    let '(mant, ex) := PyStr.break_at is_exp_mark body in
    '(ds, fl) ← parse_mantissa mant;
    e ← parse_exponent ex;
    let n := PyStr.digits_val 0 ds in
    let e10 := e - fl in
    Some
      match n with
      | Zpos p =>
          if 0 <=? e10 then of_ratio neg (p * Z.to_pos (10 ^ e10)) 1
          else of_ratio neg p (Z.to_pos (10 ^ (- e10)))
      | _ => S754_zero neg
      end.

End PyFloat.

(** ** CPU detection *)

Definition SYSFS_CPU_BASE : string := "/sys/devices/system/cpu".

Definition GPU_MODES : list string := ["integrated"; "hybrid"; "nvidia"].

Record preset : Set := {
  preset_key : string;
  preset_label : string;
  preset_offset : Z;
}.

Definition UNDERVOLT_PRESETS : list preset := [
  {| preset_key := "none"; preset_label := "None (0 mV)";
     preset_offset := 0 |};
  {| preset_key := "light"; preset_label := "Light (-50 mV)";
     preset_offset := -50 |};
  {| preset_key := "medium"; preset_label := "Medium (-100 mV)";
     preset_offset := -100 |};
  {| preset_key := "aggressive"; preset_label := "Aggressive (-125 mV)";
     preset_offset := -125 |}
].

(** [x or d] on an optional integer: [None] and [0] are both false. *)
Definition int_or (x : option Z) (d : Z) : Z :=
  match x with
  | Some n => if n =? 0 then d else n
  | None => d
  end.

(** [x or d] on an optional string: [None] and [""] are both false. *)
Definition str_or (x : option string) (d : string) : string :=
  match x with
  | Some s => if PyStr.nonempty s then s else d
  | None => d
  end.

(** [re.search(r"@\s*([\d.]+)\s*GHz", s)], returning group 1.  The
    three classes are disjoint from each other and from ["G"], so the
    greedy match from a given ["@"] is the only candidate there. *)
Module BaseFreqPattern.

Definition is_at (c : ascii) : bool := (PyStr.code c =? 64)%N.

Definition in_group (c : ascii) : bool :=
  PyStr.isdecimal c || PyFloat.is_dot c.

Fixpoint take_while (f : ascii -> bool) (s : string) : string :=
  match s with
  | EmptyString => EmptyString
  | String c s' => if f c then String c (take_while f s') else EmptyString
  end.

(** The match starting right after an ["@"]. *)
Definition match_after (s : string) : option string :=
  let s1 := PyStr.lstrip_with PyStr.isspace s in
  let grp := take_while in_group s1 in
  let s2 := PyStr.lstrip_with PyStr.isspace
              (PyStr.lstrip_with in_group s1) in
  if PyStr.nonempty grp && PyStr.startswith s2 "GHz"
  then Some grp else None.

Fixpoint search (s : string) : option string :=
  match s with
  | EmptyString => None
  | String c s' =>
      if is_at c then
        match match_after s' with
        | Some g => Some g
        | None => search s'
        end
      else search s'
  end.

End BaseFreqPattern.

Record CPUInfo : Set := {
  model : string;
  driver : string;
  hw_min_khz : Z;
  hw_max_khz : Z;
  base_khz : Z;
  governors : list string;
}.

(** [line.split(":", 1)[1]]. *)
Definition after_colon (line : string) : result string :=
  match PyStr.break_at (fun c => (PyStr.code c =? 58)%N) line with
  | (_, Some rest) => Ret rest
  | (_, None) => Raise IndexError
  end.

Fixpoint _read_model_scan (ls : list string) : result string :=
  match ls with
  | [] => Ret "Unknown CPU"
  | line :: rest =>
      if PyStr.startswith line "model name"
      then PyStr.strip <$> after_colon line
      else _read_model_scan rest
  end.

Definition _read_model (fs : filesystem) : result string :=
  match fs !! "/proc/cpuinfo" with
  | Some content => _read_model_scan (PyStr.lines content)
  | None => Ret "Unknown CPU"
  end.

(** [if x:] on an optional integer: neither [None] nor [0]. *)
Definition truthy (x : option Z) : bool :=
  match x with
  | Some n => negb (n =? 0)
  | None => false
  end.

Definition _detect_base_freq (fs : filesystem) (self_model : string)
    (self_hw_min_khz self_hw_max_khz : Z) : result Z :=
  (* Method 1: base_frequency sysfs *)
  val ← read_sysfs_int fs (SYSFS_CPU_BASE ++ "/cpu0/cpufreq/base_frequency");
  if truthy val then Ret (default 0 val)
  else
    (* Method 2: parse from CPU model string *)
    match BaseFreqPattern.search self_model with
    | Some group1 =>
        match PyFloat.of_string group1 with
        | Some f => PyFloat.to_int (PyFloat.mul f (PyFloat.of_int 1000000))
        | None => Raise ValueError
        end
    | None =>
        (* Method 3: midpoint between min and max *)
        Ret ((self_hw_min_khz + self_hw_max_khz) / 2)
    end.

Definition _read_governors (fs : filesystem) : list string :=
  match read_sysfs fs
          (SYSFS_CPU_BASE ++ "/cpu0/cpufreq/scaling_available_governors") with
  | Some val =>
      if PyStr.nonempty val then PyStr.split val
      else ["powersave"; "performance"]
  | None => ["powersave"; "performance"]
  end.

(** [CPUInfo.__init__].  The count of online CPUs comes from a directory
    listing and is read by the menu only; it is not part of the record. *)
Definition CPUInfo_init (fs : filesystem) : result CPUInfo :=
  m ← _read_model fs;
  let d := str_or (read_sysfs fs
                     (SYSFS_CPU_BASE ++ "/cpu0/cpufreq/scaling_driver"))
                  "unknown" in
  lo ← read_sysfs_int fs (SYSFS_CPU_BASE ++ "/cpu0/cpufreq/cpuinfo_min_freq");
  let hw_min := int_or lo 800000 in
  hi ← read_sysfs_int fs (SYSFS_CPU_BASE ++ "/cpu0/cpufreq/cpuinfo_max_freq");
  let hw_max := int_or hi 4000000 in
  base ← _detect_base_freq fs m hw_min hw_max;
  Ret {| model := m; driver := d; hw_min_khz := hw_min;
         hw_max_khz := hw_max; base_khz := base;
         governors := _read_governors fs |}.

(** ** Profiles *)

Record profile : Set := {
  key : string;
  label : string;
  freq_khz : Z;
  icon : string;
}.

Global Instance profile_eq_dec : EqDecision profile.
Proof. solve_decision. Defined.

Definition _fmt_ghz (khz : Z) : string :=
  let ghz := PyFloat.truediv khz 1000000 in
  if PyFloat.is_integer ghz
  then PyFloat.format_f 1 ghz ++ " GHz"
  else PyFloat.format_f 2 ghz ++ " GHz".

(** The bucket of a frequency: [round(freq_khz / 100000)]. *)
Definition bucket_of (freq : Z) : Z :=
  PyFloat.round (PyFloat.truediv freq 100000).

(** The five candidates, in the order the source lists them. *)
Definition candidates (self : CPUInfo) : list profile :=
  let lo := hw_min_khz self in
  let hi := hw_max_khz self in
  let base := base_khz self in
  let span := hi - lo in
  [ {| key := "powersaver";
       label := "Power Saver (" ++ _fmt_ghz lo ++ ")";
       freq_khz := lo;
       icon := "power-profile-power-saver-symbolic" |};
    {| key := "low";
       label := "Low (" ++ _fmt_ghz (lo + span / 4) ++ ")";
       freq_khz := lo + span / 4;
       icon := "power-profile-power-saver-symbolic" |};
    {| key := "balanced";
       label := "Balanced (" ++ _fmt_ghz base ++ ")";
       freq_khz := base;
       icon := "power-profile-balanced-symbolic" |};
    {| key := "high";
       label := "High (" ++ _fmt_ghz (lo + 3 * span / 4) ++ ")";
       freq_khz := lo + 3 * span / 4;
       icon := "power-profile-performance-symbolic" |};
    {| key := "performance";
       label := "Performance (" ++ _fmt_ghz hi ++ ")";
       freq_khz := hi;
       icon := "power-profile-performance-symbolic" |} ].

(** One iteration of the deduplication loop on the state
    [(seen, unique)]. *)
Definition dedup_step (st : gset Z * list profile) (p : profile)
    : gset Z * list profile :=
  let '(seen, unique) := st in
  let bucket := bucket_of (freq_khz p) in
  if decide (bucket ∈ seen) then (seen, unique)
  else ({[ bucket ]} ∪ seen, (unique ++ [p])%list).

Definition dedup_loop (ps : list profile) (st : gset Z * list profile)
    : gset Z * list profile :=
  fold_left dedup_step ps st.

(** The list that [build_profiles] returns; the call, which raises
    when a quotient is beyond binary64, is [build_profiles_call]. *)
Definition build_profiles (self : CPUInfo) : list profile :=
  snd (dedup_loop (candidates self) (∅, [])).

(** ** State detection *)

Definition _get_profile (profiles : list profile) (k : string)
    : option profile :=
  List.find (fun p => String.eqb (key p) k) profiles.

(** One iteration of the matching loop on the state
    [(best_key, best_diff)]. *)
Definition closer (current : Z) (st : string * Z) (p : profile)
    : string * Z :=
  let '(best_key, best_diff) := st in
  let diff := Z.abs (current - freq_khz p) in
  if diff <? best_diff then (key p, diff) else (best_key, best_diff).

Definition _detect_profile (fs : filesystem) (profiles : list profile)
    : result string :=
  current ← read_sysfs_int fs (SYSFS_CPU_BASE ++ "/cpu0/cpufreq/scaling_max_freq");
  match current with
  | None => Ret "balanced"
  | Some current =>
      match profiles with
      | [] => Raise IndexError
      | p0 :: rest =>
          Ret (fst (fold_left (closer current) rest
                      (key p0, Z.abs (current - freq_khz p0))))
      end
  end.

(** The chain of comparisons on the offset. *)
Definition classify_offset (offset : Z) : string :=
  if offset =? 0 then "none"
  else if -50 <=? offset then "light"
  else if -100 <=? offset then "medium"
  else "aggressive".

Definition is_cpu_undervolt_line (line : string) : bool :=
  PyStr.startswith line "undervolt"
  && PyStr.contains line "'CPU'"
  && negb (PyStr.contains line "Cache").

(** [parts[-1]]. *)
Definition last_part (parts : list string) : result string :=
  match last parts with
  | Some s => Ret s
  | None => Raise IndexError
  end.

(** [int(float(s))]. *)
Definition int_of_float_text (s : string) : result Z :=
  match PyFloat.of_string s with
  | Some f => PyFloat.to_int f
  | None => Raise ValueError
  end.

(** The loop over the lines; the first matching line decides. *)
Fixpoint _detect_undervolt_scan (ls : list string) : result string :=
  match ls with
  | [] => Ret "none"
  | l :: rest =>
      let line := PyStr.strip l in
      if is_cpu_undervolt_line line then
        tok ← last_part (PyStr.split line);
        offset ← int_of_float_text tok;
        Ret (classify_offset offset)
      else _detect_undervolt_scan rest
  end.

Definition undervolt_caught (e : exn) : bool :=
  match e with
  | ValueError | IndexError => true
  | OverflowError => false
  end.

Definition _detect_undervolt (fs : filesystem) : result string :=
  match fs !! "/etc/intel-undervolt.conf" with
  | Some content =>
      try_except (_detect_undervolt_scan (PyStr.lines content))
        undervolt_caught (Ret "none")
  | None => Ret "none"
  end.

(** ** External commands *)

(** What [subprocess.run(cmd, capture_output=True, text=True,
    timeout=t)] comes back with: a completed process, the expiry of the
    time-out, or any other exception, with its text. *)
Inductive run_outcome : Set :=
  | Completed (returncode : Z) (stdout stderr : string)
  | TimeoutExpired
  | Failed (message : string).

(** The commands of the machine: the argument vector and the time-out in
    seconds determine the outcome. *)
Abbreviation subprocess := (list string -> Z -> run_outcome).

Definition _detect_gpu_mode (run : subprocess) : string :=
  match run ["envycontrol"; "--query"] 5 with
  | Completed _ stdout _ =>
      let output := PyStr.lower (PyStr.strip stdout) in
      match List.find (fun mode => PyStr.contains output mode) GPU_MODES with
      | Some mode => mode
      | None => "unknown"
      end
  | TimeoutExpired | Failed _ => "unknown"
  end.

(** [os.path.join(dir, name)] for a relative [name]. *)
Definition path_join (dir name : string) : string :=
  match String.rev dir with
  | EmptyString => name
  | String c _ =>
      if (PyStr.code c =? 47)%N then dir ++ name else dir ++ "/" ++ name
  end.

(** [here] is the directory of the running script. *)
Definition HELPER_PATHS (here : string) : list string :=
  [ "/opt/wattsaver/wattsaver-helper.sh";
    path_join here "wattsaver-helper.sh" ].

(** [executable path]: [path] is a regular file the user may execute. *)
Definition find_helper (executable : string -> bool) (here : string)
    : option string :=
  List.find executable (HELPER_PATHS here).

Definition run_helper (executable : string -> bool) (here : string)
    (run : subprocess) (command : string) (args : list string)
    : bool * string :=
  match find_helper executable here with
  | None => (false, "Helper script not found")
  | Some helper =>
      let cmd := ("pkexec" :: helper :: command :: args)%list in
      match run cmd 30 with
      | Completed returncode stdout stderr =>
          if returncode =? 0 then (true, PyStr.strip stdout)
          else if returncode =? 126 then (false, "Authentication dismissed")
          else (false, if PyStr.nonempty (PyStr.strip stderr)
                       then PyStr.strip stderr else PyStr.strip stdout)
      | TimeoutExpired => (false, "Operation timed out")
      | Failed message => (false, message)
      end
  end.

(** * Large numbers *)

(** The definitions above give [int], [str] and [/] a value on every
    argument.  CPython does not: [int] and [str] raise [ValueError]
    beyond 4300 digits, [/] on two [int]s raises [OverflowError] when
    the quotient is beyond the binary64 range, and [round] raises on an
    infinity and on a NaN.  The definitions of this part are the calls
    with these exceptions; wherever they return, they return what the
    definitions above give. *)

(** [sys.get_int_max_str_digits()]. *)
Definition MAX_STR_DIGITS : nat := 4300.

(** [int(s)] in base ten: the digits are counted without the sign, the
    white space around and the underscores between them. *)
Definition py_int (s : string) : result Z :=
  let '(neg, body) := PyStr.split_sign (PyStr.strip s) in
  match PyStr.digit_groups false body with
  | Some ds =>
      if (MAX_STR_DIGITS <? String.length ds)%nat then Raise ValueError
      else Ret (if neg then - PyStr.digits_val 0 ds
                else PyStr.digits_val 0 ds)
  | None => Raise ValueError
  end.

(** [a / b] on two [int]s with [b] positive. *)
Definition py_truediv (a : Z) (b : positive) : result spec_float :=
  match PyFloat.truediv a b with
  | S754_infinity _ => Raise OverflowError
  | q => Ret q
  end.

(** [round(x)] without [ndigits]. *)
Definition py_round (x : spec_float) : result Z :=
  match x with
  | S754_infinity _ => Raise OverflowError
  | S754_nan => Raise ValueError
  | _ => Ret (PyFloat.round x)
  end.

(** The call of [read_sysfs_int]. *)
Definition read_sysfs_int_call (fs : filesystem) (path : string)
    : result (option Z) :=
  match read_sysfs fs path with
  | Some val =>
      if PyStr.nonempty val
         && PyStr.isdigit (PyStr.lstrip_with PyStr.is_minus val)
      then Some <$> py_int val
      else Ret None
  | None => Ret None
  end.

(** The call of [_fmt_ghz]. *)
Definition _fmt_ghz_call (khz : Z) : result string :=
  ghz ← py_truediv khz 1000000;
  Ret (if PyFloat.is_integer ghz
       then PyFloat.format_f 1 ghz ++ " GHz"
       else PyFloat.format_f 2 ghz ++ " GHz").

(** [round(freq_khz / 100000)]. *)
Definition bucket_of_call (freq : Z) : result Z :=
  q ← py_truediv freq 100000;
  py_round q.

(** The list literal of [build_profiles]: the labels are formatted in
    the order of the list. *)
Definition candidates_call (self : CPUInfo) : result (list profile) :=
  let lo := hw_min_khz self in
  let hi := hw_max_khz self in
  let base := base_khz self in
  let span := hi - lo in
  l1 ← _fmt_ghz_call lo;
  l2 ← _fmt_ghz_call (lo + span / 4);
  l3 ← _fmt_ghz_call base;
  l4 ← _fmt_ghz_call (lo + 3 * span / 4);
  l5 ← _fmt_ghz_call hi;
  Ret [ {| key := "powersaver";
           label := "Power Saver (" ++ l1 ++ ")";
           freq_khz := lo;
           icon := "power-profile-power-saver-symbolic" |};
        {| key := "low";
           label := "Low (" ++ l2 ++ ")";
           freq_khz := lo + span / 4;
           icon := "power-profile-power-saver-symbolic" |};
        {| key := "balanced";
           label := "Balanced (" ++ l3 ++ ")";
           freq_khz := base;
           icon := "power-profile-balanced-symbolic" |};
        {| key := "high";
           label := "High (" ++ l4 ++ ")";
           freq_khz := lo + 3 * span / 4;
           icon := "power-profile-performance-symbolic" |};
        {| key := "performance";
           label := "Performance (" ++ l5 ++ ")";
           freq_khz := hi;
           icon := "power-profile-performance-symbolic" |} ].

(** The deduplication loop, on the state [(seen, unique)]. *)
Fixpoint dedup_loop_call (ps : list profile) (st : gset Z * list profile)
    : result (gset Z * list profile) :=
  match ps with
  | [] => Ret st
  | p :: ps' =>
      bucket ← bucket_of_call (freq_khz p);
      let '(seen, unique) := st in
      dedup_loop_call ps'
        (if decide (bucket ∈ seen) then (seen, unique)
         else ({[ bucket ]} ∪ seen, (unique ++ [p])%list))
  end.

(** The call of [build_profiles]. *)
Definition build_profiles_call (self : CPUInfo) : result (list profile) :=
  profiles ← candidates_call self;
  st ← dedup_loop_call profiles (∅, []);
  Ret (snd st).

(** ** Ranges *)

(** The mantissa of a record stays below [2 ^ (d - k)] while it is
    shifted, [k] counting the shifts: it is zero, or its digits and [k]
    add up to [d] at most. *)
Definition below (d k : Z) (mrs : shr_record) : Prop :=
  0 <= shr_m mrs ∧ (shr_m mrs = 0 ∨ Zdigits2 (shr_m mrs) + k <= d).

(** A zero or a finite number. *)
Definition finite (x : spec_float) : Prop :=
  match x with
  | S754_zero _ | S754_finite _ _ _ => True
  | S754_infinity _ | S754_nan => False
  end.

(** A bound on the frequencies, in kHz, far beyond any hardware and
    within the binary64 range. *)
Definition FREQ_BOUND : Z := 10 ^ 300.

(** Capabilities within the bound. *)
Definition in_range (self : CPUInfo) : Prop :=
  Z.abs (hw_min_khz self) <= FREQ_BOUND
  ∧ Z.abs (hw_max_khz self) <= FREQ_BOUND
  ∧ Z.abs (base_khz self) <= FREQ_BOUND.

(** * Sensors and the application *)

(** ** Directories, counts and texts *)

Definition SYSFS_HWMON : string := "/sys/class/hwmon".

(** [os.listdir]: the entries of a directory, or [None] for [OSError]. *)
Abbreviation listing := (string -> option (list string)).

(** The decimal text of an [int]: what [str(n)] returns. *)
Definition str_int (n : Z) : string :=
  if n <? 0 then "-" ++ PyFloat.decimal 1 (- n) else PyFloat.decimal 1 n.

(** [str(n)] on an [int]: [ValueError] beyond 4300 digits. *)
Definition py_str (n : Z) : result string :=
  if 10 ^ Z.of_nat MAX_STR_DIGITS <=? Z.abs n then Raise ValueError
  else Ret (str_int n).

(** [f"{x:.0f}"]: the nearest integer, ties to even, without a point. *)
Definition format_0f (x : spec_float) : string :=
  match x with
  | S754_zero s => (if s then "-" else "") ++ "0"
  | S754_finite s m e =>
      let scaled :=
        if 0 <=? e then Z.shiftl (Zpos m) e
        else PyFloat.shr_half_even (Zpos m) (- e) in
      (if s then "-" else "") ++ PyFloat.decimal 1 scaled
  | S754_infinity s => if s then "-inf" else "inf"
  | S754_nan => "nan"
  end.

(** [x / n] on a [float] and a non-zero [int]. *)
Definition float_div_int (x : spec_float) (n : Z) : spec_float :=
  SFdiv PyFloat.prec PyFloat.emax x (PyFloat.of_int n).

(** [s] without its prefix [p], or [None] when [s] does not start with
    [p]. *)
Fixpoint after_prefix (p s : string) : option string :=
  match p, s with
  | EmptyString, _ => Some s
  | String a p', String b s' =>
      if Ascii.eqb a b then after_prefix p' s' else None
  | String _ _, EmptyString => None
  end.

(** [re.match(r"cpu\d+$", entry)]: ["cpu"], one or more digits, and the
    end of the text or its final newline. *)
Definition is_cpu_entry (entry : string) : bool :=
  match after_prefix "cpu" entry with
  | Some rest =>
      let digits := BaseFreqPattern.take_while PyStr.isdecimal rest in
      let tail := PyStr.lstrip_with PyStr.isdecimal rest in
      PyStr.nonempty digits
      && (String.eqb tail "" || String.eqb tail (String (ascii_of_N 10) ""))
  | None => false
  end.

(** [sorted] on a list of [str]. *)
Definition sorted_strings (l : list string) : list string :=
  merge_sort String.le l.

(** [has_command]: [which name] run without a time-out; [which] gives
    the outcome of that call. *)
Definition has_command (which : list string -> run_outcome) (name : string)
    : bool :=
  match which ["which"; name] with
  | Completed returncode _ _ => returncode =? 0
  | TimeoutExpired | Failed _ => false
  end.

(** ** Counting the CPUs *)


(** ** Sensor polling *)

Definition is_cpu_chip (name : option string) : bool :=
  match name with
  | Some n => String.eqb n "coretemp" || String.eqb n "k10temp"
  | None => false
  end.

(** The loop over the hwmon chips; [None] when it ends without a
    reading. *)
Fixpoint _read_cpu_temp_scan (fs : filesystem) (chips : list string)
    : result (option spec_float) :=
  match chips with
  | [] => Ret None
  | hwmon :: rest =>
      let name :=
        read_sysfs fs (path_join (path_join SYSFS_HWMON hwmon) "name") in
      if is_cpu_chip name then
        val ← read_sysfs_int_call fs
                (path_join (path_join SYSFS_HWMON hwmon) "temp1_input");
        match val with
        | Some v => Some <$> py_truediv v 1000
        | None => _read_cpu_temp_scan fs rest
        end
      else _read_cpu_temp_scan fs rest
  end.

Definition _read_cpu_temp (listdir : listing) (fs : filesystem)
    : result (option spec_float) :=
  found ← match listdir SYSFS_HWMON with
          | Some chips => _read_cpu_temp_scan fs chips
          | None => Ret None
          end;
  match found with
  | Some t => Ret (Some t)
  | None =>
      (* Fallback: thermal_zone0 *)
      val ← read_sysfs_int_call fs "/sys/class/thermal/thermal_zone0/temp";
      match val with
      | Some v => Some <$> py_truediv v 1000
      | None => Ret None
      end
  end.

(** The loop of [_update_sensors] over the sorted entries: the readings
    of the cores, in the order met. *)
Fixpoint _update_sensors_scan (fs : filesystem) (entries : list string)
    : result (list Z) :=
  match entries with
  | [] => Ret []
  | entry :: rest =>
      if is_cpu_entry entry then
        val ← read_sysfs_int_call fs
                (SYSFS_CPU_BASE ++ "/" ++ entry ++ "/cpufreq/scaling_cur_freq");
        freqs ← _update_sensors_scan fs rest;
        Ret match val with
            | Some v => v :: freqs
            | None => freqs
            end
      else _update_sensors_scan fs rest
  end.

(** [sum(freqs)]. *)
Definition sum_list (l : list Z) : Z := fold_left Z.add l 0.

(** The label of the frequency item; the average is taken before
    anything is written.  (A list has fewer than [2 ^ 63] elements, so
    that its length has a decimal text.) *)
Definition freq_label (freqs : list Z) : result string :=
  match freqs with
  | [] => Ret "CPU: N/A"
  | _ :: _ =>
      avg ← py_truediv (sum_list freqs) (Pos.of_nat (length freqs));
      let avg_mhz := float_div_int avg 1000 in
      Ret ("CPU: " ++ format_0f avg_mhz ++ " MHz  ("
             ++ str_int (Z.of_nat (length freqs)) ++ " cores)")
  end.

(** The label of the temperature item; the degree sign is code point
    176. *)
Definition temp_label (temp : option spec_float) : string :=
  match temp with
  | Some t => "Temp: " ++ format_0f t ++ " " ++ String (ascii_of_N 176) "C"
  | None => "Temp: N/A"
  end.

(** [_update_sensors]: the two labels it sets, the frequency label
    first; it then returns [True]. *)
Definition _update_sensors (listdir : listing) (fs : filesystem)
    : result (string * string) :=
  freqs ← match listdir SYSFS_CPU_BASE with
          | Some entries => _update_sensors_scan fs (sorted_strings entries)
          | None => Ret []
          end;
  label ← freq_label freqs;
  temp ← _read_cpu_temp listdir fs;
  Ret (label, temp_label temp).

(** ** The application *)

(** What the callbacks do to the widgets. *)
Inductive gui_action : Set :=
  | SetIcon (icon label : string)
  | ShowError (title message : string)
  | ShowInfo (title message : string)
  | SetProfileActive (key : string) (active : bool)
  | SetUndervoltActive (key : string) (active : bool)
  | SetGpuLabel (label : string).

(** A [dict] of menu items: its keys in insertion order; the item stored
    under a key is named by the key. *)
Definition dict_set (keys : list string) (k : string) : list string :=
  if decide (k ∈ keys) then keys else (keys ++ [k])%list.

Record WattSaver : Set := {
  cpu : CPUInfo;
  self_profiles : list profile;
  has_envycontrol : bool;
  has_undervolt : bool;
  current_profile_key : string;
  current_undervolt_key : string;
  profile_items : list string;
  undervolt_items : list string;
}.

Definition set_current_profile_key (self : WattSaver) (k : string)
    : WattSaver :=
  {| cpu := cpu self; self_profiles := self_profiles self;
     has_envycontrol := has_envycontrol self;
     has_undervolt := has_undervolt self;
     current_profile_key := k;
     current_undervolt_key := current_undervolt_key self;
     profile_items := profile_items self;
     undervolt_items := undervolt_items self |}.

Definition set_current_undervolt_key (self : WattSaver) (k : string)
    : WattSaver :=
  {| cpu := cpu self; self_profiles := self_profiles self;
     has_envycontrol := has_envycontrol self;
     has_undervolt := has_undervolt self;
     current_profile_key := current_profile_key self;
     current_undervolt_key := k;
     profile_items := profile_items self;
     undervolt_items := undervolt_items self |}.

(** How a callback ends: it returns, with the new state and the actions
    it performed, or an exception leaves it after some actions. *)
Inductive callback : Type :=
  | Returned (self : WattSaver) (actions : list gui_action)
  | KeyError (key : string) (actions : list gui_action)
  | Raised (e : exn).

(** The icon [__init__] gives the indicator. *)
Definition initial_icon (profiles : list profile) (k : string) : string :=
  match _get_profile profiles k with
  | Some current => icon current
  | None => "power-profile-balanced-symbolic"
  end.

(** [WattSaver.__init__] up to the first poll of the sensors: the state
    and the icon of the indicator.  [_build_menu] fills the two dicts. *)
Definition WattSaver_init (fs : filesystem) (which : list string -> run_outcome)
    : result (WattSaver * string) :=
  c ← CPUInfo_init fs;
  let profiles := build_profiles c in
  let envycontrol := has_command which "envycontrol" in
  let undervolt := has_command which "intel-undervolt" in
  pk ← _detect_profile fs profiles;
  uk ← _detect_undervolt fs;
  Ret ({| cpu := c; self_profiles := profiles;
          has_envycontrol := envycontrol; has_undervolt := undervolt;
          current_profile_key := pk; current_undervolt_key := uk;
          profile_items := fold_left dict_set (key <$> profiles) [];
          undervolt_items :=
            if undervolt
            then fold_left dict_set (preset_key <$> UNDERVOLT_PRESETS) []
            else [] |},
       initial_icon profiles pk).

Definition _on_profile_toggled (executable : string -> bool) (here : string)
    (run : subprocess) (self : WattSaver) (item_active : bool)
    (profile_key : string) : callback :=
  if negb item_active then Returned self []
  else if String.eqb profile_key (current_profile_key self)
  then Returned self []
  else
    match _get_profile (self_profiles self) profile_key with
    | None => Returned self []
    | Some profile =>
        let '(ok, msg) :=
          run_helper executable here run "set-freq"
            [str_int (freq_khz profile)] in
        if ok then
          Returned (set_current_profile_key self profile_key)
            [SetIcon (icon profile) (label profile)]
        else
          let shown := [ShowError "Profile Switch Failed" msg] in
          if decide (current_profile_key self ∈ profile_items self)
          then Returned self
                 (shown ++ [SetProfileActive (current_profile_key self) true])
          else KeyError (current_profile_key self) shown
    end.

(** The [for ... else] over the presets: the offset of the first preset
    with the key. *)
Definition preset_offset_of (k : string) : option Z :=
  preset_offset <$> List.find (fun p => String.eqb (preset_key p) k)
                      UNDERVOLT_PRESETS.

Definition _on_undervolt_toggled (executable : string -> bool) (here : string)
    (run : subprocess) (self : WattSaver) (item_active : bool)
    (preset_key : string) : callback :=
  if negb item_active then Returned self []
  else if String.eqb preset_key (current_undervolt_key self)
  then Returned self []
  else
    match preset_offset_of preset_key with
    | None => Returned self []
    | Some offset =>
        let '(ok, msg) :=
          run_helper executable here run "set-undervolt" [str_int offset] in
        if ok then Returned (set_current_undervolt_key self preset_key) []
        else
          let shown := [ShowError "Undervolt Failed" msg] in
          if decide (current_undervolt_key self ∈ undervolt_items self)
          then Returned self
                 (shown
                  ++ [SetUndervoltActive (current_undervolt_key self) true])
          else KeyError (current_undervolt_key self) shown
    end.

(** [_on_custom_freq] after the dialog: [response_ok] is whether it was
    confirmed and [freq_ghz] the value of the spin button. *)
Definition _on_custom_freq (executable : string -> bool) (here : string)
    (run : subprocess) (self : WattSaver) (response_ok : bool)
    (freq_ghz : spec_float) : callback :=
  if negb response_ok then Returned self []
  else
    match PyFloat.to_int (PyFloat.mul freq_ghz (PyFloat.of_int 1000000)) with
    | Raise e => Raised e
    | Ret freq_khz =>
        let '(ok, msg) :=
          run_helper executable here run "set-freq" [str_int freq_khz] in
        if ok then
          Returned (set_current_profile_key self "__custom__")
            (SetIcon "power-profile-balanced-symbolic"
               ("Custom (" ++ PyFloat.format_f 2 freq_ghz ++ " GHz)")
             :: ((fun k => SetProfileActive k false) <$> profile_items self))
        else Returned self [ShowError "Failed to Set Frequency" msg]
    end.

(** [_on_custom_undervolt] after the dialog; the value is converted
    before the response is looked at. *)
Definition _on_custom_undervolt (executable : string -> bool) (here : string)
    (run : subprocess) (self : WattSaver) (response_ok : bool)
    (value : spec_float) : callback :=
  match PyFloat.to_int value with
  | Raise e => Raised e
  | Ret offset =>
      if negb response_ok then Returned self []
      else
        let '(ok, msg) :=
          run_helper executable here run "set-undervolt" [str_int offset] in
        if ok then
          Returned (set_current_undervolt_key self "__custom__")
            ((fun k => SetUndervoltActive k false) <$> undervolt_items self)
        else Returned self [ShowError "Undervolt Failed" msg]
  end.

(** [_on_gpu_switch]; the confirmation is asked for only when the mode
    differs from the detected one. *)
Definition _on_gpu_switch (executable : string -> bool) (here : string)
    (run : subprocess) (self : WattSaver) (mode : string)
    (response_ok : bool) : callback :=
  let current := _detect_gpu_mode run in
  if String.eqb mode current then Returned self []
  else if negb response_ok then Returned self []
  else
    let '(ok, msg) := run_helper executable here run "set-gpu" [mode] in
    if ok then
      Returned self
        [SetGpuLabel ("GPU: " ++ mode);
         ShowInfo "GPU Mode Changed"
           ("Switched to " ++ mode ++ ". Please reboot.")]
    else Returned self [ShowError "GPU Switch Failed" msg].

(** * Vocabulary of the statements *)

(** ** Paths *)

(** The sysfs nodes the detection reads. *)
Definition MIN_FREQ : string :=
  SYSFS_CPU_BASE ++ "/cpu0/cpufreq/cpuinfo_min_freq".
Definition MAX_FREQ : string :=
  SYSFS_CPU_BASE ++ "/cpu0/cpufreq/cpuinfo_max_freq".
Definition BASE_FREQ : string :=
  SYSFS_CPU_BASE ++ "/cpu0/cpufreq/base_frequency".
Definition SCALING_MAX_FREQ : string :=
  SYSFS_CPU_BASE ++ "/cpu0/cpufreq/scaling_max_freq".

(** The undervolt configuration file. *)
Definition UNDERVOLT_CONF : string := "/etc/intel-undervolt.conf".

(** ** Integer texts *)

(** The text of an integer: an optional minus sign, then digits. *)
Definition int_text (neg : bool) (ds : string) : string :=
  (if neg then "-" else "") ++ ds.

(** The integer such a text denotes. *)
Definition int_value (neg : bool) (ds : string) : Z :=
  if neg then - PyStr.digits_val 0 ds else PyStr.digits_val 0 ds.

(** ** Deduplication *)

(** The profiles the loop appends when it starts from [seen]. *)
Fixpoint kept (seen : gset Z) (ps : list profile) : list profile :=
  match ps with
  | [] => []
  | p :: ps' =>
      if decide (bucket_of (freq_khz p) ∈ seen) then kept seen ps'
      else p :: kept ({[ bucket_of (freq_khz p) ]} ∪ seen) ps'
  end.

(** Strictly ascending order of [freq_khz]. *)
Definition ascending (ps : list profile) : Prop :=
  StronglySorted (λ p q, freq_khz p < freq_khz q) ps.

(** No two profiles in the same bucket. *)
Definition distinct_buckets (ps : list profile) : Prop :=
  NoDup ((bucket_of ∘ freq_khz) <$> ps).

(** ** The base-frequency pattern *)

(** What the pattern matches right after an ["@"]: white space, a
    non-empty run of digits and dots, white space, ["GHz"]. *)
Definition matches_after (s g : string) : Prop :=
  ∃ ws1 ws2 post,
    s = ws1 ++ g ++ ws2 ++ "GHz" ++ post
    ∧ PyStr.all_chars PyStr.isspace ws1 = true
    ∧ PyStr.all_chars PyStr.isspace ws2 = true
    ∧ PyStr.nonempty g = true
    ∧ PyStr.all_chars BaseFreqPattern.in_group g = true.

(** The pattern matches [s] with group [g]: after some ["@"], and after
    no earlier one. *)
Inductive matches : string → string → Prop :=
  | matches_here (c : ascii) (s g : string) :
      BaseFreqPattern.is_at c = true → matches_after s g →
      matches (String c s) g
  | matches_later (c : ascii) (s g : string) :
      (BaseFreqPattern.is_at c = true → ∀ g', ¬ matches_after s g') →
      matches s g → matches (String c s) g.

(** ** The nearest profile *)

(** The distance of a profile from the live frequency. *)
Definition distance (current : Z) (p : profile) : Z :=
  Z.abs (current - freq_khz p).

(** [best] is the first profile of [l] at the least distance: every
    profile before it is strictly farther, none after it is nearer. *)
Definition first_nearest (current : Z) (l pre : list profile)
    (best : profile) (post : list profile) : Prop :=
  l = (pre ++ best :: post)%list
  ∧ Forall (λ q, distance current best < distance current q) pre
  ∧ Forall (λ q, distance current best <= distance current q) post.

(** The loop state in which [best] is the choice so far. *)
Definition state_of (current : Z) (best : profile) : string * Z :=
  (key best, distance current best).

(** ** Undervolt lines *)

(** What a matching line yields. *)
Definition line_result (l : string) : result string :=
  tok ← last_part (PyStr.split (PyStr.strip l));
  offset ← int_of_float_text tok;
  Ret (classify_offset offset).

(** ** Machines *)

(** A low-power part: 400 MHz to 3.8 GHz, with a nominal 1.00 GHz named
    in the model string and no [base_frequency] node. *)
Definition fs_low_base : filesystem :=
  {[ "/proc/cpuinfo" :=
       "processor : 0
model name : Intel(R) Core(TM) i7-1060G7 CPU @ 1.00GHz
";
     "/sys/devices/system/cpu/cpu0/cpufreq/cpuinfo_min_freq" := "400000
";
     "/sys/devices/system/cpu/cpu0/cpufreq/cpuinfo_max_freq" := "3800000
" ]}.

(** What [CPUInfo.__init__] makes of it. *)
Definition cpu_low_base : CPUInfo :=
  {| model := "Intel(R) Core(TM) i7-1060G7 CPU @ 1.00GHz";
     driver := "unknown";
     hw_min_khz := 400000;
     hw_max_khz := 3800000;
     base_khz := 1000000;
     governors := ["powersave"; "performance"] |}.

(** The narrow-range machine of the specification's example. *)
Definition cpu_narrow : CPUInfo :=
  {| model := "Unknown CPU";
     driver := "unknown";
     hw_min_khz := 3600000;
     hw_max_khz := 3800000;
     base_khz := 3700000;
     governors := ["powersave"; "performance"] |}.

(** The profiles of the specification's wide-range example. *)
Definition profiles_wide : list profile :=
  build_profiles {| model := "Unknown CPU"; driver := "unknown";
                    hw_min_khz := 800000; hw_max_khz := 4000000;
                    base_khz := 2400000;
                    governors := ["powersave"; "performance"] |}.

(** A machine whose minimum-frequency node reads [0]. *)
Definition fs_zero_min : filesystem :=
  {[ MIN_FREQ := "0
"; MAX_FREQ := "3800000
" ]}.

(** A machine whose base-frequency node reads [0]. *)
Definition fs_zero_base : filesystem := {[ BASE_FREQ := "0
" ]}.

(** A machine whose base-frequency node reads 1.8 GHz. *)
Definition fs_base_node : filesystem := {[ BASE_FREQ := "1800000
" ]}.

(** A machine whose live [scaling_max_freq] holds [content]. *)
Definition fs_live (content : string) : filesystem :=
  {[ SCALING_MAX_FREQ := content ]}.

(** A machine whose undervolt configuration holds [content]. *)
Definition fs_undervolt (content : string) : filesystem :=
  {[ UNDERVOLT_CONF := content ]}.

(** A configuration with a CPU-plane offset of -75 mV. *)
Definition conf_medium : string :=
  "# CPU undervolt
undervolt 0 'CPU' -75
undervolt 2 'CPU Cache' -75
".

(** Only the helper installed under [/opt] is executable. *)
Definition only_opt_helper (path : string) : bool :=
  String.eqb path "/opt/wattsaver/wattsaver-helper.sh".

(** Every command runs into its time-out. *)
Definition run_hangs : subprocess := λ _ _, TimeoutExpired.

(** Every command succeeds and prints a line. *)
Definition run_succeeds : subprocess := λ _ _, Completed 0 "ok
" "".

(** The authentication prompt is dismissed. *)
Definition run_dismissed : subprocess :=
  λ _ _, Completed 126 "" "Error executing command as another user
".

(** Every command fails with a message on the standard error. *)
Definition run_fails : subprocess :=
  λ _ _, Completed 1 "" "cpufreq: permission denied
".

(** The query prints a known mode and exits with status 1. *)
Definition run_nonzero_nvidia : subprocess :=
  λ _ _, Completed 1 "nvidia
" "".

(** The query reports the hybrid mode. *)
Definition run_hybrid : subprocess :=
  λ _ _, Completed 0 "Current mode: Hybrid
" "".

(** ** Words and lines *)

(** A word: at least one character, none of them white space. *)
Definition word (w : string) : Prop :=
  PyStr.nonempty w = true
  ∧ PyStr.all_chars (λ c, negb (PyStr.isspace c)) w = true.

Definition is_colon (c : ascii) : bool := (PyStr.code c =? 58)%N.

(** The newline character. *)
Definition NL : string := String (ascii_of_N 10) "".

(** ** More machines *)

(** What [CPUInfo.__init__] makes of a machine on which no node can be
    read. *)
Definition cpu_defaults : CPUInfo :=
  {| model := "Unknown CPU";
     driver := "unknown";
     hw_min_khz := 800000;
     hw_max_khz := 4000000;
     base_khz := 2400000;
     governors := ["powersave"; "performance"] |}.

(** A machine whose minimum and maximum frequencies coincide. *)
Definition cpu_fixed : CPUInfo :=
  {| model := "Unknown CPU";
     driver := "unknown";
     hw_min_khz := 2000000;
     hw_max_khz := 2000000;
     base_khz := 2000000;
     governors := ["powersave"; "performance"] |}.

(** ** Sensors *)

Definition THERMAL_ZONE0 : string := "/sys/class/thermal/thermal_zone0/temp".



(** The node [_update_sensors] reads under an entry. *)
Definition cur_freq_node (entry : string) : string :=
  SYSFS_CPU_BASE ++ "/" ++ entry ++ "/cpufreq/scaling_cur_freq".

(** What one hwmon chip contributes: the reading of its [temp1_input]
    when it is named as a CPU chip, nothing otherwise. *)
Definition chip_reading (fs : filesystem) (hwmon : string)
    : result (option Z) :=
  if is_cpu_chip
       (read_sysfs fs (path_join (path_join SYSFS_HWMON hwmon) "name"))
  then read_sysfs_int_call fs
         (path_join (path_join SYSFS_HWMON hwmon) "temp1_input")
  else Ret None.

(** What one entry of the CPU directory contributes to the average. *)
Definition core_reading (fs : filesystem) (entry : string)
    : result (option Z) :=
  if is_cpu_entry entry then read_sysfs_int_call fs (cur_freq_node entry)
  else Ret None.

(** Millidegrees to degrees: [val / 1000]. *)
Definition degrees (v : Z) : result spec_float := py_truediv v 1000.

(** What a reading gives: its degrees, or nothing. *)
Definition temp_of (val : option Z) : result (option spec_float) :=
  match val with
  | Some v => Some <$> degrees v
  | None => Ret None
  end.

(** A machine with an ACPI chip and a CPU chip that reads 0. *)
Definition fs_hwmon_zero : filesystem :=
  {[ "/sys/class/hwmon/hwmon0/name" := "acpitz
";
     "/sys/class/hwmon/hwmon0/temp1_input" := "27800
";
     "/sys/class/hwmon/hwmon1/name" := "coretemp
";
     "/sys/class/hwmon/hwmon1/temp1_input" := "0
";
     "/sys/class/thermal/thermal_zone0/temp" := "27800
" ]}.

(** Two cores, one of them without a readable frequency. *)
Definition fs_two_cores : filesystem :=
  {[ "/sys/devices/system/cpu/cpu0/cpufreq/scaling_cur_freq" := "1800000
";
     "/sys/devices/system/cpu/cpu1/cpufreq/scaling_cur_freq" := "" ]}.

(** Directory listings of that machine, in two orders. *)
Definition listdir_a : listing :=
  λ d, if String.eqb d SYSFS_CPU_BASE
       then Some ["cpu1"; "cpufreq"; "cpu0"; "cpuidle"]
       else None.

Definition listdir_b : listing :=
  λ d, if String.eqb d SYSFS_CPU_BASE
       then Some ["cpuidle"; "cpu0"; "cpu1"; "cpufreq"]
       else None.

Definition listdir_hwmon : listing :=
  λ d, if String.eqb d SYSFS_HWMON then Some ["hwmon0"; "hwmon1"] else None.

(** ** The application state *)

(** The keys of the undervolt presets. *)
Definition PRESET_KEYS : list string := preset_key <$> UNDERVOLT_PRESETS.

(** The state in which a failed switch can put the radio items back:
    the items are those of the profiles of the CPU, and the current key
    names one of them. *)
Definition consistent (self : WattSaver) : Prop :=
  self_profiles self = build_profiles (cpu self)
  ∧ profile_items self = key <$> self_profiles self
  ∧ current_profile_key self ∈ profile_items self.

(** The helper call fails: no helper, or a command that does not exit
    with status 0. *)
Definition helper_fails (executable : string → bool) (here : string)
    (run : subprocess) (command : string) (args : list string) : Prop :=
  fst (run_helper executable here run command args) = false.

(** A CPU-plane line of the undervolt configuration with the decimal
    text of [n] as its offset. *)
Definition cpu_line (n : Z) : string := "undervolt 0 'CPU' " ++ str_int n.

(** The integers from [lo], [len] of them. *)
Definition int_range (lo : Z) (len : nat) : list Z :=
  (λ i, lo + Z.of_nat i) <$> seq 0 len.

(** [int(float(str(n)))] gives [n] back. *)
Definition reads_back (n : Z) : bool :=
  match int_of_float_text (str_int n) with
  | Ret m => m =? n
  | Raise _ => false
  end.

(** A virtual machine: a model string with a nominal 1.60 GHz and no
    [cpufreq] nodes at all. *)
Definition fs_vm : filesystem :=
  {[ "/proc/cpuinfo" :=
       "processor : 0
model name : Intel(R) Core(TM) i5-8250U CPU @ 1.60GHz
" ]}.

(** No command is installed. *)
Definition which_none : list string → run_outcome := λ _, Completed 1 "" "".

(** No helper is installed. *)
Definition no_helper : string → bool := λ _, false.

(** The application on the machine without nodes, with Balanced
    current. *)
Definition app_defaults : WattSaver :=
  {| cpu := cpu_defaults;
     self_profiles := build_profiles cpu_defaults;
     has_envycontrol := false;
     has_undervolt := true;
     current_profile_key := "balanced";
     current_undervolt_key := "none";
     profile_items := key <$> build_profiles cpu_defaults;
     undervolt_items := PRESET_KEYS |}.

(** 2.0 as a [float]. *)
Definition two_ghz : spec_float := PyFloat.of_int 2.

(** What [CPUInfo.__init__] makes of the virtual machine. *)
Definition cpu_vm : CPUInfo :=
  {| model := "Intel(R) Core(TM) i5-8250U CPU @ 1.60GHz";
     driver := "unknown";
     hw_min_khz := 800000;
     hw_max_khz := 4000000;
     base_khz := 1600000;
     governors := ["powersave"; "performance"] |}.

(** The application on the virtual machine: Balanced shares the bucket
    of Low and is not among the profiles, and it is the current key. *)
Definition app_vm : WattSaver :=
  {| cpu := cpu_vm;
     self_profiles := build_profiles cpu_vm;
     has_envycontrol := false;
     has_undervolt := false;
     current_profile_key := "balanced";
     current_undervolt_key := "none";
     profile_items := ["powersaver"; "low"; "high"; "performance"];
     undervolt_items := [] |}.

(** ** Labels *)

(** A frequency of [k] hundredths of a GHz written exactly: one decimal
    for a whole number of GHz, two otherwise. *)
Definition ghz_text (k : Z) : string :=
  if k mod 100 =? 0 then str_int (k / 100) ++ ".0 GHz"
  else str_int (k / 100) ++ "." ++ PyFloat.decimal 2 (k mod 100) ++ " GHz".

(** [_fmt_ghz] writes [k] hundredths of a GHz exactly. *)
Definition fmt_exact (k : Z) : bool :=
  String.eqb (_fmt_ghz (10000 * k)) (ghz_text k).

(** The helper installed under [/opt]. *)
Definition OPT_HELPER : string := "/opt/wattsaver/wattsaver-helper.sh".

(** ** Beyond the binary64 range *)

(** [n] times the character ["0"]. *)
Fixpoint zeros (n : nat) : string :=
  match n with
  | O => ""
  | S n' => String "0" (zeros n')
  end.

(** A machine whose minimum-frequency node holds [10 ^ 400], in 401
    digits. *)
Definition fs_huge_min : filesystem :=
  {[ MIN_FREQ := String "1" (zeros 400) ++ NL ]}.

(** What [CPUInfo.__init__] makes of it. *)
Definition cpu_huge_min : CPUInfo :=
  {| model := "Unknown CPU";
     driver := "unknown";
     hw_min_khz := 10 ^ 400;
     hw_max_khz := 4000000;
     base_khz := (10 ^ 400 + 4000000) / 2;
     governors := ["powersave"; "performance"] |}.

(** A CPU chip whose [temp1_input] holds [10 ^ 400]. *)
Definition fs_hwmon_huge : filesystem :=
  {[ "/sys/class/hwmon/hwmon0/name" := "coretemp
";
     "/sys/class/hwmon/hwmon0/temp1_input" := String "1" (zeros 400) ]}.

Definition listdir_hwmon0 : listing :=
  λ d, if String.eqb d SYSFS_HWMON then Some ["hwmon0"] else None.

(** One core whose [scaling_cur_freq] holds [10 ^ 400]. *)
Definition fs_core_huge : filesystem :=
  {[ "/sys/devices/system/cpu/cpu0/cpufreq/scaling_cur_freq"
       := String "1" (zeros 400) ]}.

(** ** Proof tools *)

(** Facts about single characters, by cases on the eight bits. *)
Ltac by_char c :=
  destruct c as [[] [] [] [] [] [] [] []]; vm_compute; congruence.

(** Moves the first character of an append out of it. *)
Ltac push_append :=
  repeat match goal with
  | |- context [String ?c ?s ++ ?t] =>
      change (String c s ++ t) with (String c (s ++ t))
  end.

(** Two concrete paths are different strings. *)
Ltac paths_differ := vm_compute; discriminate.

(** * Properties *)

(** ** The sysfs readers *)

(** The only exception that leaves [read_sysfs_int] is the [ValueError]
    of [int]. *)
Lemma read_sysfs_int_raises fs path e :
  read_sysfs_int fs path = Raise e → e = ValueError.
Proof.
  unfold read_sysfs_int. intros H.
  repeat case_match; congruence.
Qed.

(** A path that cannot be read gives [None] from both readers. *)
Lemma read_sysfs_unreadable fs path :
  fs !! path = None →
  read_sysfs fs path = None ∧ read_sysfs_int fs path = Ret None.
Proof.
  intros H. unfold read_sysfs_int, read_sysfs. by rewrite H.
Qed.

Lemma isdecimal_not_space c :
  PyStr.isdecimal c = true → PyStr.isspace c = false.
Proof. by_char c. Qed.

Lemma isdecimal_not_minus c :
  PyStr.isdecimal c = true → PyStr.is_minus c = false.
Proof. by_char c. Qed.

Lemma isdecimal_isdigit c :
  PyStr.isdecimal c = true → PyStr.isdigit_char c = true.
Proof. by_char c. Qed.

Lemma isdecimal_not_sign c :
  PyStr.isdecimal c = true →
  (PyStr.code c =? 45)%N = false ∧ (PyStr.code c =? 43)%N = false.
Proof. split; revert H; by_char c. Qed.

Lemma isdigit_char_not_space c :
  PyStr.isdigit_char c = true → PyStr.isspace c = false.
Proof. by_char c. Qed.

Lemma isdigit_char_not_minus c :
  PyStr.isdigit_char c = true → PyStr.is_minus c = false.
Proof. by_char c. Qed.

Lemma is_minus_spec c :
  PyStr.is_minus c = true →
  PyStr.isspace c = false ∧ PyStr.isdecimal c = false
  ∧ (PyStr.code c =? 45)%N = true ∧ (PyStr.code c =? 95)%N = false.
Proof. repeat split; revert H; by_char c. Qed.

Section Strip.

Implicit Types (s t : string) (c : ascii).

Lemma all_chars_app f s t :
  PyStr.all_chars f (s ++ t) = PyStr.all_chars f s && PyStr.all_chars f t.
Proof.
  induction s as [|c s IH]; simpl; [done |].
  rewrite IH. by rewrite andb_assoc.
Qed.

Lemma all_chars_impl (f g : ascii → bool) s :
  (∀ c, f c = true → g c = true) →
  PyStr.all_chars f s = true → PyStr.all_chars g s = true.
Proof.
  intros Hfg. induction s as [|c s IH]; simpl; [done |].
  intros [Hc Hs]%andb_prop. rewrite (Hfg _ Hc). by apply IH.
Qed.

(** Nothing is stripped on the right of a text without white space. *)
Lemma rstrip_no_space s :
  PyStr.all_chars (λ c, negb (PyStr.isspace c)) s = true →
  PyStr.rstrip_with PyStr.isspace s = s.
Proof.
  induction s as [|c s IH]; simpl; [done |].
  intros [Hc Hs]%andb_prop. rewrite (IH Hs).
  destruct s; [| done].
  by apply negb_true_iff in Hc as ->.
Qed.

Lemma lstrip_no_space s :
  PyStr.all_chars (λ c, negb (PyStr.isspace c)) s = true →
  PyStr.lstrip_with PyStr.isspace s = s.
Proof.
  destruct s as [|c s]; simpl; [done |].
  intros [Hc _]%andb_prop. by apply negb_true_iff in Hc as ->.
Qed.

Lemma strip_no_space s :
  PyStr.all_chars (λ c, negb (PyStr.isspace c)) s = true →
  PyStr.strip s = s.
Proof.
  intros H. unfold PyStr.strip.
  rewrite (lstrip_no_space _ H). by apply rstrip_no_space.
Qed.

(** A run of decimal digits is its own digit grouping. *)
Lemma digit_groups_decimal b s :
  PyStr.all_chars PyStr.isdecimal s = true →
  b || PyStr.nonempty s = true →
  PyStr.digit_groups b s = Some s.
Proof.
  revert b. induction s as [|c s IH]; intros b; simpl.
  - rewrite orb_false_r. by intros _ ->.
  - intros [Hc Hs]%andb_prop _. rewrite Hc.
    by rewrite (IH true Hs eq_refl).
Qed.

(** Stripping minus signs from digits removes nothing. *)
Lemma lstrip_minus_digits s :
  PyStr.all_chars PyStr.isdigit_char s = true →
  PyStr.lstrip_with PyStr.is_minus s = s.
Proof.
  destruct s as [|c s]; simpl; [done |].
  intros [Hc _]%andb_prop. by rewrite (isdigit_char_not_minus _ Hc).
Qed.

(** What [val.lstrip("-")] returns has lost only minus signs. *)
Lemma lstrip_minus_split s :
  ∃ m, s = m ++ PyStr.lstrip_with PyStr.is_minus s
       ∧ PyStr.all_chars PyStr.is_minus m = true.
Proof.
  induction s as [|c s (m & Hm & Hall)]; simpl.
  - by exists "".
  - destruct (PyStr.is_minus c) eqn:Hc.
    + exists (String c m). split.
      * change (String c s = String c (m ++ PyStr.lstrip_with PyStr.is_minus s)).
        by f_equal.
      * simpl. by rewrite Hc, Hall.
    + by exists "".
Qed.

End Strip.

Section IntText.

Implicit Types (neg : bool) (ds : string).

Lemma int_text_no_space neg ds :
  PyStr.all_chars PyStr.isdecimal ds = true →
  PyStr.all_chars (λ c, negb (PyStr.isspace c)) (int_text neg ds) = true.
Proof.
  intros Hdec.
  assert (Hns : PyStr.all_chars (λ c, negb (PyStr.isspace c)) ds = true).
  { eapply all_chars_impl; [| exact Hdec].
    intros c Hc. by rewrite (isdecimal_not_space _ Hc). }
  destruct neg; exact Hns.
Qed.

Lemma int_text_lstrip neg ds :
  PyStr.all_chars PyStr.isdecimal ds = true →
  PyStr.lstrip_with PyStr.is_minus (int_text neg ds) = ds.
Proof.
  intros Hdec.
  assert (H : PyStr.lstrip_with PyStr.is_minus ds = ds).
  { apply lstrip_minus_digits.
    eapply all_chars_impl; [apply isdecimal_isdigit | done]. }
  destruct neg; exact H.
Qed.

Lemma int_text_split_sign neg ds :
  PyStr.nonempty ds = true →
  PyStr.all_chars PyStr.isdecimal ds = true →
  PyStr.split_sign (int_text neg ds) = (neg, ds).
Proof.
  intros Hne Hdec. destruct neg; [reflexivity |].
  destruct ds as [|d ds']; [done |].
  simpl in Hdec. apply andb_prop in Hdec as [Hd _].
  destruct (isdecimal_not_sign _ Hd) as [Hm Hp].
  unfold int_text. simpl. by rewrite Hm, Hp.
Qed.

(** [int] on such a text. *)
Lemma int_int_text neg ds :
  PyStr.nonempty ds = true →
  PyStr.all_chars PyStr.isdecimal ds = true →
  PyStr.int (int_text neg ds) = Some (int_value neg ds).
Proof.
  intros Hne Hdec. unfold PyStr.int.
  rewrite (strip_no_space _ (int_text_no_space neg ds Hdec)).
  rewrite (int_text_split_sign neg ds Hne Hdec).
  by rewrite (digit_groups_decimal false ds Hdec Hne).
Qed.

Lemma int_text_nonempty neg ds :
  PyStr.nonempty ds = true → PyStr.nonempty (int_text neg ds) = true.
Proof. destruct neg; [reflexivity |]. by destruct ds. Qed.

(** Decimal digits with at most one leading minus sign are parsed. *)
Lemma read_sysfs_int_digits fs path neg ds :
  PyStr.nonempty ds = true →
  PyStr.all_chars PyStr.isdecimal ds = true →
  read_sysfs fs path = Some (int_text neg ds) →
  read_sysfs_int fs path = Ret (Some (int_value neg ds)).
Proof.
  intros Hne Hdec Hread. unfold read_sysfs_int. rewrite Hread.
  rewrite (int_text_nonempty _ _ Hne), (int_text_lstrip _ _ Hdec).
  rewrite (int_int_text _ _ Hne Hdec).
  unfold PyStr.isdigit. rewrite Hne.
  by rewrite (all_chars_impl _ _ _ isdecimal_isdigit Hdec).
Qed.

End IntText.

(** Two or more leading minus signs pass the guard and make [int]
    raise. *)
Lemma read_sysfs_int_minus_minus fs path rest :
  PyStr.isdigit (PyStr.lstrip_with PyStr.is_minus rest) = true →
  read_sysfs fs path = Some ("--" ++ rest) →
  read_sysfs_int fs path = Raise ValueError.
Proof.
  intros Hguard Hread. unfold read_sysfs_int. rewrite Hread.
  change ("--" ++ rest) with (String "-" (String "-" rest)).
  cbn [PyStr.lstrip_with PyStr.nonempty andb].
  change (PyStr.is_minus "-") with true. cbn iota.
  rewrite Hguard.
  destruct (lstrip_minus_split rest) as (m & Hm & Hall).
  assert (Hns : PyStr.all_chars (λ c, negb (PyStr.isspace c)) rest = true).
  { rewrite Hm, all_chars_app. apply andb_true_intro. split.
    - eapply all_chars_impl; [| exact Hall].
      intros c Hc. by destruct (is_minus_spec _ Hc) as (-> & _).
    - unfold PyStr.isdigit in Hguard. apply andb_prop in Hguard as [_ Hd].
      eapply all_chars_impl; [| exact Hd].
      intros c Hc. by rewrite (isdigit_char_not_space _ Hc). }
  unfold PyStr.int.
  rewrite strip_no_space by (simpl; by rewrite Hns).
  cbn [PyStr.split_sign]. change (PyStr.code "-" =? 45)%N with true. cbn iota.
  reflexivity.
Qed.

Example read_sysfs_int_number :
  read_sysfs_int {[ "f" := "2400000
" ]} "f" = Ret (Some 2400000).
Proof. vm_compute. reflexivity. Qed.

Example read_sysfs_int_two_minus :
  read_sysfs_int {[ "f" := "--5" ]} "f" = Raise ValueError.
Proof. vm_compute. reflexivity. Qed.

Example read_sysfs_int_missing :
  read_sysfs_int {[ "f" := "-5" ]} "g" = Ret None.
Proof. vm_compute. reflexivity. Qed.

(** A superscript two is a digit for [str.isdigit] and not for [int]. *)
Example read_sysfs_int_superscript :
  read_sysfs_int (fs_live (String (ascii_of_N 178) "")) SCALING_MAX_FREQ
  = Raise ValueError.
Proof. vm_compute. reflexivity. Qed.

(** C3: a file that holds two minus signs and a digit passes the guard
    of [read_sysfs_int] (all leading minus signs are stripped before the
    digit test) and [int] then raises [ValueError]: the reader does not
    return [None] there, and the exception reaches [_detect_profile]. *)
Theorem C3_read_sysfs_int_raises_on_double_minus :
  let fs : filesystem := {[ SCALING_MAX_FREQ := "--5
" ]} in
  read_sysfs fs SCALING_MAX_FREQ = Some "--5"
  ∧ read_sysfs_int fs SCALING_MAX_FREQ = Raise ValueError
  ∧ ∀ profiles, _detect_profile fs profiles = Raise ValueError.
Proof.
  intros fs.
  assert (Hr : read_sysfs fs SCALING_MAX_FREQ = Some "--5")
    by (vm_compute; reflexivity).
  assert (Hi : read_sysfs_int fs SCALING_MAX_FREQ = Raise ValueError).
  { apply (read_sysfs_int_minus_minus _ _ "5"); [reflexivity | exact Hr]. }
  split; [exact Hr |]. split; [exact Hi |].
  intros profiles. unfold _detect_profile.
  change (SYSFS_CPU_BASE ++ "/cpu0/cpufreq/scaling_max_freq")
    with SCALING_MAX_FREQ.
  by rewrite Hi.
Qed.

(** ** The deduplication loop *)

Section Dedup.

Implicit Types (seen : gset Z) (ps unique : list profile) (p q : profile).

Lemma dedup_loop_kept ps seen unique :
  snd (dedup_loop ps (seen, unique)) = (unique ++ kept seen ps)%list.
Proof.
  revert seen unique. induction ps as [|p ps IH]; intros seen unique; simpl.
  - by rewrite app_nil_r.
  - unfold dedup_loop in *. simpl. case_decide.
    + apply IH.
    + rewrite IH. by rewrite <- app_assoc.
Qed.

Lemma build_profiles_kept self :
  build_profiles self = kept ∅ (candidates self).
Proof. unfold build_profiles. by rewrite dedup_loop_kept. Qed.

Lemma kept_elem seen ps q :
  q ∈ kept seen ps → q ∈ ps ∧ bucket_of (freq_khz q) ∉ seen.
Proof.
  revert seen. induction ps as [|p ps IH]; intros seen; simpl.
  - by intros ?%elem_of_nil.
  - case_decide as Hin.
    + intros Hq. destruct (IH _ Hq) as [? ?]. split; [by right | done].
    + intros [->|Hq]%elem_of_cons.
      * split; [by left | done].
      * destruct (IH _ Hq) as [? Hfresh]. split; [by right |].
        intros Hs. apply Hfresh, elem_of_union. by right.
Qed.

Lemma kept_sublist seen ps : kept seen ps `sublist_of` ps.
Proof.
  revert seen. induction ps as [|p ps IH]; intros seen; simpl.
  - constructor.
  - case_decide; [apply sublist_cons | apply sublist_skip]; apply IH.
Qed.

(** No two kept profiles have the same bucket. *)
Lemma kept_NoDup seen ps :
  NoDup ((bucket_of ∘ freq_khz) <$> kept seen ps).
Proof.
  revert seen. induction ps as [|p ps IH]; intros seen; simpl.
  - constructor.
  - case_decide; [apply IH |].
    rewrite fmap_cons. constructor; [| apply IH].
    intros (q & Hq & Hin)%list_elem_of_fmap.
    apply kept_elem in Hin as [_ Hfresh]. simpl in Hq. set_solver.
Qed.

(** The first profile of a list is kept when nothing was seen. *)
Lemma kept_head p ps :
  kept ∅ (p :: ps) = p :: kept {[ bucket_of (freq_khz p) ]} ps.
Proof.
  simpl. case_decide as Hin; [set_solver |].
  by rewrite (right_id_L ∅ (∪)).
Qed.

(** On candidates in non-decreasing order the kept ones increase
    strictly: equal frequencies share a bucket. *)
Lemma kept_ascending seen ps :
  StronglySorted (λ p q, freq_khz p <= freq_khz q) ps →
  StronglySorted (λ p q, freq_khz p < freq_khz q) (kept seen ps).
Proof.
  intros Hs. revert seen.
  induction Hs as [|p ps Hs IH Hall]; intros seen; simpl.
  - constructor.
  - case_decide; [apply IH |].
    constructor; [apply IH |].
    apply Forall_forall. intros q Hq.
    apply kept_elem in Hq as [Hq Hfresh].
    rewrite Forall_forall in Hall. specialize (Hall q Hq).
    assert (freq_khz q ≠ freq_khz p) by (intros E; rewrite E in Hfresh; set_solver).
    lia.
Qed.

End Dedup.

Lemma ascending_freqs ps :
  ascending ps → StronglySorted Z.lt (freq_khz <$> ps).
Proof.
  induction 1 as [|p ps _ IH Hall]; simpl; constructor; [done |].
  by apply Forall_fmap.
Qed.

Theorem build_profiles_distinct_buckets self :
  distinct_buckets (build_profiles self).
Proof. rewrite build_profiles_kept. apply kept_NoDup. Qed.

Theorem build_profiles_sublist self :
  build_profiles self `sublist_of` candidates self.
Proof. rewrite build_profiles_kept. apply kept_sublist. Qed.

(** The quarter points of a non-negative span are in order. *)
Lemma quarter_points lo hi :
  lo <= hi →
  lo <= lo + (hi - lo) / 4
  ∧ lo + (hi - lo) / 4 <= lo + 3 * (hi - lo) / 4
  ∧ lo + 3 * (hi - lo) / 4 <= hi.
Proof.
  intros H.
  pose proof (Z.div_mod (hi - lo) 4 ltac:(lia)).
  pose proof (Z.mod_pos_bound (hi - lo) 4 ltac:(lia)).
  pose proof (Z.div_mod (3 * (hi - lo)) 4 ltac:(lia)).
  pose proof (Z.mod_pos_bound (3 * (hi - lo)) 4 ltac:(lia)).
  lia.
Qed.

(** When the base frequency lies between the Low and High points, the
    profiles come out in strictly ascending order. *)
Theorem build_profiles_ascending_base_between self :
  hw_min_khz self <= hw_max_khz self →
  hw_min_khz self + (hw_max_khz self - hw_min_khz self) / 4 <= base_khz self →
  base_khz self
    <= hw_min_khz self + 3 * (hw_max_khz self - hw_min_khz self) / 4 →
  ascending (build_profiles self).
Proof.
  intros Hlohi Hlow Hhigh.
  rewrite build_profiles_kept. apply kept_ascending.
  destruct (quarter_points _ _ Hlohi) as (H1 & H2 & H3).
  unfold candidates.
  repeat (constructor; [| repeat (constructor; simpl; try lia)]).
  constructor.
Qed.

(** ** Profile synthesis on concrete machines *)

Example CPUInfo_init_low_base : CPUInfo_init fs_low_base = Ret cpu_low_base.
Proof. vm_compute. reflexivity. Qed.

(** The wide-range machine of the specification's first example: five
    buckets, nothing dropped. *)
Example build_profiles_wide :
  (λ p, (key p, label p, freq_khz p)) <$>
    build_profiles {| model := "Unknown CPU"; driver := "unknown";
                      hw_min_khz := 800000; hw_max_khz := 4000000;
                      base_khz := 2400000; governors := [] |}
  = [ ("powersaver", "Power Saver (0.80 GHz)", 800000);
      ("low", "Low (1.60 GHz)", 1600000);
      ("balanced", "Balanced (2.40 GHz)", 2400000);
      ("high", "High (3.20 GHz)", 3200000);
      ("performance", "Performance (4.0 GHz)", 4000000) ].
Proof. vm_compute. reflexivity. Qed.

(** C1: on a machine with [hw_min_khz < hw_max_khz] whose base frequency
    lies below the Low point, [build_profiles] returns Low (1250000)
    before Balanced (1000000): the list is not in ascending [freq_khz]
    order, although the buckets are pairwise distinct. *)
Theorem C1_build_profiles_out_of_order :
  CPUInfo_init fs_low_base = Ret cpu_low_base
  ∧ hw_min_khz cpu_low_base < hw_max_khz cpu_low_base
  ∧ (λ p, (key p, freq_khz p)) <$> build_profiles cpu_low_base
    = [ ("powersaver", 400000); ("low", 1250000); ("balanced", 1000000);
        ("high", 2950000); ("performance", 3800000) ]
  ∧ distinct_buckets (build_profiles cpu_low_base)
  ∧ ¬ ascending (build_profiles cpu_low_base).
Proof.
  split; [apply CPUInfo_init_low_base |].
  split; [reflexivity |].
  split; [vm_compute; reflexivity |].
  split; [apply build_profiles_distinct_buckets |].
  intros Hasc%ascending_freqs.
  replace (freq_khz <$> build_profiles cpu_low_base)
    with [400000; 1250000; 1000000; 2950000; 3800000] in Hasc
    by (vm_compute; reflexivity).
  inversion Hasc as [|? ? Htl _]; subst.
  inversion Htl as [|? ? _ Hall]; subst.
  inversion Hall as [|? ? Hlt _]; subst.
  lia.
Qed.

(** C2, as stated, fails: on the narrow-range machine the Low candidate
    (3650000) and the Balanced candidate (3700000) are in different
    buckets, and Low does not survive. *)
Lemma C2_low_balanced_same_bucket_refuted :
  ¬ (bucket_of 3650000 = bucket_of 3700000
     ∧ "low" ∈ (key <$> build_profiles cpu_narrow)
     ∧ "balanced" ∉ (key <$> build_profiles cpu_narrow)).
Proof. intros [H _]. vm_compute in H. discriminate. Qed.

(** C2, amended: on the narrow-range machine the candidates sit at
    3600000, 3650000, 3700000, 3750000 and 3800000 with buckets 36, 36,
    37, 38 and 38 (ties go to the even bucket); Low shares the bucket of
    Power Saver and is dropped, Balanced is alone in bucket 37 and
    survives, so exactly one of Low and Balanced is returned:
    Balanced. *)
Theorem C2_narrow_range_dedup :
  (λ p, (key p, freq_khz p, bucket_of (freq_khz p))) <$> candidates cpu_narrow
  = [ ("powersaver", 3600000, 36); ("low", 3650000, 36);
      ("balanced", 3700000, 37); ("high", 3750000, 38);
      ("performance", 3800000, 38) ]
  ∧ key <$> build_profiles cpu_narrow = ["powersaver"; "balanced"; "high"]
  ∧ ("low" ∉ (key <$> build_profiles cpu_narrow))
  ∧ "balanced" ∈ (key <$> build_profiles cpu_narrow).
Proof.
  assert (Hk : key <$> build_profiles cpu_narrow
               = ["powersaver"; "balanced"; "high"])
    by (vm_compute; reflexivity).
  split; [vm_compute; reflexivity |].
  split; [exact Hk |].
  rewrite Hk. split.
  - intros Hin. repeat (apply elem_of_cons in Hin as [Hin|Hin]; [discriminate |]).
    by apply elem_of_nil in Hin.
  - apply elem_of_cons. right. apply elem_of_cons. by left.
Qed.

(** The list starts with the Power Saver profile at [hw_min_khz], and
    the access to the first profile in [_detect_profile] does not raise
    [IndexError] on it. *)
Lemma build_profiles_head (self : CPUInfo) :
  ∃ rest,
    build_profiles self
    = {| key := "powersaver";
         label := "Power Saver (" ++ _fmt_ghz (hw_min_khz self) ++ ")";
         freq_khz := hw_min_khz self;
         icon := "power-profile-power-saver-symbolic" |} :: rest
    ∧ ∀ fs, _detect_profile fs (build_profiles self) ≠ Raise IndexError.
Proof.
  rewrite build_profiles_kept. unfold candidates. rewrite kept_head.
  eexists. split; [reflexivity |].
  intros fs. unfold _detect_profile.
  destruct (read_sysfs_int fs _) as [[c|]|e] eqn:Hr;
    unfold mbind, result_bind; try discriminate.
  apply read_sysfs_int_raises in Hr as ->. discriminate.
Qed.

(** ** Zero and absence *)

Section Delete.

Implicit Types (fs : filesystem) (p q : string).

Lemma read_sysfs_delete_ne fs p q :
  p ≠ q → read_sysfs (delete p fs) q = read_sysfs fs q.
Proof. intros H. unfold read_sysfs. by rewrite lookup_delete_ne. Qed.

Lemma read_sysfs_int_delete_ne fs p q :
  p ≠ q → read_sysfs_int (delete p fs) q = read_sysfs_int fs q.
Proof. intros H. unfold read_sysfs_int. by rewrite read_sysfs_delete_ne. Qed.

Lemma read_sysfs_int_delete_eq fs p :
  read_sysfs_int (delete p fs) p = Ret None.
Proof. apply read_sysfs_unreadable, lookup_delete_eq. Qed.

Lemma _read_model_delete_ne fs p :
  p ≠ "/proc/cpuinfo" → _read_model (delete p fs) = _read_model fs.
Proof. intros H. unfold _read_model. by rewrite lookup_delete_ne. Qed.

Lemma _read_governors_delete_ne fs p :
  p ≠ SYSFS_CPU_BASE ++ "/cpu0/cpufreq/scaling_available_governors" →
  _read_governors (delete p fs) = _read_governors fs.
Proof. intros H. unfold _read_governors. by rewrite read_sysfs_delete_ne. Qed.

(** A base-frequency node that reads [0] or cannot be read leaves the
    resolution to the model string and the midpoint. *)
Lemma _detect_base_freq_falsy fs m lo hi o :
  read_sysfs_int fs BASE_FREQ = Ret o → truthy o = false →
  _detect_base_freq fs m lo hi
  = match BaseFreqPattern.search m with
    | Some group1 =>
        match PyFloat.of_string group1 with
        | Some f => PyFloat.to_int (PyFloat.mul f (PyFloat.of_int 1000000))
        | None => Raise ValueError
        end
    | None => Ret ((lo + hi) / 2)
    end.
Proof.
  intros Hr Ht. unfold _detect_base_freq.
  change (SYSFS_CPU_BASE ++ "/cpu0/cpufreq/base_frequency") with BASE_FREQ.
  rewrite Hr. unfold mbind, result_bind. by rewrite Ht.
Qed.

Lemma _detect_base_freq_delete_ne fs p m lo hi :
  p ≠ BASE_FREQ →
  _detect_base_freq (delete p fs) m lo hi = _detect_base_freq fs m lo hi.
Proof.
  intros H. unfold _detect_base_freq.
  change (SYSFS_CPU_BASE ++ "/cpu0/cpufreq/base_frequency") with BASE_FREQ.
  by rewrite read_sysfs_int_delete_ne.
Qed.

End Delete.

(** C9: a frequency node that reads as the integer [0] has the effect of
    a node that cannot be read.  For the minimum, the maximum and the
    base-frequency node alike, [CPUInfo.__init__] and [_detect_base_freq]
    give the same result as on the file system without that node; the
    limits then take their defaults 800000 and 4000000, and the base
    frequency is resolved by the later methods. *)
Theorem C9_zero_reads_as_unreadable (fs : filesystem) (path : string) :
  path ∈ [MIN_FREQ; MAX_FREQ; BASE_FREQ] →
  read_sysfs_int fs path = Ret (Some 0) →
  CPUInfo_init fs = CPUInfo_init (delete path fs)
  ∧ (∀ m lo hi,
       _detect_base_freq fs m lo hi = _detect_base_freq (delete path fs) m lo hi)
  ∧ (∀ cpu, CPUInfo_init fs = Ret cpu →
       (path = MIN_FREQ → hw_min_khz cpu = 800000)
       ∧ (path = MAX_FREQ → hw_max_khz cpu = 4000000)).
Proof.
  intros Hpath Hzero.
  assert (Hbase : ∀ m lo hi,
    _detect_base_freq fs m lo hi = _detect_base_freq (delete path fs) m lo hi).
  { intros m lo hi. destruct (decide (path = BASE_FREQ)) as [->|Hne].
    - rewrite (_detect_base_freq_falsy fs m lo hi _ Hzero eq_refl).
      by rewrite (_detect_base_freq_falsy (delete BASE_FREQ fs) m lo hi _
                    (read_sysfs_int_delete_eq _ _) eq_refl).
    - by rewrite _detect_base_freq_delete_ne. }
  assert (Hmodel : _read_model (delete path fs) = _read_model fs).
  { apply _read_model_delete_ne.
    repeat (apply elem_of_cons in Hpath as [->|Hpath]; [paths_differ |]).
    by apply elem_of_nil in Hpath. }
  assert (Hgov : _read_governors (delete path fs) = _read_governors fs).
  { apply _read_governors_delete_ne.
    repeat (apply elem_of_cons in Hpath as [->|Hpath]; [paths_differ |]).
    by apply elem_of_nil in Hpath. }
  assert (Hdrv : read_sysfs (delete path fs)
                   (SYSFS_CPU_BASE ++ "/cpu0/cpufreq/scaling_driver")
                 = read_sysfs fs (SYSFS_CPU_BASE ++ "/cpu0/cpufreq/scaling_driver")).
  { apply read_sysfs_delete_ne.
    repeat (apply elem_of_cons in Hpath as [->|Hpath]; [paths_differ |]).
    by apply elem_of_nil in Hpath. }
  assert (Hmin : int_or <$> read_sysfs_int (delete path fs) MIN_FREQ
                 = int_or <$> read_sysfs_int fs MIN_FREQ).
  { destruct (decide (path = MIN_FREQ)) as [->|Hne].
    - by rewrite read_sysfs_int_delete_eq, Hzero.
    - by rewrite read_sysfs_int_delete_ne. }
  assert (Hmax : int_or <$> read_sysfs_int (delete path fs) MAX_FREQ
                 = int_or <$> read_sysfs_int fs MAX_FREQ).
  { destruct (decide (path = MAX_FREQ)) as [->|Hne].
    - by rewrite read_sysfs_int_delete_eq, Hzero.
    - by rewrite read_sysfs_int_delete_ne. }
  assert (Hinit : CPUInfo_init fs = CPUInfo_init (delete path fs)).
  { unfold CPUInfo_init.
    change (SYSFS_CPU_BASE ++ "/cpu0/cpufreq/cpuinfo_min_freq") with MIN_FREQ.
    change (SYSFS_CPU_BASE ++ "/cpu0/cpufreq/cpuinfo_max_freq") with MAX_FREQ.
    rewrite Hmodel, Hgov, Hdrv.
    destruct (_read_model fs) as [m|e]; [| done].
    unfold mbind, result_bind.
    destruct (read_sysfs_int fs MIN_FREQ) as [lo|e],
             (read_sysfs_int (delete path fs) MIN_FREQ) as [lo'|e'];
      simpl in Hmin; try congruence.
    injection Hmin as Hmin.
    destruct (read_sysfs_int fs MAX_FREQ) as [hi|e],
             (read_sysfs_int (delete path fs) MAX_FREQ) as [hi'|e'];
      simpl in Hmax; try congruence.
    injection Hmax as Hmax.
    assert (Hlo : int_or lo' 800000 = int_or lo 800000) by (by rewrite Hmin).
    assert (Hhi : int_or hi' 4000000 = int_or hi 4000000) by (by rewrite Hmax).
    rewrite Hlo, Hhi. by rewrite <- Hbase. }
  split; [exact Hinit |]. split; [exact Hbase |].
  intros cpu Hcpu. unfold CPUInfo_init in Hcpu.
  change (SYSFS_CPU_BASE ++ "/cpu0/cpufreq/cpuinfo_min_freq")
    with MIN_FREQ in Hcpu.
  change (SYSFS_CPU_BASE ++ "/cpu0/cpufreq/cpuinfo_max_freq")
    with MAX_FREQ in Hcpu.
  unfold mbind, result_bind in Hcpu.
  destruct (_read_model fs) as [m|]; [| done].
  destruct (read_sysfs_int fs MIN_FREQ) as [lo|] eqn:Hlo; [| done].
  destruct (read_sysfs_int fs MAX_FREQ) as [hi|] eqn:Hhi; [| done].
  destruct (_detect_base_freq fs m _ _) as [b|]; [| done].
  injection Hcpu as <-. simpl. split; intros ->.
  - rewrite Hlo in Hzero. by injection Hzero as ->.
  - rewrite Hhi in Hzero. by injection Hzero as ->.
Qed.

(** On a machine whose minimum-frequency node reads [0]. *)
Lemma C9_zero_reads_as_unreadable_witness :
  MIN_FREQ ∈ [MIN_FREQ; MAX_FREQ; BASE_FREQ]
  ∧ read_sysfs_int fs_zero_min MIN_FREQ = Ret (Some 0)
  ∧ CPUInfo_init fs_zero_min = CPUInfo_init (delete MIN_FREQ fs_zero_min)
  ∧ (∀ m lo hi,
       _detect_base_freq fs_zero_min m lo hi
       = _detect_base_freq (delete MIN_FREQ fs_zero_min) m lo hi)
  ∧ (∀ cpu, CPUInfo_init fs_zero_min = Ret cpu →
       (MIN_FREQ = MIN_FREQ → hw_min_khz cpu = 800000)
       ∧ (MIN_FREQ = MAX_FREQ → hw_max_khz cpu = 4000000)).
Proof.
  assert (Hin : MIN_FREQ ∈ [MIN_FREQ; MAX_FREQ; BASE_FREQ])
    by (apply elem_of_cons; left; reflexivity).
  assert (Hz : read_sysfs_int fs_zero_min MIN_FREQ = Ret (Some 0))
    by (vm_compute; reflexivity).
  split; [exact Hin |]. split; [exact Hz |].
  exact (C9_zero_reads_as_unreadable fs_zero_min MIN_FREQ Hin Hz).
Defined.

Example CPUInfo_init_zero_min :
  hw_min_khz <$> CPUInfo_init fs_zero_min = Ret 800000.
Proof. vm_compute. reflexivity. Qed.

(** ** The base-frequency pattern *)

Section Pattern.

Import BaseFreqPattern.
Implicit Types (s t g : string) (f : ascii → bool).

Lemma append_cons c s t : String c s ++ t = String c (s ++ t).
Proof. reflexivity. Qed.

Lemma str_app_nil_r s : s ++ "" = s.
Proof.
  induction s as [|c s IH]; [done |]. rewrite append_cons. by rewrite IH.
Qed.

Lemma take_while_lstrip f s :
  s = take_while f s ++ PyStr.lstrip_with f s.
Proof.
  induction s as [|c s IH]; simpl; [done |].
  destruct (f c); [| done].
  push_append. by f_equal.
Qed.

Lemma take_while_all f s : PyStr.all_chars f (take_while f s) = true.
Proof.
  induction s as [|c s IH]; simpl; [done |].
  destruct (f c) eqn:Hc; simpl; [by rewrite Hc | done].
Qed.

Lemma lstrip_app f s t :
  PyStr.all_chars f s = true →
  PyStr.lstrip_with f (s ++ t) = PyStr.lstrip_with f t.
Proof.
  induction s as [|c s IH]; [done |].
  simpl. intros [Hc Hs]%andb_prop.
  push_append. simpl. rewrite Hc. by apply IH.
Qed.

Lemma take_while_app f s t :
  PyStr.all_chars f s = true →
  take_while f (s ++ t) = s ++ take_while f t.
Proof.
  induction s as [|c s IH]; [done |].
  simpl. intros [Hc Hs]%andb_prop.
  push_append. simpl. rewrite Hc. f_equal. by apply IH.
Qed.

Lemma startswith_GHz s :
  PyStr.startswith s "GHz" = true ↔ ∃ post, s = "GHz" ++ post.
Proof.
  unfold PyStr.startswith. split.
  - destruct s as [|a [|b [|c post]]]; simpl; try done;
      repeat (case_match; try done).
    subst. intros _. by exists post.
  - intros [post ->]. destruct post; vm_compute; reflexivity.
Qed.

Lemma in_group_not_space c : in_group c = true → PyStr.isspace c = false.
Proof. by_char c. Qed.

Lemma isspace_not_in_group c : PyStr.isspace c = true → in_group c = false.
Proof. by_char c. Qed.

Lemma match_after_sound s g : match_after s = Some g → matches_after s g.
Proof.
  unfold match_after.
  set (s1 := PyStr.lstrip_with PyStr.isspace s).
  set (s2 := PyStr.lstrip_with PyStr.isspace (PyStr.lstrip_with in_group s1)).
  destruct (PyStr.nonempty (take_while in_group s1)) eqn:Hne; [| done].
  destruct (PyStr.startswith s2 "GHz") eqn:Hs; [| done].
  simpl. intros [= <-].
  apply startswith_GHz in Hs as [post Hpost].
  exists (take_while PyStr.isspace s),
         (take_while PyStr.isspace (PyStr.lstrip_with in_group s1)), post.
  split.
  - rewrite <- Hpost. unfold s2.
    rewrite <- (take_while_lstrip PyStr.isspace (PyStr.lstrip_with in_group s1)).
    rewrite <- (take_while_lstrip in_group s1).
    apply take_while_lstrip.
  - by rewrite !take_while_all.
Qed.

(** The text after the group starts with a space or with ["G"]. *)
Lemma group_stops ws2 post :
  PyStr.all_chars PyStr.isspace ws2 = true →
  take_while in_group (ws2 ++ "GHz" ++ post) = ""
  ∧ PyStr.lstrip_with in_group (ws2 ++ "GHz" ++ post)
    = ws2 ++ "GHz" ++ post.
Proof.
  destruct ws2 as [|w ws2]; [done |].
  simpl. intros [Hw _]%andb_prop.
  push_append. simpl. by rewrite (isspace_not_in_group _ Hw).
Qed.

Lemma match_after_complete s g : matches_after s g → match_after s = Some g.
Proof.
  intros (ws1 & ws2 & post & -> & H1 & H2 & Hne & Hg).
  unfold match_after.
  destruct (group_stops ws2 post H2) as [Htw Hls].
  assert (Hs1 : PyStr.lstrip_with PyStr.isspace
                  (ws1 ++ g ++ ws2 ++ "GHz" ++ post)
                = g ++ ws2 ++ "GHz" ++ post).
  { rewrite (lstrip_app _ _ _ H1).
    destruct g as [|c g]; [done |].
    simpl in Hg. apply andb_prop in Hg as [Hc _].
    push_append. simpl. by rewrite (in_group_not_space _ Hc). }
  rewrite Hs1.
  rewrite (take_while_app _ _ _ Hg), Htw, str_app_nil_r.
  rewrite (lstrip_app _ _ _ Hg), Hls.
  rewrite (lstrip_app _ _ _ H2).
  rewrite Hne.
  change (PyStr.lstrip_with PyStr.isspace ("GHz" ++ post)) with ("GHz" ++ post).
  by rewrite (proj2 (startswith_GHz _) (ex_intro _ post eq_refl)).
Qed.

Lemma search_matches s g : search s = Some g ↔ matches s g.
Proof.
  split.
  - induction s as [|c s IH]; simpl; [done |].
    destruct (is_at c) eqn:Hc.
    + destruct (match_after s) as [g0|] eqn:Hm.
      * intros [= <-]. apply matches_here; [done |].
        by apply match_after_sound.
      * intros H. apply matches_later; [| by apply IH].
        intros _ g' Hg'%match_after_complete. congruence.
    + intros H. apply matches_later; [intros ?; congruence | by apply IH].
  - induction 1 as [c s g Hc Hm | c s g Hno _ IH]; simpl.
    + by rewrite Hc, (match_after_complete _ _ Hm).
    + destruct (is_at c) eqn:Hc; [| done].
      destruct (match_after s) as [g0|] eqn:Hm; [| done].
      apply match_after_sound in Hm. by destruct (Hno eq_refl g0).
Qed.

Lemma search_none s : search s = None ↔ ∀ g, ¬ matches s g.
Proof.
  split.
  - intros H g Hg%search_matches. congruence.
  - intros H. destruct (search s) as [g|] eqn:Hs; [| done].
    apply search_matches in Hs. by destruct (H g).
Qed.

End Pattern.

(** ** Base frequency resolution *)

(** C6, as stated, fails: a base-frequency node that yields the value
    [0] is not returned; on a model string without the pattern the
    midpoint is. *)
Lemma C6_zero_base_node_not_returned :
  ¬ (∀ v, read_sysfs_int fs_zero_base BASE_FREQ = Ret (Some v) →
          _detect_base_freq fs_zero_base "Unknown CPU" 800000 4000000 = Ret v).
Proof.
  intros H. specialize (H 0 ltac:(vm_compute; reflexivity)).
  vm_compute in H. discriminate.
Qed.

(** C6, amended: the base frequency is resolved in this order.  A
    base-frequency node that yields a value other than [0] gives that
    value.  Otherwise (no value, or [0]), when the pattern matches the
    model string and [float] accepts the matched group, the result is
    the float times 1000000, truncated by [int]; when the pattern does
    not match, the result is the midpoint [(hw_min + hw_max) // 2]. *)
Theorem C6_base_freq_resolution (fs : filesystem) (m : string) (lo hi : Z)
    (node : option Z) :
  read_sysfs_int fs BASE_FREQ = Ret node →
  (∀ v, node = Some v → v ≠ 0 → _detect_base_freq fs m lo hi = Ret v)
  ∧ (truthy node = false →
     (∀ g f, BaseFreqPattern.search m = Some g →
             PyFloat.of_string g = Some f →
             _detect_base_freq fs m lo hi
             = PyFloat.to_int (PyFloat.mul f (PyFloat.of_int 1000000)))
     ∧ (BaseFreqPattern.search m = None →
        _detect_base_freq fs m lo hi = Ret ((lo + hi) / 2))).
Proof.
  intros Hnode. split.
  - intros v -> Hv. unfold _detect_base_freq.
    change (SYSFS_CPU_BASE ++ "/cpu0/cpufreq/base_frequency") with BASE_FREQ.
    rewrite Hnode. unfold mbind, result_bind, truthy.
    by rewrite (proj2 (Z.eqb_neq v 0) Hv).
  - intros Hfalsy.
    rewrite (_detect_base_freq_falsy fs m lo hi node Hnode Hfalsy).
    split.
    + intros g f -> Hf. by rewrite Hf.
    + by intros ->.
Qed.

(** One machine for each of the three methods. *)
Lemma C6_base_freq_resolution_witness :
  (read_sysfs_int fs_base_node BASE_FREQ = Ret (Some 1800000)
   ∧ _detect_base_freq fs_base_node "Unknown CPU" 400000 4600000
     = Ret 1800000)
  ∧ (read_sysfs_int ∅ BASE_FREQ = Ret None
     ∧ _detect_base_freq ∅ "Intel(R) Core(TM) i5-7200U CPU @ 2.50GHz"
         400000 3100000 = Ret 2500000)
  ∧ (read_sysfs_int fs_zero_base BASE_FREQ = Ret (Some 0)
     ∧ _detect_base_freq fs_zero_base "Unknown CPU" 800000 4000000
       = Ret 2400000).
Proof.
  assert (H1 : read_sysfs_int fs_base_node BASE_FREQ = Ret (Some 1800000))
    by (vm_compute; reflexivity).
  assert (H2 : read_sysfs_int ∅ BASE_FREQ = Ret None)
    by (vm_compute; reflexivity).
  assert (H3 : read_sysfs_int fs_zero_base BASE_FREQ = Ret (Some 0))
    by (vm_compute; reflexivity).
  split; [split; [exact H1 |] | split; [split; [exact H2 |] | split; [exact H3 |]]].
  - apply (proj1 (C6_base_freq_resolution fs_base_node "Unknown CPU"
                    400000 4600000 _ H1) 1800000 eq_refl).
    discriminate.
  - rewrite (proj1 (proj2 (C6_base_freq_resolution ∅
               "Intel(R) Core(TM) i5-7200U CPU @ 2.50GHz" 400000 3100000 _ H2)
               eq_refl) "2.50" (S754_finite false 5629499534213120 (-51)));
      vm_compute; reflexivity.
  - apply (proj2 (proj2 (C6_base_freq_resolution fs_zero_base "Unknown CPU"
                    800000 4000000 _ H3) eq_refl)).
    vm_compute. reflexivity.
Defined.

Example _detect_base_freq_float_product :
  _detect_base_freq ∅ "Intel(R) Xeon(R) CPU @ 2.01GHz" 800000 4000000
  = Ret 2009999.
Proof. vm_compute. reflexivity. Qed.

Example _detect_base_freq_group_not_float :
  _detect_base_freq ∅ "CPU @ 1.2.3GHz" 800000 4000000 = Raise ValueError.
Proof. vm_compute. reflexivity. Qed.

(** ** Profile matching *)

Section Nearest.

Variable current : Z.
Implicit Types (l pre post rest : list profile) (p q best : profile).

Lemma closer_state best p :
closer current (state_of current best) p
= state_of current
    (if distance current p <? distance current best then p else best).
Proof. unfold closer, state_of, distance. by case_match. Qed.

Lemma first_nearest_step l pre best post p :
first_nearest current l pre best post →
∃ pre' post',
  first_nearest current (l ++ [p])%list pre'
    (if distance current p <? distance current best then p else best) post'.
Proof.
intros (-> & Hpre & Hpost).
destruct (Z.ltb_spec (distance current p) (distance current best)) as [Hlt|Hge].
- exists (pre ++ best :: post)%list, []. split; [done |]. split; [| constructor].
  apply Forall_app. split; [| constructor].
  + eapply Forall_impl; [exact Hpre |]. simpl. lia.
  + done.
  + eapply Forall_impl; [exact Hpost |]. simpl. lia.
- exists pre, (post ++ [p])%list. split.
  + by rewrite <- app_assoc.
  + split; [done |]. apply Forall_app. split; [done |].
    by constructor.
Qed.

Lemma first_nearest_fold rest l pre best post :
first_nearest current l pre best post →
∃ pre' best' post',
  first_nearest current (l ++ rest)%list pre' best' post'
  ∧ fold_left (closer current) rest (state_of current best)
    = state_of current best'.
Proof.
revert l pre best post.
induction rest as [|p rest IH]; intros l pre best post Hinv.
- exists pre, best, post. by rewrite app_nil_r.
- destruct (first_nearest_step _ _ _ _ p Hinv) as (pre1 & post1 & Hstep).
  destruct (IH _ _ _ _ Hstep) as (pre' & best' & post' & Hfin & Hfold).
  exists pre', best', post'. split.
  + by rewrite <- app_assoc in Hfin.
  + change (fold_left (closer current) (p :: rest) (state_of current best))
      with (fold_left (closer current) rest
              (closer current (state_of current best) p)).
    by rewrite closer_state.
Qed.

(** The matching loop returns the key of the first nearest profile. *)
Lemma nearest_loop p0 rest :
∃ pre best post,
  first_nearest current (p0 :: rest) pre best post
  ∧ fst (fold_left (closer current) rest
           (key p0, Z.abs (current - freq_khz p0))) = key best.
Proof.
destruct (first_nearest_fold rest [p0] [] p0 [])
  as (pre & best & post & Hfin & Hfold).
{ split; [done |]. split; constructor. }
exists pre, best, post. split; [exact Hfin |].
change (key p0, Z.abs (current - freq_khz p0)) with (state_of current p0).
by rewrite Hfold.
Qed.

Lemma first_nearest_least l pre best post q :
first_nearest current l pre best post → q ∈ l →
distance current best <= distance current q.
Proof.
intros (-> & Hpre & Hpost) Hq.
rewrite Forall_forall in Hpre. rewrite Forall_forall in Hpost.
apply elem_of_app in Hq as [Hq|Hq].
- specialize (Hpre _ Hq). lia.
- apply elem_of_cons in Hq as [->|Hq]; [lia |]. by apply Hpost.
Qed.

Lemma first_nearest_elem l pre best post :
first_nearest current l pre best post → best ∈ l.
Proof.
intros (-> & _). apply elem_of_app. right. by left.
Qed.

(** In a list in non-decreasing order of frequency, the first nearest
  profile is the lowest of the nearest ones. *)
Lemma first_nearest_lowest l pre best post q :
first_nearest current l pre best post →
StronglySorted (λ p q, freq_khz p <= freq_khz q) l →
q ∈ l → distance current q = distance current best →
freq_khz best <= freq_khz q.
Proof.
intros (-> & Hpre & Hpost) Hsorted Hq Hd.
rewrite Forall_forall in Hpre.
apply elem_of_app in Hq as [Hq|Hq].
- specialize (Hpre _ Hq). lia.
- apply elem_of_cons in Hq as [->|Hq]; [lia |].
  apply StronglySorted_app_1_r in Hsorted.
  inversion Hsorted as [|? ? _ Hall]; subst.
  rewrite Forall_forall in Hall. by apply Hall.
Qed.

End Nearest.

(** C5, as stated, fails on the tie rule: on the profiles of the
    low-base machine a live value of 1125000 is equally far from Low
    (1250000) and Balanced (1000000); the first one met, Low, is
    returned, and it is the higher of the two. *)
Lemma C5_tie_goes_to_first_not_to_lowest :
  (λ p, (key p, freq_khz p)) <$> build_profiles cpu_low_base
    = [ ("powersaver", 400000); ("low", 1250000); ("balanced", 1000000);
        ("high", 2950000); ("performance", 3800000) ]
  ∧ read_sysfs_int (fs_live "1125000") SCALING_MAX_FREQ = Ret (Some 1125000)
  ∧ Z.abs (1125000 - 1250000) = Z.abs (1125000 - 1000000)
  ∧ _detect_profile (fs_live "1125000") (build_profiles cpu_low_base)
    = Ret "low"
  ∧ 1000000 < 1250000.
Proof. repeat split; vm_compute; reflexivity. Qed.

(** C5, amended: when the live [scaling_max_freq] reads as no value the
    result is ["balanced"]; when it reads as [current], for every
    non-empty profile list the result is the key of a profile of the
    list at the least absolute difference from [current], the first such
    profile in list order (every earlier profile is strictly farther);
    so a live value equal to some profile's [freq_khz] selects the first
    profile with that frequency, and the key returned is one of the
    list.  The first nearest profile is the lowest-frequency one among
    the nearest when the list is in ascending frequency order. *)
Theorem C5_detect_profile_first_nearest
    (fs : filesystem) (profiles : list profile) :
  (read_sysfs_int fs SCALING_MAX_FREQ = Ret None →
   _detect_profile fs profiles = Ret "balanced")
  ∧ ∀ current,
      read_sysfs_int fs SCALING_MAX_FREQ = Ret (Some current) →
      profiles ≠ [] →
      ∃ pre best post,
        first_nearest current profiles pre best post
        ∧ _detect_profile fs profiles = Ret (key best)
        ∧ key best ∈ (key <$> profiles)
        ∧ (∀ q, q ∈ profiles → distance current best <= distance current q)
        ∧ (∀ q, q ∈ profiles → freq_khz q = current →
             freq_khz best = current
             ∧ Forall (λ q', freq_khz q' ≠ current) pre)
        ∧ (StronglySorted (λ p q, freq_khz p <= freq_khz q) profiles →
           ∀ q, q ∈ profiles →
                distance current q = distance current best →
                freq_khz best <= freq_khz q).
Proof.
  unfold _detect_profile.
  change (SYSFS_CPU_BASE ++ "/cpu0/cpufreq/scaling_max_freq")
    with SCALING_MAX_FREQ.
  split.
  - by intros ->.
  - intros current -> Hne.
    destruct profiles as [|p0 rest]; [done |].
    destruct (nearest_loop current p0 rest) as (pre & best & post & Hfn & Hkey).
    exists pre, best, post.
    unfold mbind, result_bind. rewrite Hkey.
    pose proof (first_nearest_elem _ _ _ _ _ Hfn) as Hin.
    split; [exact Hfn |]. split; [reflexivity |].
    split; [by apply list_elem_of_fmap_2 |].
    split; [intros q; by apply first_nearest_least with (pre := pre) (post := post) |].
    split.
    + intros q Hq Hfreq.
      pose proof (first_nearest_least _ _ _ _ _ q Hfn Hq) as Hle.
      assert (Hzero : distance current best = 0)
        by (unfold distance in *; lia).
      split; [unfold distance in Hzero; lia |].
      destruct Hfn as (_ & Hpre & _).
      eapply Forall_impl; [exact Hpre |].
      simpl. unfold distance. lia.
    + intros Hsorted q Hq Hd.
      by apply first_nearest_lowest with (current := current) (l := p0 :: rest)
                                         (pre := pre) (post := post).
Qed.

(** On the wide-range profiles, without a live value and with the live
    value 2390000. *)
Lemma C5_detect_profile_first_nearest_witness :
  (read_sysfs_int ∅ SCALING_MAX_FREQ = Ret None
   ∧ _detect_profile ∅ profiles_wide = Ret "balanced")
  ∧ (read_sysfs_int (fs_live "2390000") SCALING_MAX_FREQ = Ret (Some 2390000)
     ∧ profiles_wide ≠ []
     ∧ ∃ pre best post,
         first_nearest 2390000 profiles_wide pre best post
         ∧ _detect_profile (fs_live "2390000") profiles_wide = Ret (key best)
         ∧ key best ∈ (key <$> profiles_wide)
         ∧ (∀ q, q ∈ profiles_wide →
                 distance 2390000 best <= distance 2390000 q)
         ∧ (∀ q, q ∈ profiles_wide → freq_khz q = 2390000 →
              freq_khz best = 2390000
              ∧ Forall (λ q', freq_khz q' ≠ 2390000) pre)
         ∧ (StronglySorted (λ p q, freq_khz p <= freq_khz q) profiles_wide →
            ∀ q, q ∈ profiles_wide →
                 distance 2390000 q = distance 2390000 best →
                 freq_khz best <= freq_khz q)).
Proof.
  assert (H0 : read_sysfs_int ∅ SCALING_MAX_FREQ = Ret None)
    by (vm_compute; reflexivity).
  assert (H1 : read_sysfs_int (fs_live "2390000") SCALING_MAX_FREQ
               = Ret (Some 2390000))
    by (vm_compute; reflexivity).
  assert (H2 : profiles_wide ≠ []) by (vm_compute; discriminate).
  split.
  - split; [exact H0 |].
    exact (proj1 (C5_detect_profile_first_nearest ∅ profiles_wide) H0).
  - split; [exact H1 |]. split; [exact H2 |].
    exact (proj2 (C5_detect_profile_first_nearest (fs_live "2390000")
                    profiles_wide) 2390000 H1 H2).
Defined.

(** The specification's matching example. *)
Example _detect_profile_wide_2390000 :
  _detect_profile (fs_live "2390000") profiles_wide = Ret "balanced".
Proof. vm_compute. reflexivity. Qed.

(** ** Substrings *)

Section Substring.

Implicit Types (s p a b : string).

Lemma prefix_spec p s : String.prefix p s = true ↔ ∃ b, s = p ++ b.
Proof.
revert s. induction p as [|c p IH]; intros s.
- split; [intros _; by exists s | intros _; by destruct s].
- destruct s as [|d s]; simpl.
  + split; [done | intros [b Hb]; discriminate].
  + destruct (ascii_dec c d) as [->|Hne].
    * rewrite IH. split; intros [b Hb]; exists b.
      -- by rewrite Hb.
      -- change (String d p ++ b) with (String d (p ++ b)) in Hb.
         by injection Hb.
    * split; [done |]. intros [b Hb].
      change (String c p ++ b) with (String c (p ++ b)) in Hb.
      injection Hb as Hcd _. by destruct Hne.
Qed.

(** [p in s] holds exactly when [s] is [a ++ p ++ b]. *)
Lemma contains_spec s p : PyStr.contains s p = true ↔ ∃ a b, s = a ++ p ++ b.
Proof.
induction s as [|c s IH].
- unfold PyStr.contains. rewrite orb_false_r, prefix_spec. split.
  + intros [b Hb]. by exists "", b.
  + intros (a & b & Hab). destruct a; [by exists b |]. discriminate.
- change (PyStr.contains (String c s) p)
    with (String.prefix p (String c s) || PyStr.contains s p).
  rewrite orb_true_iff, prefix_spec, IH. split.
  + intros [[b Hb] | (a & b & Hab)].
    * by exists "", b.
    * exists (String c a), b. by rewrite Hab.
  + intros (a & b & Hab). destruct a as [|d a].
    * left. by exists b.
    * right. exists a, b.
      change (String d a ++ p ++ b) with (String d (a ++ p ++ b)) in Hab.
      by injection Hab.
Qed.

End Substring.

(** ** Undervolt detection *)

(** The classification on the offsets at or below zero. *)
Lemma classify_offset_table (offset : Z) :
  (offset = 0 → classify_offset offset = "none")
  ∧ (-50 <= offset < 0 → classify_offset offset = "light")
  ∧ (-100 <= offset <= -51 → classify_offset offset = "medium")
  ∧ (offset < -100 → classify_offset offset = "aggressive").
Proof.
  unfold classify_offset.
  destruct (Z.eqb_spec offset 0), (Z.leb_spec (-50) offset),
    (Z.leb_spec (-100) offset); repeat split; intros; try lia; reflexivity.
Qed.

(** Every preset of the table classifies to its own key. *)
Lemma classify_offset_presets :
  Forall (λ p, classify_offset (preset_offset p) = preset_key p)
    UNDERVOLT_PRESETS.
Proof. repeat constructor. Qed.

(** The scan stops at the first matching line. *)
Lemma _detect_undervolt_scan_first (pre : list string) (l : string)
    (post : list string) :
  Forall (λ x, is_cpu_undervolt_line (PyStr.strip x) = false) pre →
  is_cpu_undervolt_line (PyStr.strip l) = true →
  _detect_undervolt_scan (pre ++ l :: post) = line_result l.
Proof.
  intros Hpre Hl. induction Hpre as [|x pre Hx _ IH]; simpl.
  - by rewrite Hl.
  - by rewrite Hx.
Qed.

Lemma _detect_undervolt_scan_none (ls : list string) :
  Forall (λ x, is_cpu_undervolt_line (PyStr.strip x) = false) ls →
  _detect_undervolt_scan ls = Ret "none".
Proof. induction 1 as [|x ls Hx _ IH]; simpl; [done | by rewrite Hx]. Qed.

(** The classification of [_detect_undervolt].  On every offset at or
    below zero it is defined, with [0] to none, [-50 .. -1] to light,
    [-100 .. -51] to medium and everything below [-100] to aggressive;
    the first undervolt line of the CPU plane decides, by the integer
    that [int(float(...))] makes of its last field.  A missing file, a
    file without such a line, a line whose last field [float] rejects
    (or that [int] rejects with [ValueError]) and a line without fields
    all give none. *)
Theorem _detect_undervolt_classification (fs : filesystem) :
  (∀ offset,
     (offset = 0 → classify_offset offset = "none")
     ∧ (-50 <= offset < 0 → classify_offset offset = "light")
     ∧ (-100 <= offset <= -51 → classify_offset offset = "medium")
     ∧ (offset < -100 → classify_offset offset = "aggressive"))
  ∧ (fs !! UNDERVOLT_CONF = None → _detect_undervolt fs = Ret "none")
  ∧ (∀ content,
       fs !! UNDERVOLT_CONF = Some content →
       Forall (λ x, is_cpu_undervolt_line (PyStr.strip x) = false)
         (PyStr.lines content) →
       _detect_undervolt fs = Ret "none")
  ∧ (∀ content pre l post,
       fs !! UNDERVOLT_CONF = Some content →
       PyStr.lines content = (pre ++ l :: post)%list →
       Forall (λ x, is_cpu_undervolt_line (PyStr.strip x) = false) pre →
       is_cpu_undervolt_line (PyStr.strip l) = true →
       (∀ tok offset,
          last (PyStr.split (PyStr.strip l)) = Some tok →
          int_of_float_text tok = Ret offset →
          _detect_undervolt fs = Ret (classify_offset offset))
       ∧ (∀ tok,
            last (PyStr.split (PyStr.strip l)) = Some tok →
            PyFloat.of_string tok = None
            ∨ int_of_float_text tok = Raise ValueError →
            _detect_undervolt fs = Ret "none")
       ∧ (last (PyStr.split (PyStr.strip l)) = None →
          _detect_undervolt fs = Ret "none")).
Proof.
  split; [apply classify_offset_table |].
  unfold _detect_undervolt.
  change "/etc/intel-undervolt.conf" with UNDERVOLT_CONF.
  split; [by intros -> |].
  split.
  - intros content -> Hnone. by rewrite _detect_undervolt_scan_none.
  - intros content pre l post -> -> Hpre Hl.
    rewrite (_detect_undervolt_scan_first pre l post Hpre Hl).
    unfold line_result, last_part.
    split; [| split].
    + intros tok offset -> Hoff. unfold mbind, result_bind. by rewrite Hoff.
    + intros tok -> Hbad. unfold mbind, result_bind.
      assert (Hv : int_of_float_text tok = Raise ValueError).
      { destruct Hbad as [Hnone | Hv]; [| exact Hv].
        unfold int_of_float_text. by rewrite Hnone. }
      by rewrite Hv.
    + by intros ->.
Qed.

(** An [OverflowError] on the first matching line leaves the function. *)
Lemma _detect_undervolt_overflow (fs : filesystem) (content : string)
    (pre : list string) (l : string) (post : list string) (tok : string) :
  fs !! UNDERVOLT_CONF = Some content →
  PyStr.lines content = (pre ++ l :: post)%list →
  Forall (λ x, is_cpu_undervolt_line (PyStr.strip x) = false) pre →
  is_cpu_undervolt_line (PyStr.strip l) = true →
  last (PyStr.split (PyStr.strip l)) = Some tok →
  int_of_float_text tok = Raise OverflowError →
  _detect_undervolt fs = Raise OverflowError.
Proof.
  intros Hfs Hlines Hpre Hl Htok Hov. unfold _detect_undervolt.
  change "/etc/intel-undervolt.conf" with UNDERVOLT_CONF.
  rewrite Hfs, Hlines, (_detect_undervolt_scan_first pre l post Hpre Hl).
  unfold line_result, last_part. rewrite Htok.
  unfold mbind, result_bind. by rewrite Hov.
Qed.

(** The specification's example: a CPU-plane offset of -75 is medium. *)
Lemma _detect_undervolt_medium :
  fs_undervolt conf_medium !! UNDERVOLT_CONF = Some conf_medium
  ∧ PyStr.lines conf_medium
    = ["# CPU undervolt"; "undervolt 0 'CPU' -75";
       "undervolt 2 'CPU Cache' -75"]
  ∧ last (PyStr.split (PyStr.strip "undervolt 0 'CPU' -75")) = Some "-75"
  ∧ int_of_float_text "-75" = Ret (-75)
  ∧ _detect_undervolt (fs_undervolt conf_medium) = Ret "medium".
Proof.
  assert (H1 : fs_undervolt conf_medium !! UNDERVOLT_CONF = Some conf_medium)
    by (vm_compute; reflexivity).
  assert (H2 : PyStr.lines conf_medium
               = (["# CPU undervolt"] ++ "undervolt 0 'CPU' -75"
                    :: ["undervolt 2 'CPU Cache' -75"])%list)
    by (vm_compute; reflexivity).
  assert (H3 : last (PyStr.split (PyStr.strip "undervolt 0 'CPU' -75"))
               = Some "-75") by (vm_compute; reflexivity).
  assert (H4 : int_of_float_text "-75" = Ret (-75))
    by (vm_compute; reflexivity).
  split; [exact H1 |]. split; [exact H2 |]. split; [exact H3 |].
  split; [exact H4 |].
  change "medium" with (classify_offset (-75)).
  refine (proj1 (proj2 (proj2 (proj2
            (_detect_undervolt_classification (fs_undervolt conf_medium))))
            conf_medium _ _ _ H1 H2 _ _) "-75" (-75) H3 H4).
  - repeat constructor.
  - vm_compute. reflexivity.
Qed.

Example _detect_undervolt_truncates :
  _detect_undervolt (fs_undervolt "undervolt 0 'CPU' -50.9") = Ret "light".
Proof. vm_compute. reflexivity. Qed.

Example _detect_undervolt_not_numeric :
  _detect_undervolt (fs_undervolt "undervolt 0 'CPU' off") = Ret "none".
Proof. vm_compute. reflexivity. Qed.

(** C4: a CPU-plane undervolt line whose last field is an infinity for
    [float] is not answered with none.  The line is selected, [float]
    accepts the field, [int] raises [OverflowError] on the infinity, and
    the handler of [_detect_undervolt] does not list that exception: it
    leaves the function. *)
Theorem C4_detect_undervolt_infinite_offset_raises :
  let line := "undervolt 0 'CPU' -inf" in
  is_cpu_undervolt_line (PyStr.strip line) = true
  ∧ last (PyStr.split (PyStr.strip line)) = Some "-inf"
  ∧ PyFloat.of_string "-inf" = Some (S754_infinity true)
  ∧ int_of_float_text "-inf" = Raise OverflowError
  ∧ undervolt_caught OverflowError = false
  ∧ _detect_undervolt (fs_undervolt line) = Raise OverflowError.
Proof. repeat split; vm_compute; reflexivity. Qed.

Example _detect_undervolt_huge_exponent :
  _detect_undervolt (fs_undervolt "undervolt 0 'CPU' -1e999")
  = Raise OverflowError.
Proof. vm_compute. reflexivity. Qed.

Example _detect_undervolt_nan :
  _detect_undervolt (fs_undervolt "undervolt 0 'CPU' nan") = Ret "none".
Proof. vm_compute. reflexivity. Qed.

(** ** The privileged helper *)

(** C7: the result of [run_helper].  Without a helper script it is a
    failure naming that.  With one, the command is run under [pkexec]
    with a time-out of 30 seconds, and: exit status 0 gives success with
    the stripped standard output; exit status 126 gives failure with
    the authentication message; any other status gives failure with the
    stripped standard error, or the stripped standard output when that
    is empty; the expiry of the time-out gives failure with the time-out
    message; any other exception gives failure with its text.  These are
    all the outcomes: a pair is always returned. *)
Theorem C7_run_helper_outcomes (executable : string → bool) (here : string)
    (run : subprocess) (command : string) (args : list string) :
  (find_helper executable here = None →
   run_helper executable here run command args
   = (false, "Helper script not found"))
  ∧ ∀ helper,
      find_helper executable here = Some helper →
      let outcome := run ("pkexec" :: helper :: command :: args)%list 30 in
      let result := run_helper executable here run command args in
      (∀ stdout stderr,
         outcome = Completed 0 stdout stderr →
         result = (true, PyStr.strip stdout))
      ∧ (∀ stdout stderr,
           outcome = Completed 126 stdout stderr →
           result = (false, "Authentication dismissed"))
      ∧ (∀ returncode stdout stderr,
           outcome = Completed returncode stdout stderr →
           returncode ≠ 0 → returncode ≠ 126 →
           (PyStr.strip stderr ≠ "" → result = (false, PyStr.strip stderr))
           ∧ (PyStr.strip stderr = "" → result = (false, PyStr.strip stdout)))
      ∧ (outcome = TimeoutExpired → result = (false, "Operation timed out"))
      ∧ (∀ message, outcome = Failed message → result = (false, message)).
Proof.
  unfold run_helper. split; [by intros -> |].
  intros helper Hf. cbv zeta. rewrite Hf.
  split; [by intros stdout stderr -> |].
  split; [by intros stdout stderr -> |].
  split; [| split; [by intros -> | by intros message ->]].
  intros returncode stdout stderr -> Hnz Hnd.
  rewrite (proj2 (Z.eqb_neq _ _) Hnz), (proj2 (Z.eqb_neq _ _) Hnd).
  split.
  - intros Hne. by destruct (PyStr.strip stderr).
  - by intros ->.
Qed.

(** With the helper under [/opt]: success, dismissal, failure and
    time-out. *)
Lemma C7_run_helper_outcomes_witness :
  find_helper only_opt_helper "/usr/share/wattsaver"
    = Some "/opt/wattsaver/wattsaver-helper.sh"
  ∧ run_helper only_opt_helper "/usr/share/wattsaver" run_succeeds
      "set-freq" ["2400000"] = (true, "ok")
  ∧ run_helper only_opt_helper "/usr/share/wattsaver" run_dismissed
      "set-freq" ["2400000"] = (false, "Authentication dismissed")
  ∧ run_helper only_opt_helper "/usr/share/wattsaver" run_fails
      "set-freq" ["2400000"] = (false, "cpufreq: permission denied")
  ∧ run_helper only_opt_helper "/usr/share/wattsaver" run_hangs
      "set-freq" ["2400000"] = (false, "Operation timed out").
Proof.
  assert (Hf : find_helper only_opt_helper "/usr/share/wattsaver"
               = Some "/opt/wattsaver/wattsaver-helper.sh")
    by (vm_compute; reflexivity).
  pose proof (λ run, proj2 (C7_run_helper_outcomes only_opt_helper
                "/usr/share/wattsaver" run "set-freq" ["2400000"]) _ Hf)
    as Hrun.
  split; [exact Hf |]. split; [| split; [| split]].
  - exact (proj1 (Hrun run_succeeds) _ _ eq_refl).
  - exact (proj1 (proj2 (Hrun run_dismissed)) _ _ eq_refl).
  - refine (proj1 (proj1 (proj2 (proj2 (Hrun run_fails)))
                     1 "" _ eq_refl _ _) _); vm_compute; discriminate.
  - exact (proj1 (proj2 (proj2 (proj2 (Hrun run_hangs)))) eq_refl).
Defined.

(** ** GPU mode detection *)

(** C8, as stated, fails: a query that exits with a non-zero status and
    prints a known mode is answered with that mode, not with
    ["unknown"]. *)
Lemma C8_nonzero_exit_status_is_not_unknown :
  ¬ (∀ run returncode stdout stderr,
       run ["envycontrol"; "--query"] 5 = Completed returncode stdout stderr →
       returncode ≠ 0 →
       _detect_gpu_mode run = "unknown").
Proof.
  intros H.
  specialize (H run_nonzero_nvidia 1 _ _ eq_refl ltac:(discriminate)).
  vm_compute in H. discriminate.
Qed.

(** C8, amended: [_detect_gpu_mode] runs the query with a time-out of 5
    seconds.  When the call raises (the time-out expires, the command
    cannot be started) the result is ["unknown"].  When it completes,
    whatever its exit status, the standard output is stripped and
    lower-cased and the result is the first of integrated, hybrid and
    nvidia that occurs in it as a substring, or ["unknown"] when none
    does. *)
Theorem C8_detect_gpu_mode (run : subprocess) :
  let outcome := run ["envycontrol"; "--query"] 5 in
  (outcome = TimeoutExpired → _detect_gpu_mode run = "unknown")
  ∧ (∀ message, outcome = Failed message → _detect_gpu_mode run = "unknown")
  ∧ ∀ returncode stdout stderr,
      outcome = Completed returncode stdout stderr →
      let output := PyStr.lower (PyStr.strip stdout) in
      let occurs mode := ∃ a b, output = a ++ mode ++ b in
      (occurs "integrated" → _detect_gpu_mode run = "integrated")
      ∧ (¬ occurs "integrated" → occurs "hybrid" →
         _detect_gpu_mode run = "hybrid")
      ∧ (¬ occurs "integrated" → ¬ occurs "hybrid" → occurs "nvidia" →
         _detect_gpu_mode run = "nvidia")
      ∧ (¬ occurs "integrated" → ¬ occurs "hybrid" → ¬ occurs "nvidia" →
         _detect_gpu_mode run = "unknown").
Proof.
  cbv zeta. unfold _detect_gpu_mode.
  split; [by intros -> |]. split; [by intros message -> |].
  intros returncode stdout stderr ->.
  set (output := PyStr.lower (PyStr.strip stdout)).
  assert (Hnot : ∀ mode, ¬ (∃ a b, output = a ++ mode ++ b) →
                         PyStr.contains output mode = false).
  { intros mode Hn. destruct (PyStr.contains output mode) eqn:E; [| done].
    by apply contains_spec in E. }
  unfold GPU_MODES. simpl.
  split; [| split; [| split]].
  - intros H%contains_spec. by rewrite H.
  - intros H1%Hnot H2%contains_spec. by rewrite H1, H2.
  - intros H1%Hnot H2%Hnot H3%contains_spec. by rewrite H1, H2, H3.
  - intros H1%Hnot H2%Hnot H3%Hnot. by rewrite H1, H2, H3.
Qed.

(** A query that reports the hybrid mode, and one that hangs. *)
Lemma C8_detect_gpu_mode_witness :
  run_hybrid ["envycontrol"; "--query"] 5
    = Completed 0 "Current mode: Hybrid
" ""
  ∧ PyStr.lower (PyStr.strip "Current mode: Hybrid
") = "current mode: hybrid"
  ∧ _detect_gpu_mode run_hybrid = "hybrid"
  ∧ _detect_gpu_mode run_hangs = "unknown".
Proof.
  split; [reflexivity |]. split; [vm_compute; reflexivity |]. split.
  - refine (proj1 (proj2 (proj2 (proj2 (C8_detect_gpu_mode run_hybrid))
                     0 _ _ eq_refl)) _ _).
    + intros (a & b & Hab). vm_compute in Hab.
      assert (Hc : PyStr.contains "current mode: hybrid" "integrated" = true)
        by (apply contains_spec; by exists a, b).
      vm_compute in Hc. discriminate.
    + exists "current mode: ", "". vm_compute. reflexivity.
  - exact (proj1 (C8_detect_gpu_mode run_hangs) eq_refl).
Defined.

(** * Further properties *)

(** ** Quotients within the binary64 range *)

Section Rounding.

Implicit Types (m e k : Z) (mrs : shr_record) (p : positive).

Lemma digits2_pos_size p : digits2_pos p = Pos.size p.
Proof. induction p as [p IH|p IH|]; simpl; by rewrite ?IH. Qed.

Lemma Zdigits2_log2 m : 0 < m → Zdigits2 m = Z.log2 m + 1.
Proof.
  destruct m as [|p|p]; [lia | | lia]. intros _. simpl.
  rewrite digits2_pos_size. destruct p; simpl; lia.
Qed.

Lemma Zdigits2_nonneg m : 0 <= Zdigits2 m.
Proof. destruct m; simpl; lia. Qed.

Lemma Zdigits2_le m m' : 0 <= m <= m' → Zdigits2 m <= Zdigits2 m'.
Proof.
  intros [H0 Hle]. destruct (Z.eq_dec m 0) as [->|Hm].
  - apply Zdigits2_nonneg.
  - rewrite !Zdigits2_log2 by lia.
    pose proof (Z.log2_le_mono m m' Hle). lia.
Qed.

Lemma Zdigits2_succ m : 0 <= m → Zdigits2 (m + 1) <= Zdigits2 m + 1.
Proof.
  intros H0. destruct (Z.eq_dec m 0) as [->|Hm]; [simpl; lia |].
  rewrite !Zdigits2_log2 by lia.
  pose proof (Z.log2_succ_le m). unfold Z.succ in *. lia.
Qed.

Lemma Zdigits2_lt_pow2 m k : 0 <= k → 0 <= m < 2 ^ k → Zdigits2 m <= k.
Proof.
  intros Hk [H0 Hlt]. destruct (Z.eq_dec m 0) as [->|Hm]; [simpl; lia |].
  rewrite Zdigits2_log2 by lia.
  pose proof (proj1 (Z.log2_lt_pow2 m k ltac:(lia)) Hlt). lia.
Qed.

Lemma Zdigits2_shiftl m k :
  0 < m → 0 <= k → Zdigits2 (Z.shiftl m k) = Zdigits2 m + k.
Proof.
  intros Hm Hk.
  assert (0 < Z.shiftl m k).
  { rewrite Z.shiftl_mul_pow2 by lia. apply Z.mul_pos_pos; [lia |].
    apply Z.pow_pos_nonneg; lia. }
  rewrite !Zdigits2_log2 by lia. rewrite Z.log2_shiftl by lia. lia.
Qed.

Lemma below_shr_1 d k mrs : below d k mrs → below d (k + 1) (shr_1 mrs).
Proof.
  destruct mrs as [m r s]. unfold below. simpl.
  destruct m as [|[q|q|]|q]; simpl; intros [H0 Hd]; lia.
Qed.

Lemma below_iter d p k mrs :
  below d k mrs → below d (k + Zpos p) (SpecFloat.iter_pos shr_1 p mrs).
Proof.
  revert k mrs. induction p as [p IH|p IH|]; intros k mrs H; simpl.
  - replace (k + Z.pos p~1) with (k + 1 + Zpos p + Zpos p) by lia.
    by apply IH, IH, below_shr_1.
  - replace (k + Z.pos p~0) with (k + Zpos p + Zpos p) by lia.
    by apply IH, IH.
  - by apply below_shr_1.
Qed.

Lemma below_of_loc d k m l :
  0 <= m → m = 0 ∨ Zdigits2 m + k <= d → below d k (shr_record_of_loc m l).
Proof. intros H0 Hd. by destruct l as [|[]]. Qed.

(** One rounding step of [binary_round_aux]: the exponent it gives. *)
Lemma shr_fexp_below d m e l :
  0 <= m → m = 0 ∨ Zdigits2 m + e <= d →
  let '(mrs, e') := shr_fexp PyFloat.prec PyFloat.emax m e l in
  below d e' mrs
  ∧ (e' = e ∨ e' = fexp PyFloat.prec PyFloat.emax (Zdigits2 m + e)).
Proof.
  intros H0 Hd. unfold shr_fexp, shr.
  set (n := fexp PyFloat.prec PyFloat.emax (Zdigits2 m + e) - e).
  destruct n as [|p|p] eqn:Hn.
  - split; [by apply below_of_loc | by left].
  - split; [| right; lia]. apply below_iter. by apply below_of_loc.
  - split; [by apply below_of_loc | by left].
Qed.

Lemma round_nearest_even_bounds m l :
  0 <= m → m <= round_nearest_even m l <= m + 1.
Proof.
  intros H0. destruct l as [|[]]; simpl; try lia.
  destruct (Z.even m); lia.
Qed.

(** A rounded value with a non-negative mantissa below [2 ^ 1023] is a
    zero or a finite number. *)
Lemma binary_round_aux_finite sx m e l :
  0 <= m → m = 0 ∨ Zdigits2 m + e <= 1023 → e <= 971 →
  finite (binary_round_aux PyFloat.prec PyFloat.emax sx m e l).
Proof.
  intros H0 Hd He. unfold finite, binary_round_aux.
  pose proof (shr_fexp_below 1023 m e l H0 Hd) as H1.
  destruct (shr_fexp PyFloat.prec PyFloat.emax m e l) as [mrs' e'].
  destruct H1 as [[Hm' Hd'] He'].
  set (m1 := round_nearest_even (shr_m mrs') (loc_of_shr_record mrs')).
  assert (Hr : shr_m mrs' <= m1 <= shr_m mrs' + 1)
    by (by apply round_nearest_even_bounds).
  assert (He'le : e' <= 971).
  { destruct He' as [->| ->]; [done |].
    unfold fexp, emin, PyFloat.prec, PyFloat.emax.
    destruct Hd as [->|Hd]; simpl Zdigits2; lia. }
  assert (Hd1 : Zdigits2 m1 + e' <= 1024).
  { pose proof (Zdigits2_le m1 (shr_m mrs' + 1) ltac:(lia)) as Hle.
    pose proof (Zdigits2_succ (shr_m mrs') Hm') as Hs.
    destruct Hd' as [Hz|Hd']; [| lia].
    rewrite Hz in Hle. change (Zdigits2 (0 + 1)) with 1 in Hle. lia. }
  pose proof (shr_fexp_below 1024 m1 e' loc_Exact ltac:(lia)
                ltac:(right; exact Hd1)) as H2.
  destruct (shr_fexp PyFloat.prec PyFloat.emax m1 e' loc_Exact)
    as [mrs'' e''].
  destruct H2 as [[Hm'' _] He''].
  assert (He''le : e'' <= 971).
  { destruct He'' as [->| ->]; [done |].
    unfold fexp, emin, PyFloat.prec, PyFloat.emax. lia. }
  destruct (shr_m mrs'') as [|q|q]; [done | | lia].
  unfold PyFloat.emax, PyFloat.prec.
  by rewrite (proj2 (Z.leb_le e'' (1024 - 53)) ltac:(lia)).
Qed.

(** The quotient of two integers below [2 ^ 1000] in magnitude is a
    zero or a finite number. *)
Lemma of_ratio_finite (neg : bool) (n d : positive) :
  Zpos n < 2 ^ 1000 → finite (PyFloat.of_ratio neg n d).
Proof.
  intros Hn. unfold PyFloat.of_ratio, SFdiv, SFdiv_core_binary.
  set (e' := Z.min (fexp PyFloat.prec PyFloat.emax
                      (Zdigits2 (Zpos n) + 0 - (Zdigits2 (Zpos d) + 0)))
                   (0 - 0)).
  assert (He' : e' <= 0) by (unfold e'; lia).
  set (m' := match 0 - 0 - e' with
             | 0 => Zpos n
             | Zpos _ => Z.shiftl (Zpos n) (0 - 0 - e')
             | Zneg _ => 0
             end).
  assert (Hm' : 0 < m' ∧ Zdigits2 m' + e' = Zdigits2 (Zpos n)).
  { unfold m'. destruct (0 - 0 - e') as [|p|p] eqn:Hs; [| | lia].
    - split; [lia |]. lia.
    - rewrite <- Hs. split.
      + rewrite Z.shiftl_mul_pow2 by lia. apply Z.mul_pos_pos; [lia |].
        apply Z.pow_pos_nonneg; lia.
      + rewrite Zdigits2_shiftl by lia. lia. }
  destruct Hm' as [Hpos Hdig].
  pose proof (Z_div_mod m' (Zpos d) ltac:(lia)) as Hdm.
  destruct (Z.div_eucl m' (Zpos d)) as [q r].
  destruct Hdm as [Heq Hr].
  assert (Hq : 0 <= q <= m') by nia.
  apply binary_round_aux_finite; [lia | | lia].
  right.
  pose proof (Zdigits2_le q m' Hq).
  pose proof (Zdigits2_lt_pow2 (Zpos n) 1000 ltac:(lia) ltac:(lia)).
  lia.
Qed.

(** A rounded value with a non-negative mantissa is never a NaN. *)
Lemma binary_round_aux_not_nan sx m e l :
  0 <= m → binary_round_aux PyFloat.prec PyFloat.emax sx m e l ≠ S754_nan.
Proof.
  intros H0. unfold binary_round_aux.
  pose proof (shr_fexp_below (Zdigits2 m + e) m e l H0 ltac:(right; lia))
    as H1.
  destruct (shr_fexp PyFloat.prec PyFloat.emax m e l) as [mrs' e'].
  destruct H1 as [[Hm' _] _].
  set (m1 := round_nearest_even (shr_m mrs') (loc_of_shr_record mrs')).
  assert (Hr : shr_m mrs' <= m1 <= shr_m mrs' + 1)
    by (by apply round_nearest_even_bounds).
  pose proof (shr_fexp_below (Zdigits2 m1 + e') m1 e' loc_Exact ltac:(lia)
                ltac:(right; lia)) as H2.
  destruct (shr_fexp PyFloat.prec PyFloat.emax m1 e' loc_Exact)
    as [mrs'' e''].
  destruct H2 as [[Hm'' _] _].
  destruct (shr_m mrs'') as [|q|q]; [done | | lia].
  by destruct (e'' <=? PyFloat.emax - PyFloat.prec).
Qed.

Lemma of_ratio_not_nan (neg : bool) (n d : positive) :
  PyFloat.of_ratio neg n d ≠ S754_nan.
Proof.
  unfold PyFloat.of_ratio, SFdiv, SFdiv_core_binary.
  set (m' := match _ with 0 => Zpos n | Zpos _ => _ | Zneg _ => 0 end).
  assert (Hm' : 0 <= m').
  { unfold m'. destruct (_ - _ - _) as [|p|p]; [lia | | lia].
    apply Z.shiftl_nonneg. lia. }
  pose proof (Z_div_mod m' (Zpos d) ltac:(lia)) as Hdm.
  destruct (Z.div_eucl m' (Zpos d)) as [q r].
  destruct Hdm as [Heq Hr].
  apply binary_round_aux_not_nan. nia.
Qed.

Lemma truediv_not_nan (a : Z) (b : positive) : PyFloat.truediv a b ≠ S754_nan.
Proof.
  unfold PyFloat.truediv. destruct a; [done | |]; apply of_ratio_not_nan.
Qed.

End Rounding.

(** [a / b] returns for every [a] below [2 ^ 1000] in magnitude, and it
    raises nothing but [OverflowError]. *)
Lemma py_truediv_returns (a : Z) (b : positive) :
  Z.abs a < 2 ^ 1000 → py_truediv a b = Ret (PyFloat.truediv a b).
Proof.
  intros Ha. unfold py_truediv, PyFloat.truediv.
  destruct a as [|n|n]; [done | |].
  - pose proof (of_ratio_finite false n b ltac:(lia)) as H.
    by destruct (PyFloat.of_ratio false n b).
  - pose proof (of_ratio_finite true n b ltac:(lia)) as H.
    by destruct (PyFloat.of_ratio true n b).
Qed.

Lemma py_truediv_ret (a : Z) (b : positive) (q : spec_float) :
  py_truediv a b = Ret q → q = PyFloat.truediv a b ∧ finite q.
Proof.
  unfold py_truediv. pose proof (truediv_not_nan a b) as Hnan.
  destruct (PyFloat.truediv a b); intros [= <-]; done.
Qed.

Lemma py_truediv_raise (a : Z) (b : positive) (e : exn) :
  py_truediv a b = Raise e → e = OverflowError.
Proof.
  unfold py_truediv. destruct (PyFloat.truediv a b); by intros [= <-].
Qed.

(** ** The calls of the profile synthesis *)

Section Calls.

Implicit Types (self : CPUInfo) (ps : list profile) (p : profile).

Lemma _fmt_ghz_call_ret khz (l : string) :
  _fmt_ghz_call khz = Ret l → l = _fmt_ghz khz.
Proof.
  unfold _fmt_ghz_call, _fmt_ghz.
  destruct (py_truediv khz 1000000) as [q|e] eqn:Hq; [| done].
  apply py_truediv_ret in Hq as [-> _]. by intros [= <-].
Qed.

Lemma _fmt_ghz_call_raise khz (e : exn) :
  _fmt_ghz_call khz = Raise e → e = OverflowError.
Proof.
  unfold _fmt_ghz_call.
  destruct (py_truediv khz 1000000) as [q|e'] eqn:Hq; [done |].
  intros [= <-]. by apply py_truediv_raise in Hq.
Qed.

Lemma _fmt_ghz_call_returns khz :
  Z.abs khz < 2 ^ 1000 → _fmt_ghz_call khz = Ret (_fmt_ghz khz).
Proof.
  intros H. unfold _fmt_ghz_call. by rewrite (py_truediv_returns _ _ H).
Qed.

Lemma bucket_of_call_ret freq (b : Z) :
  bucket_of_call freq = Ret b → b = bucket_of freq.
Proof.
  unfold bucket_of_call, bucket_of.
  destruct (py_truediv freq 100000) as [q|e] eqn:Hq; [| done].
  apply py_truediv_ret in Hq as [-> _]. simpl.
  destruct (PyFloat.truediv freq 100000); simpl; try done; by intros [= <-].
Qed.

Lemma bucket_of_call_raise freq (e : exn) :
  bucket_of_call freq = Raise e → e = OverflowError.
Proof.
  unfold bucket_of_call.
  destruct (py_truediv freq 100000) as [q|e'] eqn:Hq.
  - apply py_truediv_ret in Hq as [_ Hfin]. simpl.
    by destruct q.
  - intros [= <-]. by apply py_truediv_raise in Hq.
Qed.

Lemma bucket_of_call_returns freq :
  Z.abs freq < 2 ^ 1000 → bucket_of_call freq = Ret (bucket_of freq).
Proof.
  intros H. unfold bucket_of_call, bucket_of.
  rewrite (py_truediv_returns _ _ H). simpl.
  pose proof (py_truediv_returns freq 100000 H) as Hq.
  apply py_truediv_ret in Hq as [_ Hfin].
  by destruct (PyFloat.truediv freq 100000).
Qed.

Lemma candidates_call_ret self ps :
  candidates_call self = Ret ps → ps = candidates self.
Proof.
  unfold candidates_call, candidates.
  destruct (_fmt_ghz_call (hw_min_khz self)) as [l1|?] eqn:H1;
    simpl; [| done].
  destruct (_fmt_ghz_call
              (hw_min_khz self + (hw_max_khz self - hw_min_khz self) / 4)) as [l2|?] eqn:H2;
    simpl; [| done].
  destruct (_fmt_ghz_call (base_khz self)) as [l3|?] eqn:H3;
    simpl; [| done].
  destruct (_fmt_ghz_call
              (hw_min_khz self + 3 * (hw_max_khz self - hw_min_khz self) / 4)) as [l4|?] eqn:H4;
    simpl; [| done].
  destruct (_fmt_ghz_call (hw_max_khz self)) as [l5|?] eqn:H5;
    simpl; [| done].
  apply _fmt_ghz_call_ret in H1 as ->. apply _fmt_ghz_call_ret in H2 as ->.
  apply _fmt_ghz_call_ret in H3 as ->. apply _fmt_ghz_call_ret in H4 as ->.
  apply _fmt_ghz_call_ret in H5 as ->. by intros [= <-].
Qed.

Lemma candidates_call_raise self (e : exn) :
  candidates_call self = Raise e → e = OverflowError.
Proof.
  unfold candidates_call.
  destruct (_fmt_ghz_call (hw_min_khz self)) as [l1|?] eqn:H1; simpl;
    [| intros [= <-]; by apply _fmt_ghz_call_raise in H1].
  destruct (_fmt_ghz_call
              (hw_min_khz self + (hw_max_khz self - hw_min_khz self) / 4)) as [l2|?] eqn:H2; simpl;
    [| intros [= <-]; by apply _fmt_ghz_call_raise in H2].
  destruct (_fmt_ghz_call (base_khz self)) as [l3|?] eqn:H3; simpl;
    [| intros [= <-]; by apply _fmt_ghz_call_raise in H3].
  destruct (_fmt_ghz_call
              (hw_min_khz self + 3 * (hw_max_khz self - hw_min_khz self) / 4)) as [l4|?] eqn:H4;
    simpl; [| intros [= <-]; by apply _fmt_ghz_call_raise in H4].
  destruct (_fmt_ghz_call (hw_max_khz self)) as [l5|?] eqn:H5; simpl;
    [| intros [= <-]; by apply _fmt_ghz_call_raise in H5].
  intros [=].
Qed.

Lemma dedup_loop_call_ret ps (st st' : gset Z * list profile) :
  dedup_loop_call ps st = Ret st' → st' = dedup_loop ps st.
Proof.
  revert st. induction ps as [|p ps IH]; intros st; simpl.
  - by intros [= <-].
  - destruct (bucket_of_call (freq_khz p)) as [b|e] eqn:Hb; [| done].
    apply bucket_of_call_ret in Hb as ->. simpl.
    destruct st as [seen unique]. intros H. apply IH in H as ->.
    unfold dedup_loop. simpl. by case_decide.
Qed.

Lemma dedup_loop_call_raise ps (st : gset Z * list profile) (e : exn) :
  dedup_loop_call ps st = Raise e → e = OverflowError.
Proof.
  revert st. induction ps as [|p ps IH]; intros st; simpl; [done |].
  destruct (bucket_of_call (freq_khz p)) as [b|e'] eqn:Hb.
  - simpl. destruct st as [seen unique]. apply IH.
  - intros [= <-]. by apply bucket_of_call_raise in Hb.
Qed.

Lemma dedup_loop_call_returns ps (st : gset Z * list profile) :
  Forall (λ p, Z.abs (freq_khz p) < 2 ^ 1000) ps →
  dedup_loop_call ps st = Ret (dedup_loop ps st).
Proof.
  intros Hall. revert st.
  induction Hall as [|p ps Hp _ IH]; intros st; simpl; [done |].
  rewrite (bucket_of_call_returns _ Hp). simpl.
  destruct st as [seen unique]. rewrite IH.
  unfold dedup_loop. simpl. by case_decide.
Qed.

(** Wherever the call returns, it returns the list of
    [build_profiles]. *)
Lemma build_profiles_call_ret self ps :
  build_profiles_call self = Ret ps → ps = build_profiles self.
Proof.
  unfold build_profiles_call, build_profiles.
  destruct (candidates_call self) as [cs|e] eqn:Hc;
    unfold mbind, result_bind; [| done].
  apply candidates_call_ret in Hc as ->.
  destruct (dedup_loop_call (candidates self) (∅, [])) as [st|e] eqn:Hd;
    [| done].
  apply dedup_loop_call_ret in Hd as ->. by intros [= <-].
Qed.

(** The call raises nothing but [OverflowError]. *)
Lemma build_profiles_call_raise self (e : exn) :
  build_profiles_call self = Raise e → e = OverflowError.
Proof.
  unfold build_profiles_call.
  destruct (candidates_call self) as [cs|e'] eqn:Hc;
    unfold mbind, result_bind.
  - destruct (dedup_loop_call cs (∅, [])) as [st|e'] eqn:Hd; [done |].
    intros [= <-]. by apply dedup_loop_call_raise in Hd.
  - intros [= <-]. by apply candidates_call_raise in Hc.
Qed.

Lemma bound_below_binary64 : 3 * FREQ_BOUND < 2 ^ 1000.
Proof. apply Z.ltb_lt. vm_compute. reflexivity. Qed.

(** The five frequencies of capabilities within the bound. *)
Lemma candidates_in_range self :
  in_range self →
  Forall (λ p, Z.abs (freq_khz p) < 2 ^ 1000) (candidates self).
Proof.
  intros (Hlo & Hhi & Hbase). pose proof bound_below_binary64 as HB.
  set (B := FREQ_BOUND) in *. set (T := 2 ^ 1000) in *.
  assert (HBpos : 0 <= B) by lia.
  set (lo := hw_min_khz self) in *. set (hi := hw_max_khz self) in *.
  pose proof (Z.div_mod (hi - lo) 4 ltac:(lia)).
  pose proof (Z.mod_pos_bound (hi - lo) 4 ltac:(lia)).
  pose proof (Z.div_mod (3 * (hi - lo)) 4 ltac:(lia)).
  pose proof (Z.mod_pos_bound (3 * (hi - lo)) 4 ltac:(lia)).
  unfold candidates. fold lo hi.
  repeat (constructor; [simpl; lia |]). constructor.
Qed.

(** Within the bound the call returns. *)
Lemma build_profiles_call_returns self :
  in_range self → build_profiles_call self = Ret (build_profiles self).
Proof.
  intros Hr. pose proof (candidates_in_range self Hr) as Hall.
  assert (Hc : candidates_call self = Ret (candidates self)).
  { unfold candidates in Hall.
    repeat (apply Forall_cons in Hall as [? Hall]). simpl in *.
    unfold candidates_call, candidates.
    rewrite !_fmt_ghz_call_returns by done. reflexivity. }
  unfold build_profiles_call, build_profiles. rewrite Hc.
  unfold mbind, result_bind.
  by rewrite (dedup_loop_call_returns _ _ Hall).
Qed.

End Calls.

(** The edge of the binary64 range: the integer half-way between the
    largest number and [2 ^ 1024] overflows, the one below it does
    not. *)
Example py_truediv_edge :
  py_truediv (2 ^ 1024 - 2 ^ 970) 1 = Raise OverflowError
  ∧ py_truediv (2 ^ 1024 - 2 ^ 970 - 1) 1
    = Ret (S754_finite false 9007199254740991 971)
  ∧ py_truediv (10 ^ 400) 1000000 = Raise OverflowError.
Proof. repeat split; vm_compute; reflexivity. Qed.

(** ** Decimal texts *)

Section Decimal.

Implicit Types (s t ds : string) (c : ascii) (n d a : Z).

Lemma digits_val_app a s t :
  PyStr.digits_val a (s ++ t) = PyStr.digits_val (PyStr.digits_val a s) t.
Proof.
  revert a. induction s as [|c s IH]; intros a; [done |].
  change (String c s ++ t) with (String c (s ++ t)). simpl. apply IH.
Qed.

Lemma digit_char_spec d :
  0 <= d < 10 →
  PyStr.isdecimal (PyFloat.digit_char d) = true
  ∧ PyStr.digit_val (PyFloat.digit_char d) = d.
Proof.
  intros H.
  assert (Hd : d = 0 ∨ d = 1 ∨ d = 2 ∨ d = 3 ∨ d = 4 ∨ d = 5 ∨ d = 6
               ∨ d = 7 ∨ d = 8 ∨ d = 9) by lia.
  repeat destruct Hd as [->|Hd]; try subst d; split; reflexivity.
Qed.

Lemma str_app_assoc s t u : (s ++ t) ++ u = s ++ t ++ u.
Proof.
  induction s as [|c s IH]; [done |].
  change ((String c s ++ t) ++ u) with (String c ((s ++ t) ++ u)).
  change (String c s ++ t ++ u) with (String c (s ++ t ++ u)).
  by rewrite IH.
Qed.

(** The digits [decimal_go] puts in front of [acc] denote [n]. *)
Lemma decimal_go_spec (fuel width : nat) n acc :
  (width <= 1)%nat → (0 < fuel)%nat → 0 <= n < 2 ^ Z.of_nat fuel →
  ∃ ds,
    PyFloat.decimal_go fuel width n acc = ds ++ acc
    ∧ PyStr.nonempty ds = true
    ∧ PyStr.all_chars PyStr.isdecimal ds = true
    ∧ PyStr.digits_val 0 ds = n.
Proof.
  revert width n acc.
  induction fuel as [|fuel IH]; intros width n acc Hw Hf Hn; [lia |].
  simpl PyFloat.decimal_go.
  assert (Hmod : 0 <= n mod 10 < 10) by (apply Z.mod_pos_bound; lia).
  destruct (digit_char_spec _ Hmod) as [Hdec Hval].
  assert (Hleb : Nat.leb width 1 = true) by (apply Nat.leb_le; lia).
  rewrite Hleb, andb_true_r.
  destruct (Z.eqb_spec (n / 10) 0) as [Hz|Hnz].
  - exists (String (PyFloat.digit_char (n mod 10)) "").
    split; [done |]. split; [done |]. split; [simpl; by rewrite Hdec |].
    simpl. rewrite Hval. pose proof (Z.div_mod n 10 ltac:(lia)). lia.
  - assert (Hn10 : 10 <= n).
    { destruct (Z.lt_ge_cases n 10) as [Hlt|]; [| done].
      rewrite Z.div_small in Hnz by lia. done. }
    assert (Hfuel : (0 < fuel)%nat).
    { destruct fuel; [| lia]. simpl in Hn. lia. }
    assert (Hdiv : 0 <= n / 10 < 2 ^ Z.of_nat fuel).
    { split; [apply Z.div_pos; lia |].
      rewrite Nat2Z.inj_succ, Z.pow_succ_r in Hn by lia.
      apply Z.div_lt_upper_bound; lia. }
    destruct (IH (Nat.pred width) (n / 10)
                (String (PyFloat.digit_char (n mod 10)) acc)
                ltac:(lia) Hfuel Hdiv)
      as (ds & Heq & Hne & Hall & Hds).
    exists (ds ++ String (PyFloat.digit_char (n mod 10)) "").
    split; [| split; [| split]].
    + rewrite Heq. by rewrite str_app_assoc.
    + by destruct ds.
    + rewrite all_chars_app, Hall. simpl. by rewrite Hdec.
    + rewrite digits_val_app, Hds. simpl. rewrite Hval.
      pose proof (Z.div_mod n 10 ltac:(lia)). lia.
Qed.

Lemma decimal_spec n :
  0 <= n →
  PyStr.nonempty (PyFloat.decimal 1 n) = true
  ∧ PyStr.all_chars PyStr.isdecimal (PyFloat.decimal 1 n) = true
  ∧ PyStr.digits_val 0 (PyFloat.decimal 1 n) = n.
Proof.
  intros Hn. unfold PyFloat.decimal.
  destruct (decimal_go_spec (Z.to_nat (Z.log2 n) + 1 + 1) 1 n "")
    as (ds & Heq & Hne & Hall & Hds); [lia | lia | |].
  - split; [done |].
    destruct (Z.eq_dec n 0) as [->|Hnz]; [simpl; lia |].
    pose proof (Z.log2_nonneg n).
    pose proof (Z.log2_spec n ltac:(lia)) as [_ Hlt].
    replace (Z.of_nat (Z.to_nat (Z.log2 n) + 1 + 1)) with (Z.succ (Z.log2 n) + 1)
      by lia.
    rewrite Z.pow_add_r by lia. lia.
  - rewrite Heq, str_app_nil_r. done.
Qed.

(** [str] of an integer is the text of an integer. *)
Lemma str_int_int_text n :
  ∃ neg ds,
    str_int n = int_text neg ds
    ∧ PyStr.nonempty ds = true
    ∧ PyStr.all_chars PyStr.isdecimal ds = true
    ∧ int_value neg ds = n.
Proof.
  unfold str_int. destruct (Z.ltb_spec n 0) as [Hneg|Hpos].
  - destruct (decimal_spec (- n) ltac:(lia)) as (Hne & Hall & Hval).
    exists true, (PyFloat.decimal 1 (- n)).
    repeat split; try done. unfold int_value. lia.
  - destruct (decimal_spec n Hpos) as (Hne & Hall & Hval).
    by exists false, (PyFloat.decimal 1 n).
Qed.

Lemma rstrip_all f s :
  PyStr.all_chars f s = true → PyStr.rstrip_with f s = "".
Proof.
  induction s as [|c s IH]; simpl; [done |].
  intros [Hc Hs]%andb_prop. by rewrite (IH Hs), Hc.
Qed.

Lemma rstrip_app f s t :
  PyStr.all_chars f t = true →
  PyStr.rstrip_with f (s ++ t) = PyStr.rstrip_with f s.
Proof.
  intros Ht. induction s as [|c s IH].
  - simpl. by apply rstrip_all.
  - change (String c s ++ t) with (String c (s ++ t)). simpl. by rewrite IH.
Qed.

(** White space after a text without white space is stripped. *)
Lemma strip_trailing s ws :
  PyStr.nonempty s = true →
  PyStr.all_chars (λ c, negb (PyStr.isspace c)) s = true →
  PyStr.all_chars PyStr.isspace ws = true →
  PyStr.strip (s ++ ws) = s.
Proof.
  intros Hne Hs Hws. unfold PyStr.strip.
  assert (Hl : PyStr.lstrip_with PyStr.isspace (s ++ ws) = s ++ ws).
  { destruct s as [|c s]; [done |].
    change (String c s ++ ws) with (String c (s ++ ws)).
    simpl in *. apply andb_prop in Hs as [Hc _].
    by apply negb_true_iff in Hc as ->. }
  rewrite Hl, (rstrip_app _ _ _ Hws). by apply rstrip_no_space.
Qed.

End Decimal.

(** ** What the integer reader accepts *)

Lemma isdigit_char_not_sign c :
  PyStr.isdigit_char c = true →
  (PyStr.code c =? 45)%N = false ∧ (PyStr.code c =? 43)%N = false
  ∧ (PyStr.code c =? 95)%N = false.
Proof. repeat split; revert H; by_char c. Qed.

Lemma is_minus_char c : PyStr.is_minus c = true → c = "-"%char.
Proof. by_char c. Qed.

(** A grouping made of digit characters only has no underscore and no
    superscript: it is a run of decimal digits. *)
Lemma digit_groups_isdigit (b : bool) (s ds : string) :
  PyStr.all_chars PyStr.isdigit_char s = true →
  PyStr.digit_groups b s = Some ds →
  ds = s ∧ PyStr.all_chars PyStr.isdecimal s = true.
Proof.
  revert b ds. induction s as [|c s IH]; intros b ds Hall Hg.
  - simpl in Hg. destruct b; [| done]. by injection Hg as <-.
  - simpl in Hall. apply andb_prop in Hall as [Hc Hs].
    simpl in Hg. destruct (PyStr.isdecimal c) eqn:Hdec.
    + destruct (PyStr.digit_groups true s) as [ds'|] eqn:Hrec; [| done].
      simpl in Hg. injection Hg as <-.
      destruct (IH _ _ Hs Hrec) as [-> Hd]. simpl. by rewrite Hdec.
    + destruct (isdigit_char_not_sign _ Hc) as (_ & _ & Hu).
      by rewrite Hu in Hg.
Qed.

Lemma digit_groups_minus (b : bool) (c : ascii) (s : string) :
  PyStr.is_minus c = true → PyStr.digit_groups b (String c s) = None.
Proof.
  intros Hc. destruct (is_minus_spec _ Hc) as (_ & Hd & _ & Hu).
  simpl. by rewrite Hd, Hu.
Qed.

(** Without the limit on the digits: an integer is returned exactly
    for an optional minus sign followed by one or more decimal
    digits. *)
Lemma read_sysfs_int_some (fs : filesystem) (path : string) (n : Z) :
  read_sysfs_int fs path = Ret (Some n)
  ↔ ∃ neg ds,
      read_sysfs fs path = Some (int_text neg ds)
      ∧ PyStr.nonempty ds = true
      ∧ PyStr.all_chars PyStr.isdecimal ds = true
      ∧ n = int_value neg ds.
Proof.
  split.
  - unfold read_sysfs_int.
    destruct (read_sysfs fs path) as [val|] eqn:Hread; [| done].
    destruct (PyStr.nonempty val) eqn:Hne; [| done].
    destruct (PyStr.isdigit (PyStr.lstrip_with PyStr.is_minus val)) eqn:Hdig;
      [| done].
    simpl. destruct (PyStr.int val) as [k|] eqn:Hint; [| done].
    intros [= ->].
    destruct (lstrip_minus_split val) as (m & Hval & Hm).
    set (d := PyStr.lstrip_with PyStr.is_minus val) in *.
    unfold PyStr.isdigit in Hdig. apply andb_prop in Hdig as [Hdne Hdall].
    assert (Hns : PyStr.all_chars (λ c, negb (PyStr.isspace c)) val = true).
    { rewrite Hval, all_chars_app. apply andb_true_intro. split.
      - eapply all_chars_impl; [| exact Hm].
        intros c Hc. by destruct (is_minus_spec _ Hc) as (-> & _).
      - eapply all_chars_impl; [| exact Hdall].
        intros c Hc. by rewrite (isdigit_char_not_space _ Hc). }
    unfold PyStr.int in Hint. rewrite (strip_no_space _ Hns) in Hint.
    destruct m as [|c m].
    + change ("" ++ d) with d in Hval.
      assert (Hsign : PyStr.split_sign val = (false, d)).
      { rewrite Hval. destruct d as [|c d']; [done |].
        simpl in Hdall. apply andb_prop in Hdall as [Hc _].
        destruct (isdigit_char_not_sign _ Hc) as (H1 & H2 & _).
        simpl. by rewrite H1, H2. }
      rewrite Hsign in Hint.
      destruct (PyStr.digit_groups false d) as [ds|] eqn:Hg; [| done].
      simpl in Hint. injection Hint as <-.
      destruct (digit_groups_isdigit _ _ _ Hdall Hg) as [-> Hdec].
      exists false, d. by rewrite Hval.
    + simpl in Hm. apply andb_prop in Hm as [Hc Hm].
      pose proof (is_minus_char _ Hc) as ->.
      change (String "-" m ++ d) with (String "-" (m ++ d)) in Hval.
      assert (Hsign : PyStr.split_sign val = (true, m ++ d))
        by (by rewrite Hval).
      rewrite Hsign in Hint.
      destruct m as [|c' m'].
      * change ("" ++ d) with d in *.
        destruct (PyStr.digit_groups false d) as [ds|] eqn:Hg; [| done].
        simpl in Hint. injection Hint as <-.
        destruct (digit_groups_isdigit _ _ _ Hdall Hg) as [-> Hdec].
        exists true, d. by rewrite Hval.
      * simpl in Hm. apply andb_prop in Hm as [Hc' _].
        change (String c' m' ++ d) with (String c' (m' ++ d)) in Hint.
        by rewrite (digit_groups_minus false c' _ Hc') in Hint.
  - intros (neg & ds & Hread & Hne & Hdec & ->).
    by apply read_sysfs_int_digits.
Qed.

(** A node that holds the decimal text of [n] and a newline reads as
    [n]. *)
Lemma read_sysfs_int_str_int (fs : filesystem) (path : string) (n : Z) :
  fs !! path = Some (str_int n ++ String (ascii_of_N 10) "") →
  read_sysfs_int fs path = Ret (Some n).
Proof.
  intros Hfile.
  destruct (str_int_int_text n) as (neg & ds & Heq & Hne & Hdec & Hval).
  rewrite <- Hval. apply read_sysfs_int_digits; [done | done |].
  unfold read_sysfs. rewrite Hfile. simpl. f_equal.
  rewrite Heq. apply strip_trailing.
  - by apply int_text_nonempty.
  - by apply int_text_no_space.
  - reflexivity.
Qed.

(** ** The limit on the digits *)

Section Digits.

Lemma str_int_text (n : Z) :
  str_int n = int_text (n <? 0) (PyFloat.decimal 1 (Z.abs n)).
Proof.
  unfold str_int, int_text. destruct (Z.ltb_spec n 0).
  - by rewrite Z.abs_neq by lia.
  - by rewrite Z.abs_eq by lia.
Qed.

Lemma decimal_go_length (fuel width : nat) (k : nat) (n : Z)
    (acc : string) :
  (width <= 1)%nat → 0 <= n < 10 ^ Z.of_nat (S k) →
  (String.length (PyFloat.decimal_go fuel width n acc)
   <= String.length acc + S k)%nat.
Proof.
  revert width k n acc.
  induction fuel as [|fuel IH]; intros width k n acc Hw Hn.
  - simpl. lia.
  - simpl PyFloat.decimal_go.
    rewrite (proj2 (Nat.leb_le width 1) Hw), andb_true_r.
    destruct (Z.eqb_spec (n / 10) 0) as [Hz|Hnz]; [simpl; lia |].
    destruct k as [|k].
    + exfalso. apply Hnz. apply Z.div_small. simpl in Hn. lia.
    + assert (Hdiv : 0 <= n / 10 < 10 ^ Z.of_nat (S k)).
      { split; [apply Z.div_pos; lia |].
        apply Z.div_lt_upper_bound; [lia |].
        rewrite (Nat2Z.inj_succ (S k)), Z.pow_succ_r in Hn by lia. lia. }
      specialize (IH (Nat.pred width) k (n / 10)
                    (String (PyFloat.digit_char (n mod 10)) acc)
                    ltac:(lia) Hdiv).
      simpl String.length in IH. lia.
Qed.

(** An integer below [10 ^ k] has at most [k] digits. *)
Lemma decimal_length (k : nat) (n : Z) :
  (0 < k)%nat → 0 <= n < 10 ^ Z.of_nat k →
  (String.length (PyFloat.decimal 1 n) <= k)%nat.
Proof.
  intros Hk Hn. destruct k as [|k]; [lia |].
  unfold PyFloat.decimal.
  pose proof (decimal_go_length (Z.to_nat (Z.log2 n) + 1 + 1) 1 k n ""
                ltac:(lia) Hn) as H.
  simpl String.length in H. lia.
Qed.

Lemma py_int_int_text (neg : bool) (ds : string) :
  PyStr.nonempty ds = true →
  PyStr.all_chars PyStr.isdecimal ds = true →
  py_int (int_text neg ds)
  = if (MAX_STR_DIGITS <? String.length ds)%nat then Raise ValueError
    else Ret (int_value neg ds).
Proof.
  intros Hne Hdec. unfold py_int.
  rewrite (strip_no_space _ (int_text_no_space neg ds Hdec)).
  rewrite (int_text_split_sign neg ds Hne Hdec).
  by rewrite (digit_groups_decimal false ds Hdec Hne).
Qed.

(** Wherever [int] returns under the limit, it returns what [int]
    returns without it, and it raises nothing but [ValueError]. *)
Lemma py_int_ret (s : string) (n : Z) :
  py_int s = Ret n → PyStr.int s = Some n.
Proof.
  unfold py_int, PyStr.int.
  destruct (PyStr.split_sign (PyStr.strip s)) as [neg body].
  destruct (PyStr.digit_groups false body) as [ds|]; [| done]. simpl.
  destruct (MAX_STR_DIGITS <? String.length ds)%nat; [done |].
  by intros [= <-].
Qed.

Lemma py_int_raise (s : string) (e : exn) :
  py_int s = Raise e → e = ValueError.
Proof.
  unfold py_int.
  destruct (PyStr.split_sign (PyStr.strip s)) as [neg body].
  destruct (PyStr.digit_groups false body) as [ds|]; [| by intros [= <-]].
  destruct (MAX_STR_DIGITS <? String.length ds)%nat; [| done].
  by intros [= <-].
Qed.

(** Wherever the call of [read_sysfs_int] returns, it returns what
    [read_sysfs_int] gives, and it raises nothing but [ValueError]. *)
Lemma read_sysfs_int_call_ret (fs : filesystem) (path : string)
    (o : option Z) :
  read_sysfs_int_call fs path = Ret o → read_sysfs_int fs path = Ret o.
Proof.
  unfold read_sysfs_int_call, read_sysfs_int.
  destruct (read_sysfs fs path) as [val|]; [| done].
  destruct (PyStr.nonempty val && _); [| done].
  destruct (py_int val) as [n|e] eqn:Hint; [| done].
  apply py_int_ret in Hint as ->. by intros [= <-].
Qed.

Lemma read_sysfs_int_call_raise (fs : filesystem) (path : string)
    (e : exn) :
  read_sysfs_int_call fs path = Raise e → e = ValueError.
Proof.
  unfold read_sysfs_int_call.
  destruct (read_sysfs fs path) as [val|]; [| done].
  destruct (PyStr.nonempty val && _); [| done].
  destruct (py_int val) as [n|e'] eqn:Hint; [done |].
  intros [= <-]. by apply py_int_raise in Hint.
Qed.

Lemma read_sysfs_int_call_digits (fs : filesystem) (path : string)
    (neg : bool) (ds : string) :
  PyStr.nonempty ds = true →
  PyStr.all_chars PyStr.isdecimal ds = true →
  read_sysfs fs path = Some (int_text neg ds) →
  read_sysfs_int_call fs path
  = if (MAX_STR_DIGITS <? String.length ds)%nat then Raise ValueError
    else Ret (Some (int_value neg ds)).
Proof.
  intros Hne Hdec Hread. unfold read_sysfs_int_call. rewrite Hread.
  rewrite (int_text_nonempty _ _ Hne), (int_text_lstrip _ _ Hdec).
  rewrite (py_int_int_text _ _ Hne Hdec).
  unfold PyStr.isdigit. rewrite Hne.
  rewrite (all_chars_impl _ _ _ isdecimal_isdigit Hdec). simpl.
  by destruct (MAX_STR_DIGITS <? String.length ds)%nat.
Qed.

End Digits.

(** X1: on a file whose content is made of code points below 256, the
    call of [read_sysfs_int] returns an integer exactly when the
    stripped content is an optional minus sign followed by one to 4300
    decimal digits, and the integer is the one the content denotes;
    with more than 4300 digits it raises [ValueError], the limit of
    [int].  (Beyond code point 255 [isdigit] and [int] accept further
    decimal digits; such contents are outside the embedding.) *)
Theorem read_sysfs_int_some_iff (fs : filesystem) (path : string) (n : Z) :
  (read_sysfs_int_call fs path = Ret (Some n)
   ↔ ∃ neg ds,
       read_sysfs fs path = Some (int_text neg ds)
       ∧ PyStr.nonempty ds = true
       ∧ PyStr.all_chars PyStr.isdecimal ds = true
       ∧ (String.length ds <= MAX_STR_DIGITS)%nat
       ∧ n = int_value neg ds)
  ∧ (∀ neg ds,
       read_sysfs fs path = Some (int_text neg ds) →
       PyStr.nonempty ds = true →
       PyStr.all_chars PyStr.isdecimal ds = true →
       (MAX_STR_DIGITS < String.length ds)%nat →
       read_sysfs_int_call fs path = Raise ValueError).
Proof.
  split; [split |].
  - intros Hcall.
    pose proof (read_sysfs_int_call_ret _ _ _ Hcall) as Hmodel.
    apply read_sysfs_int_some in Hmodel
      as (neg & ds & Hread & Hne & Hdec & ->).
    exists neg, ds. repeat (split; [done |]).
    rewrite (read_sysfs_int_call_digits _ _ _ _ Hne Hdec Hread) in Hcall.
    destruct (Nat.ltb_spec MAX_STR_DIGITS (String.length ds)); [done |].
    split; [lia | done].
  - intros (neg & ds & Hread & Hne & Hdec & Hlen & ->).
    rewrite (read_sysfs_int_call_digits _ _ _ _ Hne Hdec Hread).
    by rewrite (proj2 (Nat.ltb_ge _ _) Hlen).
  - intros neg ds Hread Hne Hdec Hlen.
    rewrite (read_sysfs_int_call_digits _ _ _ _ Hne Hdec Hread).
    by rewrite (proj2 (Nat.ltb_lt _ _) Hlen).
Qed.

(** X2: for an integer of at most 4300 digits, the decimal text that
    [str] returns is read back as that integer: by [int], and by the
    call of [read_sysfs_int] from a file that holds the text followed
    by a newline.  On an integer of more digits [str] raises
    [ValueError]. *)
Theorem str_int_read_back (n : Z) (fs : filesystem) (path : string) :
  (Z.abs n < 10 ^ Z.of_nat MAX_STR_DIGITS →
   py_str n = Ret (str_int n)
   ∧ py_int (str_int n) = Ret n
   ∧ read_sysfs_int_call
       (<[path := str_int n ++ String (ascii_of_N 10) ""]> fs) path
     = Ret (Some n))
  ∧ (10 ^ Z.of_nat MAX_STR_DIGITS <= Z.abs n →
     py_str n = Raise ValueError).
Proof.
  split.
  - intros Hn.
    destruct (decimal_spec (Z.abs n) ltac:(lia)) as (Hne & Hdec & Hval).
    assert (Hlen : (String.length (PyFloat.decimal 1 (Z.abs n))
                    <= MAX_STR_DIGITS)%nat).
    { apply decimal_length; [unfold MAX_STR_DIGITS; lia | lia]. }
    assert (Hvalue : int_value (n <? 0) (PyFloat.decimal 1 (Z.abs n)) = n).
    { unfold int_value. rewrite Hval. destruct (Z.ltb_spec n 0); lia. }
    split; [| split].
    + unfold py_str. by rewrite (proj2 (Z.leb_gt _ _) Hn).
    + rewrite str_int_text, (py_int_int_text _ _ Hne Hdec).
      by rewrite (proj2 (Nat.ltb_ge _ _) Hlen), Hvalue.
    + rewrite (read_sysfs_int_call_digits _ _ (n <? 0)
                 (PyFloat.decimal 1 (Z.abs n)) Hne Hdec).
      * by rewrite (proj2 (Nat.ltb_ge _ _) Hlen), Hvalue.
      * unfold read_sysfs. rewrite lookup_insert_eq. simpl. f_equal.
        rewrite str_int_text. apply strip_trailing.
        -- by apply int_text_nonempty.
        -- by apply int_text_no_space.
        -- reflexivity.
  - intros Hn. unfold py_str. by rewrite (proj2 (Z.leb_le _ _) Hn).
Qed.

(** ** The profile list *)

Section Profiles.

Implicit Types (self : CPUInfo) (p q c : profile) (ps : list profile).

Lemma fmap_NoDup_inj {A B} (f : A → B) (l : list A) (x y : A) :
  NoDup (f <$> l) → x ∈ l → y ∈ l → f x = f y → x = y.
Proof.
  induction l as [|a l IH]; simpl; intros Hnd Hx Hy Hf.
  - by apply elem_of_nil in Hx.
  - apply NoDup_cons in Hnd as [Hfresh Hnd].
    apply elem_of_cons in Hx as [->|Hx]; apply elem_of_cons in Hy as [->|Hy].
    + done.
    + exfalso. apply Hfresh. rewrite Hf. by apply list_elem_of_fmap_2.
    + exfalso. apply Hfresh. rewrite <- Hf. by apply list_elem_of_fmap_2.
    + by apply IH.
Qed.

(** Two returned profiles with the same frequency are the same
    profile. *)
Lemma build_profiles_freq_inj self p q :
  p ∈ build_profiles self → q ∈ build_profiles self →
  freq_khz p = freq_khz q → p = q.
Proof.
  intros Hp Hq Hf.
  apply (fmap_NoDup_inj (bucket_of ∘ freq_khz) (build_profiles self));
    [apply build_profiles_distinct_buckets | done | done |].
  simpl. by rewrite Hf.
Qed.

Lemma build_profiles_keys_NoDup self : NoDup (key <$> build_profiles self).
Proof.
  eapply sublist_NoDup; [| apply fmap_sublist, build_profiles_sublist].
  unfold candidates. simpl.
  apply (bool_decide_unpack
           (NoDup ["powersaver"; "low"; "balanced"; "high"; "performance"])).
  vm_compute. exact I.
Qed.

Lemma find_key_elem ps k p :
  _get_profile ps k = Some p → p ∈ ps ∧ key p = k.
Proof.
  unfold _get_profile. intros H.
  pose proof (find_some _ _ H) as [Hin Heq].
  split; [by apply list_elem_of_In | by apply String.eqb_eq].
Qed.

Lemma find_key_NoDup ps p :
  NoDup (key <$> ps) → p ∈ ps → _get_profile ps (key p) = Some p.
Proof.
  unfold _get_profile.
  induction ps as [|a ps IH]; intros Hnd Hin.
  - by apply elem_of_nil in Hin.
  - simpl in Hnd. apply NoDup_cons in Hnd as [Hfresh Hnd]. simpl.
    apply elem_of_cons in Hin as [->|Hin].
    + by rewrite String.eqb_refl.
    + destruct (String.eqb_spec (key a) (key p)) as [E|_].
      * exfalso. apply Hfresh. rewrite E. by apply list_elem_of_fmap_2.
      * by apply IH.
Qed.

(** The profiles the loop keeps from [ps] are the first ones of their
    buckets, among the buckets not seen before. *)
Lemma kept_first seen ps p :
  p ∈ kept seen ps
  ↔ (∃ pre post, ps = (pre ++ p :: post)%list
       ∧ (bucket_of (freq_khz p) ∉ seen)
       ∧ Forall (λ q, bucket_of (freq_khz q) ≠ bucket_of (freq_khz p)) pre).
Proof.
  revert seen. induction ps as [|a ps IH]; intros seen; simpl.
  - split; [by intros ?%elem_of_nil |].
    intros (pre & post & H & _). by destruct pre.
  - case_decide as Ha.
    + rewrite IH. split.
      * intros (pre & post & -> & Hp & Hpre).
        exists (a :: pre), post. split; [done |]. split; [done |].
        constructor; [| done]. intros E. by rewrite E in Ha.
      * intros (pre & post & Heq & Hp & Hpre).
        destruct pre as [|a' pre]; simplify_eq/=.
        -- done.
        -- apply Forall_cons in Hpre as [_ Hpre]. by exists pre, post.
    + rewrite elem_of_cons, IH. split.
      * intros [->|(pre & post & -> & Hp & Hpre)].
        -- exists [], ps. split; [done |]. split; [done | constructor].
        -- exists (a :: pre), post. split; [done |].
           split; [intros ?; apply Hp, elem_of_union; by right |].
           constructor; [| done].
           intros E. apply Hp, elem_of_union. left. by apply elem_of_singleton.
      * intros (pre & post & Heq & Hp & Hpre).
        destruct pre as [|a' pre]; simplify_eq/=.
        -- by left.
        -- right. apply Forall_cons in Hpre as [Hne Hpre].
           exists pre, post. split; [done |]. split; [| done].
           intros [Hs|Hs]%elem_of_union; [| done].
           apply elem_of_singleton in Hs. by symmetry in Hs.
Qed.

End Profiles.

(** A profile of the list is exactly a candidate that no earlier
    candidate shares its bucket with; so every candidate has a profile
    of the list in its bucket, and the list has between one and five
    profiles. *)
Lemma build_profiles_members (self : CPUInfo) :
  (∀ p, p ∈ build_profiles self
        ↔ ∃ pre post,
            candidates self = (pre ++ p :: post)%list
            ∧ Forall (λ q, bucket_of (freq_khz q) ≠ bucket_of (freq_khz p))
                pre)
  ∧ (∀ c, c ∈ candidates self →
          ∃ p, p ∈ build_profiles self
               ∧ bucket_of (freq_khz p) = bucket_of (freq_khz c))
  ∧ (1 <= length (build_profiles self) <= 5)%nat.
Proof.
  assert (Hchar : ∀ p, p ∈ build_profiles self
        ↔ ∃ pre post,
            candidates self = (pre ++ p :: post)%list
            ∧ Forall (λ q, bucket_of (freq_khz q) ≠ bucket_of (freq_khz p))
                pre).
  { intros p. rewrite build_profiles_kept, kept_first. split.
    - intros (pre & post & ? & _ & ?). by exists pre, post.
    - intros (pre & post & ? & ?). exists pre, post.
      split; [done |]. split; [set_solver | done]. }
  split; [exact Hchar |]. split.
  - intros c Hc.
    assert (Hgen : ∀ l, c ∈ l →
      ∃ pre p post, l = (pre ++ p :: post)%list
        ∧ bucket_of (freq_khz p) = bucket_of (freq_khz c)
        ∧ Forall (λ q, bucket_of (freq_khz q) ≠ bucket_of (freq_khz p)) pre).
    { induction l as [|a l IH]; [by intros ?%elem_of_nil |].
      intros Hin.
      destruct (decide (bucket_of (freq_khz a) = bucket_of (freq_khz c)))
        as [E|N].
      - exists [], a, l. split; [done |]. split; [done | constructor].
      - apply elem_of_cons in Hin as [->|Hin]; [done |].
        destruct (IH Hin) as (pre & p & post & -> & E & Hpre).
        exists (a :: pre), p, post. split; [done |]. split; [done |].
        constructor; [congruence | done]. }
    destruct (Hgen _ Hc) as (pre & p & post & Heq & E & Hpre).
    exists p. split; [| done]. apply Hchar. by exists pre, post.
  - split.
    + rewrite build_profiles_kept. unfold candidates. rewrite kept_head.
      simpl. lia.
    + pose proof (sublist_length _ _ (build_profiles_sublist self)) as H.
      unfold candidates in H. simpl in H. lia.
Qed.

(** X4: the keys of the returned profiles are pairwise different, and
    [_get_profile] on the returned list finds, for a key, exactly the
    returned profile with that key. *)
Theorem _get_profile_build_profiles (self : CPUInfo) (k : string)
    (p : profile) :
  NoDup (key <$> build_profiles self)
  ∧ (_get_profile (build_profiles self) k = Some p
     ↔ p ∈ build_profiles self ∧ key p = k).
Proof.
  split; [apply build_profiles_keys_NoDup |]. split.
  - apply find_key_elem.
  - intros [Hin <-]. apply find_key_NoDup; [| done].
    apply build_profiles_keys_NoDup.
Qed.

(** X5: selecting a returned profile and detecting again gives the same
    profile back: when the live [scaling_max_freq] holds the decimal
    text of the frequency of a returned profile, [_detect_profile]
    returns the key of that profile. *)
Theorem _detect_profile_after_select (self : CPUInfo) (fs : filesystem)
    (p : profile) :
  p ∈ build_profiles self →
  fs !! SCALING_MAX_FREQ
    = Some (str_int (freq_khz p) ++ String (ascii_of_N 10) "") →
  _detect_profile fs (build_profiles self) = Ret (key p).
Proof.
  intros Hin Hfile. unfold _detect_profile.
  change (SYSFS_CPU_BASE ++ "/cpu0/cpufreq/scaling_max_freq")
    with SCALING_MAX_FREQ.
  rewrite (read_sysfs_int_str_int _ _ _ Hfile).
  unfold mbind, result_bind.
  destruct (build_profiles self) as [|p0 rest] eqn:Hps;
    [by apply elem_of_nil in Hin |].
  destruct (nearest_loop (freq_khz p) p0 rest)
    as (pre & best & post & Hfn & ->).
  pose proof (first_nearest_least _ _ _ _ _ p Hfn Hin) as Hle.
  pose proof (first_nearest_elem _ _ _ _ _ Hfn) as Hbest.
  assert (Hf : freq_khz best = freq_khz p)
    by (unfold distance in Hle; lia).
  rewrite <- Hps in Hbest, Hin.
  by rewrite (build_profiles_freq_inj self best p Hbest Hin Hf).
Qed.

Lemma _detect_profile_after_select_witness :
  _detect_profile (fs_live "2400000
") profiles_wide = Ret "balanced".
Proof.
  apply (_detect_profile_after_select _ (fs_live "2400000
")
           {| key := "balanced"; label := "Balanced (2.40 GHz)";
              freq_khz := 2400000;
              icon := "power-profile-balanced-symbolic" |}).
  - vm_compute. do 2 right. left.
  - vm_compute. reflexivity.
Defined.

(** With coinciding limits the list shrinks to Power Saver, followed
    by Balanced only when the base frequency falls in another
    bucket. *)
Lemma build_profiles_same_limits (self : CPUInfo) :
  hw_min_khz self = hw_max_khz self →
  key <$> build_profiles self
  = if decide (bucket_of (base_khz self) = bucket_of (hw_min_khz self))
    then ["powersaver"] else ["powersaver"; "balanced"].
Proof.
  intros Heq. rewrite build_profiles_kept. unfold candidates.
  rewrite <- Heq.
  replace (hw_min_khz self - hw_min_khz self) with 0 by lia.
  change (3 * 0 / 4) with 0. change (0 / 4) with 0.
  rewrite Z.add_0_r. rewrite kept_head.
  cbn [kept freq_khz].
  set (b := bucket_of (hw_min_khz self)).
  set (c := bucket_of (base_khz self)).
  rewrite (decide_True (P := b ∈ ({[b]} : gset Z))) by set_solver.
  destruct (decide (c = b)) as [E|N].
  - rewrite (decide_True (P := c ∈ ({[b]} : gset Z))) by set_solver.
    rewrite !(decide_True (P := b ∈ ({[b]} : gset Z))) by set_solver.
    reflexivity.
  - rewrite (decide_False (P := c ∈ ({[b]} : gset Z))) by set_solver.
    rewrite !(decide_True (P := b ∈ ({[c]} ∪ {[b]} : gset Z))) by set_solver.
    reflexivity.
Qed.

(** Wherever the call returns, every bucket was computed. *)
Lemma dedup_loop_call_buckets (ps : list profile)
    (st st' : gset Z * list profile) :
  dedup_loop_call ps st = Ret st' →
  Forall (λ c, bucket_of_call (freq_khz c) = Ret (bucket_of (freq_khz c))) ps.
Proof.
  revert st. induction ps as [|p ps IH]; intros st; simpl; [constructor |].
  destruct (bucket_of_call (freq_khz p)) as [b|e] eqn:Hb; [| done].
  pose proof (bucket_of_call_ret _ _ Hb) as ->.
  unfold mbind, result_bind. destruct st as [seen unique].
  intros H. constructor; [done | by eapply IH].
Qed.

Lemma build_profiles_call_parts (self : CPUInfo) (ps : list profile) :
  build_profiles_call self = Ret ps →
  candidates_call self = Ret (candidates self)
  ∧ Forall (λ c, bucket_of_call (freq_khz c) = Ret (bucket_of (freq_khz c)))
      (candidates self).
Proof.
  unfold build_profiles_call.
  destruct (candidates_call self) as [cs|e] eqn:Hc;
    unfold mbind, result_bind; [| done].
  pose proof (candidates_call_ret _ _ Hc) as ->.
  destruct (dedup_loop_call (candidates self) (∅, [])) as [st|e] eqn:Hd;
    [| done].
  intros _. split; [done | by eapply dedup_loop_call_buckets].
Qed.

(** X3: [build_profiles] returns for all capabilities up to [10 ^ 300]
    kHz in magnitude, and raises nothing but the [OverflowError] of a
    quotient beyond binary64.  Whenever it returns, every label and
    every bucket was computed, a returned profile is exactly a
    candidate that no earlier candidate shares its bucket with, every
    candidate has a returned profile in its bucket, and between one and
    five profiles are returned. *)
Theorem build_profiles_first_of_bucket (self : CPUInfo) :
  (in_range self → ∃ ps, build_profiles_call self = Ret ps)
  ∧ (∀ e, build_profiles_call self = Raise e → e = OverflowError)
  ∧ ∀ ps,
      build_profiles_call self = Ret ps →
      candidates_call self = Ret (candidates self)
      ∧ Forall (λ c, bucket_of_call (freq_khz c)
                     = Ret (bucket_of (freq_khz c))) (candidates self)
      ∧ (∀ p, p ∈ ps
              ↔ ∃ pre post,
                  candidates self = (pre ++ p :: post)%list
                  ∧ Forall (λ q, bucket_of (freq_khz q)
                                 ≠ bucket_of (freq_khz p)) pre)
      ∧ (∀ c, c ∈ candidates self →
              ∃ p, p ∈ ps
                   ∧ bucket_of (freq_khz p) = bucket_of (freq_khz c))
      ∧ (1 <= length ps <= 5)%nat.
Proof.
  split; [| split].
  - intros Hr. eexists. by apply build_profiles_call_returns.
  - apply build_profiles_call_raise.
  - intros ps Hcall.
    destruct (build_profiles_call_parts _ _ Hcall) as [Hc Hb].
    apply build_profiles_call_ret in Hcall as ->.
    split; [done |]. split; [done |]. apply build_profiles_members.
Qed.

Lemma build_profiles_first_of_bucket_witness :
  build_profiles_call cpu_narrow = Ret (build_profiles cpu_narrow)
  ∧ key <$> build_profiles cpu_narrow = ["powersaver"; "balanced"; "high"]
  ∧ (1 <= length (build_profiles cpu_narrow) <= 5)%nat.
Proof.
  assert (Hcall : build_profiles_call cpu_narrow
                  = Ret (build_profiles cpu_narrow))
    by (vm_compute; reflexivity).
  split; [exact Hcall |]. split; [vm_compute; reflexivity |].
  exact (proj2 (proj2 (proj2 (proj2
           (proj2 (proj2 (build_profiles_first_of_bucket cpu_narrow))
              _ Hcall))))).
Defined.

(** X6: on a machine whose minimum and maximum frequencies coincide,
    whenever [build_profiles] returns (as it does up to [10 ^ 300] kHz)
    the list is Power Saver, followed by Balanced only when the base
    frequency falls in another bucket; Low, High and Performance are
    never returned. *)
Theorem build_profiles_no_range (self : CPUInfo) :
  hw_min_khz self = hw_max_khz self →
  (in_range self → ∃ ps, build_profiles_call self = Ret ps)
  ∧ ∀ ps,
      build_profiles_call self = Ret ps →
      bucket_of_call (base_khz self) = Ret (bucket_of (base_khz self))
      ∧ bucket_of_call (hw_min_khz self) = Ret (bucket_of (hw_min_khz self))
      ∧ key <$> ps
        = if decide (bucket_of (base_khz self) = bucket_of (hw_min_khz self))
          then ["powersaver"] else ["powersaver"; "balanced"].
Proof.
  intros Heq. split.
  - intros Hr. eexists. by apply build_profiles_call_returns.
  - intros ps Hcall.
    destruct (build_profiles_call_parts _ _ Hcall) as [_ Hb].
    apply build_profiles_call_ret in Hcall as ->.
    unfold candidates in Hb.
    apply Forall_cons in Hb as [Hlo Hb].
    apply Forall_cons in Hb as [_ Hb].
    apply Forall_cons in Hb as [Hbase _].
    split; [exact Hbase |]. split; [exact Hlo |].
    by apply build_profiles_same_limits.
Qed.

Lemma build_profiles_no_range_witness :
  (in_range cpu_fixed → ∃ ps, build_profiles_call cpu_fixed = Ret ps)
  ∧ build_profiles_call cpu_fixed = Ret (build_profiles cpu_fixed)
  ∧ key <$> build_profiles cpu_fixed = ["powersaver"].
Proof.
  assert (Hcall : build_profiles_call cpu_fixed
                  = Ret (build_profiles cpu_fixed))
    by (vm_compute; reflexivity).
  pose proof (build_profiles_no_range cpu_fixed eq_refl) as [Hret Hlist].
  split; [exact Hret |]. split; [exact Hcall |].
  exact (proj2 (proj2 (Hlist _ Hcall))).
Defined.

(** ** The first profile *)

Example read_sysfs_int_call_huge_min :
  read_sysfs_int_call fs_huge_min MIN_FREQ = Ret (Some (10 ^ 400)).
Proof. vm_compute. reflexivity. Qed.

Example _fmt_ghz_call_huge : _fmt_ghz_call (10 ^ 400) = Raise OverflowError.
Proof. vm_compute. reflexivity. Qed.

(** C10, as stated, fails: a minimum-frequency node that holds
    [10 ^ 400] is read as that integer, [CPUInfo.__init__] returns, and
    [build_profiles] raises [OverflowError] when it formats the first
    label: no list is returned. *)
Lemma C10_no_list_beyond_binary64 :
  CPUInfo_init fs_huge_min = Ret cpu_huge_min
  ∧ hw_min_khz cpu_huge_min = 10 ^ 400
  ∧ build_profiles_call cpu_huge_min = Raise OverflowError
  ∧ ¬ ∃ ps, build_profiles_call cpu_huge_min = Ret ps.
Proof.
  assert (Hraise : build_profiles_call cpu_huge_min = Raise OverflowError)
    by (vm_compute; reflexivity).
  split; [vm_compute; reflexivity |]. split; [reflexivity |].
  split; [exact Hraise |].
  intros [ps Hps]. rewrite Hraise in Hps. discriminate Hps.
Qed.

(** C10, amended: [build_profiles] returns for all capabilities up to
    [10 ^ 300] kHz in magnitude and raises nothing but the
    [OverflowError] of a quotient beyond binary64; whenever it returns,
    the list starts with the Power Saver profile at [hw_min_khz], so
    the access to the first profile in [_detect_profile] never raises
    [IndexError]. *)
Theorem C10_build_profiles_starts_with_powersaver (self : CPUInfo) :
  (in_range self → ∃ ps, build_profiles_call self = Ret ps)
  ∧ (∀ e, build_profiles_call self = Raise e → e = OverflowError)
  ∧ ∀ ps,
      build_profiles_call self = Ret ps →
      ∃ text rest,
        _fmt_ghz_call (hw_min_khz self) = Ret text
        ∧ ps = {| key := "powersaver";
                  label := "Power Saver (" ++ text ++ ")";
                  freq_khz := hw_min_khz self;
                  icon := "power-profile-power-saver-symbolic" |} :: rest
        ∧ ∀ fs, _detect_profile fs ps ≠ Raise IndexError.
Proof.
  split; [| split].
  - intros Hr. eexists. by apply build_profiles_call_returns.
  - apply build_profiles_call_raise.
  - intros ps Hcall.
    assert (Htext : ∃ text, _fmt_ghz_call (hw_min_khz self) = Ret text).
    { destruct (build_profiles_call_parts _ _ Hcall) as [Hc _].
      unfold candidates_call in Hc.
      destruct (_fmt_ghz_call (hw_min_khz self)) as [text|e];
        [by exists text | done]. }
    destruct Htext as [text Htext].
    apply build_profiles_call_ret in Hcall as ->.
    destruct (build_profiles_head self) as (rest & Heq & Hidx).
    exists text, rest. split; [done |].
    rewrite <- (_fmt_ghz_call_ret _ _ Htext) in Heq. by split.
Qed.

(** On the machine without nodes. *)
Lemma C10_build_profiles_starts_with_powersaver_witness :
  in_range cpu_defaults
  ∧ (∃ ps, build_profiles_call cpu_defaults = Ret ps)
  ∧ build_profiles_call cpu_defaults = Ret (build_profiles cpu_defaults)
  ∧ ∃ text rest,
      _fmt_ghz_call (hw_min_khz cpu_defaults) = Ret text
      ∧ build_profiles cpu_defaults
        = {| key := "powersaver";
             label := "Power Saver (" ++ text ++ ")";
             freq_khz := hw_min_khz cpu_defaults;
             icon := "power-profile-power-saver-symbolic" |} :: rest
      ∧ ∀ fs, _detect_profile fs (build_profiles cpu_defaults)
              ≠ Raise IndexError.
Proof.
  assert (Hr : in_range cpu_defaults).
  { unfold in_range, FREQ_BOUND. repeat split; apply Z.leb_le;
      vm_compute; reflexivity. }
  assert (Hcall : build_profiles_call cpu_defaults
                  = Ret (build_profiles cpu_defaults))
    by (vm_compute; reflexivity).
  pose proof (C10_build_profiles_starts_with_powersaver cpu_defaults)
    as (Hret & _ & Hhead).
  split; [exact Hr |]. split; [exact (Hret Hr) |]. split; [exact Hcall |].
  exact (Hhead _ Hcall).
Defined.

(** ** CPU detection *)

Section Words.

Lemma all_chars_rev_app f (s t : string) :
  PyStr.all_chars f (String.rev_app s t)
  = PyStr.all_chars f s && PyStr.all_chars f t.
Proof.
  revert t. induction s as [|c s IH]; intros t; simpl; [done |].
  rewrite IH. simpl. by destruct (f c), (PyStr.all_chars f s).
Qed.

Lemma nonempty_rev_app (s t : string) :
  PyStr.nonempty t = true → PyStr.nonempty (String.rev_app s t) = true.
Proof.
  revert t. induction s as [|c s IH]; intros t Ht; simpl; [done |].
  by apply IH.
Qed.

Lemma word_rev (w : string) :
  PyStr.nonempty w = true →
  PyStr.all_chars (λ c, negb (PyStr.isspace c)) w = true →
  word (String.rev w).
Proof.
  intros Hne Hall. unfold String.rev. split.
  - destruct w as [|c w]; [done |]. simpl. by apply nonempty_rev_app.
  - rewrite all_chars_rev_app, Hall. done.
Qed.

Lemma split_go_words (cur : option string) (s : string) :
  (∀ w, cur = Some w →
        PyStr.nonempty w = true
        ∧ PyStr.all_chars (λ c, negb (PyStr.isspace c)) w = true) →
  Forall word (PyStr.split_go cur s).
Proof.
  revert cur. induction s as [|c s IH]; intros cur Hcur; simpl.
  - destruct cur as [w|]; [| constructor].
    destruct (Hcur w eq_refl). constructor; [by apply word_rev | constructor].
  - destruct (PyStr.isspace c) eqn:Hc.
    + destruct cur as [w|].
      * destruct (Hcur w eq_refl).
        constructor; [by apply word_rev | by apply IH].
      * by apply IH.
    + apply IH. intros w [= <-]. split; [done |]. simpl. rewrite Hc. simpl.
      destruct cur as [w|]; [| done]. by destruct (Hcur w eq_refl).
Qed.

Lemma split_go_some (w s : string) : PyStr.split_go (Some w) s ≠ [].
Proof.
  revert w. induction s as [|c s IH]; intros w; simpl; [done |].
  destruct (PyStr.isspace c); [done | apply IH].
Qed.

(** A stripped text is empty or starts with a character that is not
    white space. *)
Lemma strip_head (s : string) :
  PyStr.strip s = ""
  ∨ ∃ c r, PyStr.strip s = String c r ∧ PyStr.isspace c = false.
Proof.
  unfold PyStr.strip.
  assert (Hl : PyStr.lstrip_with PyStr.isspace s = ""
               ∨ ∃ c r, PyStr.lstrip_with PyStr.isspace s = String c r
                        ∧ PyStr.isspace c = false).
  { induction s as [|c s IH]; simpl; [by left |].
    destruct (PyStr.isspace c) eqn:Hc; [exact IH |].
    right. by exists c, s. }
  destruct Hl as [->|(c & r & -> & Hc)]; [by left |].
  right. simpl. rewrite Hc.
  destruct (PyStr.rstrip_with PyStr.isspace r) as [|c' r']; by eexists _, _.
Qed.

Lemma split_strip_nonempty (s : string) :
  PyStr.nonempty (PyStr.strip s) = true → PyStr.split (PyStr.strip s) ≠ [].
Proof.
  destruct (strip_head s) as [->|(c & r & -> & Hc)]; [done |].
  intros _. unfold PyStr.split. simpl. rewrite Hc. apply split_go_some.
Qed.

End Words.

Lemma _read_governors_nonempty (fs : filesystem) : _read_governors fs ≠ [].
Proof.
  unfold _read_governors, read_sysfs.
  destruct (fs !! _) as [content|]; simpl; [| done].
  destruct (PyStr.nonempty (PyStr.strip content)) eqn:Hne; [| done].
  by apply split_strip_nonempty.
Qed.

(** X7: the governor list is never empty, and every governor in it is a
    non-empty name without white space, whatever the
    [scaling_available_governors] node holds. *)
Theorem _read_governors_words (fs : filesystem) :
  _read_governors fs ≠ [] ∧ Forall word (_read_governors fs).
Proof.
  split; [apply _read_governors_nonempty |].
  unfold _read_governors, read_sysfs.
  destruct (fs !! _) as [content|]; simpl.
  - destruct (PyStr.nonempty (PyStr.strip content)) eqn:Hne.
    + apply split_go_words. by intros w [=].
    + repeat constructor.
  - repeat constructor.
Qed.

Section Model.

Lemma after_colon_found (a b : string) :
  PyStr.all_chars (λ c, negb (is_colon c)) a = true →
  after_colon (a ++ String ":" b) = Ret b.
Proof.
  unfold after_colon. fold is_colon.
  induction a as [|c a IH]; intros Ha.
  - done.
  - simpl in Ha. apply andb_prop in Ha as [Hc Ha].
    change (String c a ++ String ":" b) with (String c (a ++ String ":" b)).
    simpl. destruct (is_colon c); [done |].
    specialize (IH Ha).
    destruct (PyStr.break_at is_colon (a ++ String ":" b)) as [x [y|]];
      [| done].
    by injection IH as ->.
Qed.

Lemma after_colon_missing (l : string) :
  PyStr.all_chars (λ c, negb (is_colon c)) l = true →
  after_colon l = Raise IndexError.
Proof.
  unfold after_colon. fold is_colon.
  induction l as [|c l IH]; intros Hl; [done |].
  simpl in Hl. apply andb_prop in Hl as [Hc Hl].
  simpl. destruct (is_colon c); [done |].
  specialize (IH Hl).
  by destruct (PyStr.break_at is_colon l) as [x [y|]].
Qed.

Lemma _read_model_scan_first (pre : list string) (l : string)
    (post : list string) :
  Forall (λ x, PyStr.startswith x "model name" = false) pre →
  PyStr.startswith l "model name" = true →
  _read_model_scan (pre ++ l :: post) = PyStr.strip <$> after_colon l.
Proof.
  intros Hpre Hl. induction Hpre as [|x pre Hx _ IH]; simpl.
  - by rewrite Hl.
  - by rewrite Hx.
Qed.

Lemma _read_model_scan_none (ls : list string) :
  Forall (λ x, PyStr.startswith x "model name" = false) ls →
  _read_model_scan ls = Ret "Unknown CPU".
Proof.
  induction 1 as [|x ls Hx _ IH]; simpl; [done |]. by rewrite Hx.
Qed.

End Model.

(** X8: the model string comes from the first line of [/proc/cpuinfo]
    that starts with ["model name"]: it is the stripped text after the
    first colon of that line, and a line without a colon raises
    [IndexError], which nothing catches.  Without such a line, or
    without the file, the model is ["Unknown CPU"]. *)
Theorem _read_model_first_line (fs : filesystem) :
  (fs !! "/proc/cpuinfo" = None → _read_model fs = Ret "Unknown CPU")
  ∧ ∀ content,
      fs !! "/proc/cpuinfo" = Some content →
      (Forall (λ x, PyStr.startswith x "model name" = false)
         (PyStr.lines content) →
       _read_model fs = Ret "Unknown CPU")
      ∧ ∀ pre l post,
          PyStr.lines content = (pre ++ l :: post)%list →
          Forall (λ x, PyStr.startswith x "model name" = false) pre →
          PyStr.startswith l "model name" = true →
          (∀ a b, l = a ++ String ":" b →
                  PyStr.all_chars (λ c, negb (is_colon c)) a = true →
                  _read_model fs = Ret (PyStr.strip b))
          ∧ (PyStr.all_chars (λ c, negb (is_colon c)) l = true →
             _read_model fs = Raise IndexError).
Proof.
  unfold _read_model. split; [by intros -> |].
  intros content ->. split; [apply _read_model_scan_none |].
  intros pre l post -> Hpre Hl.
  rewrite (_read_model_scan_first _ _ _ Hpre Hl). split.
  - intros a b -> Ha. by rewrite (after_colon_found _ _ Ha).
  - intros Hno. by rewrite (after_colon_missing _ Hno).
Qed.

Section Init.

Lemma int_or_nonzero (x : option Z) (d : Z) : d ≠ 0 → int_or x d ≠ 0.
Proof.
  intros Hd. unfold int_or. destruct x as [n|]; [| done].
  destruct (Z.eqb_spec n 0); done.
Qed.

Lemma str_or_nonempty (x : option string) (d : string) :
  d ≠ "" → str_or x d ≠ "".
Proof.
  intros Hd. unfold str_or. destruct x as [s|]; [| done].
  by destruct s.
Qed.

(** What [CPUInfo.__init__] returns, field by field. *)
Lemma CPUInfo_init_fields (fs : filesystem) (c : CPUInfo) :
  CPUInfo_init fs = Ret c →
  ∃ lo hi,
    read_sysfs_int fs MIN_FREQ = Ret lo
    ∧ read_sysfs_int fs MAX_FREQ = Ret hi
    ∧ _read_model fs = Ret (model c)
    ∧ driver c
      = str_or (read_sysfs fs (SYSFS_CPU_BASE ++ "/cpu0/cpufreq/scaling_driver"))
          "unknown"
    ∧ hw_min_khz c = int_or lo 800000
    ∧ hw_max_khz c = int_or hi 4000000
    ∧ _detect_base_freq fs (model c) (hw_min_khz c) (hw_max_khz c)
      = Ret (base_khz c)
    ∧ governors c = _read_governors fs.
Proof.
  unfold CPUInfo_init.
  change (SYSFS_CPU_BASE ++ "/cpu0/cpufreq/cpuinfo_min_freq") with MIN_FREQ.
  change (SYSFS_CPU_BASE ++ "/cpu0/cpufreq/cpuinfo_max_freq") with MAX_FREQ.
  destruct (_read_model fs) as [m|e]; [| done].
  destruct (read_sysfs_int fs MIN_FREQ) as [lo|e]; [| done].
  destruct (read_sysfs_int fs MAX_FREQ) as [hi|e]; [| done].
  unfold mbind, result_bind.
  destruct (_detect_base_freq fs m _ _) as [b|e] eqn:Hb; [| done].
  intros [= <-]. exists lo, hi. simpl. by rewrite Hb.
Qed.

End Init.

(** X9: whatever the machine, a detection that returns gives limits that
    are not zero, a driver name that is not empty and a governor list
    that is not empty. *)
Theorem CPUInfo_init_invariants (fs : filesystem) (c : CPUInfo) :
  CPUInfo_init fs = Ret c →
  hw_min_khz c ≠ 0 ∧ hw_max_khz c ≠ 0 ∧ driver c ≠ "" ∧ governors c ≠ [].
Proof.
  intros (lo & hi & _ & _ & _ & Hd & Hlo & Hhi & _ & Hg)%CPUInfo_init_fields.
  rewrite Hd, Hlo, Hhi, Hg.
  split; [by apply int_or_nonzero |].
  split; [by apply int_or_nonzero |].
  split; [by apply str_or_nonempty |].
  apply _read_governors_nonempty.
Qed.

Lemma CPUInfo_init_invariants_witness :
  hw_min_khz cpu_low_base ≠ 0 ∧ hw_max_khz cpu_low_base ≠ 0
  ∧ driver cpu_low_base ≠ "" ∧ governors cpu_low_base ≠ [].
Proof.
  apply (CPUInfo_init_invariants fs_low_base). vm_compute. reflexivity.
Defined.

(** X10: when neither the [base_frequency] node nor the model string
    gives a base frequency, the base is the midpoint of the limits, and
    with limits in order the profiles come out in strictly ascending
    order of frequency. *)
Theorem build_profiles_ascending_midpoint (fs : filesystem) (c : CPUInfo)
    (o : option Z) :
  CPUInfo_init fs = Ret c →
  read_sysfs_int fs BASE_FREQ = Ret o → truthy o = false →
  BaseFreqPattern.search (model c) = None →
  hw_min_khz c <= hw_max_khz c →
  base_khz c = (hw_min_khz c + hw_max_khz c) / 2
  ∧ ascending (build_profiles c).
Proof.
  intros (lo & hi & _ & _ & _ & _ & _ & _ & Hb & _)%CPUInfo_init_fields
    Hr Ht Hs Hle.
  rewrite (_detect_base_freq_falsy _ _ _ _ _ Hr Ht), Hs in Hb.
  injection Hb as Hb. split; [done |].
  apply build_profiles_ascending_base_between; [done | |]; rewrite <- Hb.
  - pose proof (Z.div_mod (hw_max_khz c - hw_min_khz c) 4 ltac:(lia)).
    pose proof (Z.mod_pos_bound (hw_max_khz c - hw_min_khz c) 4 ltac:(lia)).
    pose proof (Z.div_mod (hw_min_khz c + hw_max_khz c) 2 ltac:(lia)).
    pose proof (Z.mod_pos_bound (hw_min_khz c + hw_max_khz c) 2 ltac:(lia)).
    lia.
  - pose proof (Z.div_mod (3 * (hw_max_khz c - hw_min_khz c)) 4 ltac:(lia)).
    pose proof (Z.mod_pos_bound (3 * (hw_max_khz c - hw_min_khz c)) 4
                  ltac:(lia)).
    pose proof (Z.div_mod (hw_min_khz c + hw_max_khz c) 2 ltac:(lia)).
    pose proof (Z.mod_pos_bound (hw_min_khz c + hw_max_khz c) 2 ltac:(lia)).
    lia.
Qed.

Lemma build_profiles_ascending_midpoint_witness :
  base_khz cpu_defaults = (hw_min_khz cpu_defaults + hw_max_khz cpu_defaults) / 2
  ∧ ascending (build_profiles cpu_defaults).
Proof.
  apply (build_profiles_ascending_midpoint ∅ cpu_defaults None).
  - vm_compute. reflexivity.
  - vm_compute. reflexivity.
  - reflexivity.
  - vm_compute. reflexivity.
  - vm_compute. discriminate.
Defined.

Example _read_model_no_colon :
  _read_model {[ "/proc/cpuinfo" := "processor : 0
model name Foo
" ]} = Raise IndexError.
Proof. vm_compute. reflexivity. Qed.

Example _read_model_two_colons :
  _read_model {[ "/proc/cpuinfo" := "model name	: A : B 
model name : C
" ]} = Ret "A : B".
Proof. vm_compute. reflexivity. Qed.

(** ** Entries of the CPU directory *)

Section Entries.

Lemma after_prefix_spec (p s rest : string) :
  after_prefix p s = Some rest ↔ s = p ++ rest.
Proof.
  revert s. induction p as [|a p IH]; intros s; simpl.
  - split; [by intros [= ->] | by intros ->].
  - destruct s as [|b s].
    + split; [done |]. by rewrite append_cons.
    + rewrite append_cons. destruct (Ascii.eqb_spec a b) as [->|N].
      * rewrite IH. split; [by intros -> | by intros [= ->]].
      * split; [done |]. intros [= ? ?]. done.
Qed.

Lemma nl_not_decimal : PyStr.isdecimal (ascii_of_N 10) = false.
Proof. reflexivity. Qed.

End Entries.

(** X11: an entry counts as a CPU exactly when it is ["cpu"] followed by
    one or more decimal digits, with nothing after them, or with one
    final newline after them. *)
Theorem is_cpu_entry_spec (entry : string) :
  is_cpu_entry entry = true
  ↔ ∃ ds, PyStr.nonempty ds = true
          ∧ PyStr.all_chars PyStr.isdecimal ds = true
          ∧ (entry = "cpu" ++ ds ∨ entry = "cpu" ++ ds ++ NL).
Proof.
  unfold is_cpu_entry. split.
  - destruct (after_prefix "cpu" entry) as [rest|] eqn:Hp; [| done].
    apply after_prefix_spec in Hp as ->.
    intros [Hne Htail]%andb_prop.
    exists (BaseFreqPattern.take_while PyStr.isdecimal rest).
    split; [done |]. split; [apply take_while_all |].
    pose proof (take_while_lstrip PyStr.isdecimal rest) as Hrest.
    apply orb_prop in Htail as [Ht|Ht]; apply String.eqb_eq in Ht;
      rewrite Ht in Hrest.
    + left. rewrite str_app_nil_r in Hrest. by rewrite <- Hrest.
    + right. unfold NL. by rewrite <- Hrest.
  - intros (ds & Hne & Hall & [->| ->]).
    + rewrite (proj2 (after_prefix_spec "cpu" ("cpu" ++ ds) ds) eq_refl).
      rewrite <- (str_app_nil_r ds) at 1 2.
      rewrite take_while_app, lstrip_app by done. simpl.
      rewrite str_app_nil_r, Hne. done.
    + rewrite (proj2 (after_prefix_spec "cpu" ("cpu" ++ ds ++ NL) (ds ++ NL))
                 eq_refl).
      rewrite take_while_app, lstrip_app by done. unfold NL. simpl.
      rewrite str_app_nil_r, Hne. done.
Qed.

Example is_cpu_entry_edges :
  is_cpu_entry "cpu12" = true
  ∧ is_cpu_entry ("cpu12" ++ NL) = true
  ∧ is_cpu_entry "cpu" = false
  ∧ is_cpu_entry "cpu1a" = false
  ∧ is_cpu_entry "cpufreq" = false.
Proof. repeat split; vm_compute; reflexivity. Qed.

(** ** Counting the CPUs *)

Section Count.

Variable isdir : string → bool.




End Count.


(** ** The temperature *)

Section Temperature.

Variable fs : filesystem.

Lemma _read_cpu_temp_scan_step (hwmon : string) (rest : list string) :
  _read_cpu_temp_scan fs (hwmon :: rest)
  = match chip_reading fs hwmon with
    | Ret (Some v) => Some <$> degrees v
    | Ret None => _read_cpu_temp_scan fs rest
    | Raise e => Raise e
    end.
Proof.
  simpl. unfold chip_reading.
  destruct (is_cpu_chip _); [| done].
  by destruct (read_sysfs_int_call fs _) as [[v|]|e].
Qed.

Lemma _read_cpu_temp_scan_first (pre : list string) (h : string)
    (post : list string) :
  Forall (λ x, chip_reading fs x = Ret None) pre →
  _read_cpu_temp_scan fs (pre ++ h :: post)
  = match chip_reading fs h with
    | Ret (Some v) => Some <$> degrees v
    | Ret None => _read_cpu_temp_scan fs post
    | Raise e => Raise e
    end.
Proof.
  induction 1 as [|x pre Hx _ IH].
  - apply _read_cpu_temp_scan_step.
  - change ((x :: pre) ++ h :: post)%list with (x :: (pre ++ h :: post))%list.
    by rewrite _read_cpu_temp_scan_step, Hx.
Qed.

Lemma _read_cpu_temp_scan_none (chips : list string) :
  Forall (λ x, chip_reading fs x = Ret None) chips →
  _read_cpu_temp_scan fs chips = Ret None.
Proof.
  induction 1 as [|x chips Hx _ IH]; [done |].
  by rewrite _read_cpu_temp_scan_step, Hx.
Qed.

End Temperature.

(** X13: the temperature is that of the first listed hwmon chip that is
    named [coretemp] or [k10temp] and has a readable [temp1_input], in
    degrees; a reading of [0] counts as a reading.  The division by
    1000 returns for every reading below [2 ^ 1000] in magnitude and
    raises [OverflowError] on a reading whose quotient is beyond
    binary64; a malformed [temp1_input] met before any reading raises
    too, and nothing catches either.  When no chip gives a reading, or
    the hwmon directory cannot be listed, the temperature is that of
    [thermal_zone0], and there is none only when that node gives
    none. *)
Theorem _read_cpu_temp_sources (listdir : listing) (fs : filesystem) :
  (∀ pre h post,
     listdir SYSFS_HWMON = Some (pre ++ h :: post)%list →
     Forall (λ x, chip_reading fs x = Ret None) pre →
     (∀ v, chip_reading fs h = Ret (Some v) →
           _read_cpu_temp listdir fs = Some <$> degrees v)
     ∧ (∀ e, chip_reading fs h = Raise e →
             _read_cpu_temp listdir fs = Raise e))
  ∧ (listdir SYSFS_HWMON = None
     ∨ (∃ chips, listdir SYSFS_HWMON = Some chips
                 ∧ Forall (λ x, chip_reading fs x = Ret None) chips) →
     _read_cpu_temp listdir fs
     = read_sysfs_int_call fs THERMAL_ZONE0 ≫= temp_of)
  ∧ (∀ v, Z.abs v < 2 ^ 1000 →
          degrees v = Ret (PyFloat.truediv v 1000)
          ∧ finite (PyFloat.truediv v 1000))
  ∧ (∀ v e, degrees v = Raise e → e = OverflowError)
  ∧ degrees 0 = Ret (S754_zero false).
Proof.
  unfold _read_cpu_temp. split; [| split; [| split; [| split]]].
  - intros pre h post -> Hpre.
    rewrite (_read_cpu_temp_scan_first fs _ _ _ Hpre). split.
    + intros v ->. unfold degrees.
      by destruct (py_truediv v 1000).
    + by intros e ->.
  - change "/sys/class/thermal/thermal_zone0/temp" with THERMAL_ZONE0.
    intros [->|(chips & -> & Hall)].
    + unfold mbind, result_bind.
      by destruct (read_sysfs_int_call fs THERMAL_ZONE0) as [[v|]|e].
    + rewrite (_read_cpu_temp_scan_none fs _ Hall).
      unfold mbind, result_bind.
      by destruct (read_sysfs_int_call fs THERMAL_ZONE0) as [[v|]|e].
  - intros v Hv. unfold degrees.
    pose proof (py_truediv_returns v 1000 Hv) as Hq. split; [done |].
    by apply py_truediv_ret in Hq as [_ Hfin].
  - intros v e. apply py_truediv_raise.
  - reflexivity.
Qed.

(** ** The frequency average *)

Section Average.

Variable fs : filesystem.

Lemma _update_sensors_scan_step (entry : string) (rest : list string) :
  _update_sensors_scan fs (entry :: rest)
  = (val ← core_reading fs entry;
     freqs ← _update_sensors_scan fs rest;
     Ret match val with Some v => v :: freqs | None => freqs end).
Proof.
  simpl. unfold core_reading, cur_freq_node.
  destruct (is_cpu_entry entry); [done |]. simpl.
  by destruct (_update_sensors_scan fs rest).
Qed.

(** When every core can be read or reads as nothing, the readings are
    those of the entries in order, the cores that read as nothing left
    out. *)
Lemma _update_sensors_scan_readings (entries : list string)
    (readings : list (option Z)) :
  Forall2 (λ e o, core_reading fs e = Ret o) entries readings →
  _update_sensors_scan fs entries = Ret (omap id readings).
Proof.
  induction 1 as [|e o entries readings He _ IH]; [done |].
  rewrite _update_sensors_scan_step, He, IH. simpl. by destruct o.
Qed.

Lemma _update_sensors_scan_raises (pre : list string) (h : string)
    (post : list string) (readings : list (option Z)) (e : exn) :
  Forall2 (λ x o, core_reading fs x = Ret o) pre readings →
  core_reading fs h = Raise e →
  _update_sensors_scan fs (pre ++ h :: post) = Raise e.
Proof.
  intros Hpre Hh. induction Hpre as [|x o pre readings Hx _ IH].
  - simpl app. by rewrite _update_sensors_scan_step, Hh.
  - change ((x :: pre) ++ h :: post)%list with (x :: (pre ++ h :: post))%list.
    by rewrite _update_sensors_scan_step, Hx, IH.
Qed.

End Average.

Lemma sorted_strings_perm (l l' : list string) :
  l ≡ₚ l' → sorted_strings l = sorted_strings l'.
Proof.
  intros Hp. unfold sorted_strings.
  apply (StronglySorted_unique String.le).
  - apply StronglySorted_merge_sort; apply _.
  - apply StronglySorted_merge_sort; apply _.
  - by rewrite !merge_sort_Permutation.
Qed.

Lemma freq_label_raise (freqs : list Z) (e : exn) :
  freq_label freqs = Raise e → e = OverflowError.
Proof.
  unfold freq_label. destruct freqs as [|f freqs]; [done |].
  destruct (py_truediv _ _) as [q|e'] eqn:Hq; [done |].
  intros [= <-]. by apply py_truediv_raise in Hq.
Qed.

(** X14: the frequency item is computed from the readings of the CPU
    entries in sorted order, the cores that read as nothing left out of
    the average and of the count; with none left the label is
    [CPU: N/A], as when the directory cannot be listed.  The average
    returns whenever the sum of the readings is below [2 ^ 1000] in
    magnitude and raises [OverflowError] when it is beyond binary64,
    before any label is set; a malformed [scaling_cur_freq] raises too,
    and nothing catches either. *)
Theorem _update_sensors_frequency (listdir : listing) (fs : filesystem) :
  (listdir SYSFS_CPU_BASE = None →
   _update_sensors listdir fs
   = (temp ← _read_cpu_temp listdir fs; Ret ("CPU: N/A", temp_label temp)))
  ∧ (∀ entries readings,
       listdir SYSFS_CPU_BASE = Some entries →
       Forall2 (λ e o, core_reading fs e = Ret o)
         (sorted_strings entries) readings →
       _update_sensors listdir fs
       = (label ← freq_label (omap id readings);
          temp ← _read_cpu_temp listdir fs;
          Ret (label, temp_label temp))
       ∧ (Forall (λ o, o = None) readings →
          freq_label (omap id readings) = Ret "CPU: N/A"))
  ∧ (∀ entries pre h post readings e,
       listdir SYSFS_CPU_BASE = Some entries →
       sorted_strings entries = (pre ++ h :: post)%list →
       Forall2 (λ x o, core_reading fs x = Ret o) pre readings →
       core_reading fs h = Raise e →
       _update_sensors listdir fs = Raise e)
  ∧ (∀ freqs,
       freqs ≠ [] → Z.abs (sum_list freqs) < 2 ^ 1000 →
       freq_label freqs
       = Ret ("CPU: "
              ++ format_0f
                   (float_div_int
                      (PyFloat.truediv (sum_list freqs)
                         (Pos.of_nat (length freqs))) 1000)
              ++ " MHz  (" ++ str_int (Z.of_nat (length freqs))
              ++ " cores)"))
  ∧ (∀ freqs e, freq_label freqs = Raise e → e = OverflowError).
Proof.
  unfold _update_sensors. split; [| split; [| split; [| split]]].
  - by intros ->.
  - intros entries readings -> Hall.
    rewrite (_update_sensors_scan_readings fs _ _ Hall). split; [done |].
    intros Hnone. clear Hall.
    induction Hnone as [|o readings -> _ IH]; [done | exact IH].
  - intros entries pre h post readings e -> -> Hpre Hh.
    by rewrite (_update_sensors_scan_raises fs _ _ _ _ _ Hpre Hh).
  - intros freqs Hne Hsum. unfold freq_label.
    destruct freqs as [|f freqs]; [done |].
    by rewrite (py_truediv_returns _ _ Hsum).
  - apply freq_label_raise.
Qed.

(** X15: the labels do not depend on the order in which the CPU
    directory is listed. *)
Theorem _update_sensors_listing_order (listdir listdir' : listing)
    (fs : filesystem) (entries entries' : list string) :
  listdir SYSFS_CPU_BASE = Some entries →
  listdir' SYSFS_CPU_BASE = Some entries' →
  entries ≡ₚ entries' →
  listdir SYSFS_HWMON = listdir' SYSFS_HWMON →
  _update_sensors listdir fs = _update_sensors listdir' fs.
Proof.
  intros H1 H2 Hp Hh. unfold _update_sensors, _read_cpu_temp.
  by rewrite H1, H2, Hh, (sorted_strings_perm _ _ Hp).
Qed.

Lemma _update_sensors_listing_order_witness :
  _update_sensors listdir_a fs_two_cores
  = _update_sensors listdir_b fs_two_cores.
Proof.
  apply (_update_sensors_listing_order listdir_a listdir_b fs_two_cores
           ["cpu1"; "cpufreq"; "cpu0"; "cpuidle"]
           ["cpuidle"; "cpu0"; "cpu1"; "cpufreq"]).
  - reflexivity.
  - reflexivity.
  - apply (bool_decide_unpack _). vm_compute. exact I.
  - reflexivity.
Defined.

Example _update_sensors_two_cores :
  _update_sensors listdir_a fs_two_cores
  = Ret ("CPU: 1800 MHz  (1 cores)", "Temp: N/A").
Proof. vm_compute. reflexivity. Qed.

Example _read_cpu_temp_zero :
  _read_cpu_temp listdir_hwmon fs_hwmon_zero = Ret (Some (S754_zero false))
  ∧ temp_label (Some (S754_zero false))
    = "Temp: 0 " ++ String (ascii_of_N 176) "C".
Proof. split; vm_compute; reflexivity. Qed.

Example _read_cpu_temp_overflow :
  _read_cpu_temp listdir_hwmon0 fs_hwmon_huge = Raise OverflowError.
Proof. vm_compute. reflexivity. Qed.

Example _update_sensors_overflow :
  _update_sensors listdir_a fs_core_huge = Raise OverflowError.
Proof. vm_compute. reflexivity. Qed.

(** ** Undervolt detection, continued *)

Section UndervoltKeys.

Lemma classify_offset_key (offset : Z) : classify_offset offset ∈ PRESET_KEYS.
Proof.
  unfold classify_offset, PRESET_KEYS. simpl.
  repeat case_match; set_solver.
Qed.

Lemma _detect_undervolt_scan_key (ls : list string) (k : string) :
  _detect_undervolt_scan ls = Ret k → k ∈ PRESET_KEYS.
Proof.
  induction ls as [|l ls IH]; simpl.
  - intros [= <-]. unfold PRESET_KEYS. simpl. set_solver.
  - destruct (is_cpu_undervolt_line (PyStr.strip l)); [| exact IH].
    destruct (last_part _) as [tok|e]; [| done]. simpl.
    destruct (int_of_float_text tok) as [offset|e]; [| done]. simpl.
    intros [= <-]. apply classify_offset_key.
Qed.

Lemma int_range_elem (lo : Z) (len : nat) (n : Z) :
  lo <= n < lo + Z.of_nat len → n ∈ int_range lo len.
Proof.
  intros H. unfold int_range. apply list_elem_of_fmap.
  exists (Z.to_nat (n - lo)). split; [lia |].
  apply elem_of_seq. lia.
Qed.

Lemma reads_back_range :
  forallb reads_back (int_range (-1000) 2001) = true.
Proof. vm_compute. reflexivity. Qed.

Lemma int_of_float_text_str_int (n : Z) :
  -1000 <= n <= 1000 → int_of_float_text (str_int n) = Ret n.
Proof.
  intros H.
  pose proof reads_back_range as Hall. rewrite forallb_forall in Hall.
  specialize (Hall n). unfold reads_back in Hall.
  destruct (int_of_float_text (str_int n)) as [m|e].
  - f_equal. apply Z.eqb_eq, Hall, list_elem_of_In, int_range_elem. lia.
  - discriminate Hall. apply list_elem_of_In, int_range_elem. lia.
Qed.

Lemma _detect_undervolt_ret (fs : filesystem) (k : string) :
  _detect_undervolt fs = Ret k → k ∈ PRESET_KEYS.
Proof.
  unfold _detect_undervolt.
  destruct (fs !! "/etc/intel-undervolt.conf") as [content|].
  - destruct (_detect_undervolt_scan (PyStr.lines content)) as [k'|e] eqn:Hs.
    + intros [= <-]. by apply _detect_undervolt_scan_key in Hs.
    + destruct e; simpl; [| | done]; intros [= <-];
        apply (classify_offset_key 0).
  - intros [= <-]. apply (classify_offset_key 0).
Qed.

End UndervoltKeys.

(** X16: whatever the configuration file holds, [_detect_undervolt]
    either returns the key of one of the four presets, or raises
    [OverflowError]; it raises nothing else. *)
Theorem _detect_undervolt_keys (fs : filesystem) :
  (∃ k, _detect_undervolt fs = Ret k ∧ k ∈ PRESET_KEYS)
  ∨ _detect_undervolt fs = Raise OverflowError.
Proof.
  destruct (_detect_undervolt fs) as [k|e] eqn:Hd.
  - left. exists k. split; [done |]. by apply (_detect_undervolt_ret fs).
  - right. revert Hd. unfold _detect_undervolt.
    destruct (fs !! "/etc/intel-undervolt.conf") as [content|]; [| done].
    destruct (_detect_undervolt_scan (PyStr.lines content)) as [k'|e'];
      [done |].
    destruct e'; simpl; congruence.
Qed.

(** X17: an offset written in decimal is detected by its class: when
    the first CPU-plane line of the configuration ends in the decimal
    text of an offset between -1000 and 1000, [_detect_undervolt]
    returns the class of that offset; so each preset, once written, is
    detected as itself. *)
Theorem _detect_undervolt_decimal_offset (fs : filesystem)
    (content : string) (pre : list string) (l : string)
    (post : list string) (n : Z) :
  fs !! UNDERVOLT_CONF = Some content →
  PyStr.lines content = (pre ++ l :: post)%list →
  Forall (λ x, is_cpu_undervolt_line (PyStr.strip x) = false) pre →
  is_cpu_undervolt_line (PyStr.strip l) = true →
  last (PyStr.split (PyStr.strip l)) = Some (str_int n) →
  -1000 <= n <= 1000 →
  _detect_undervolt fs = Ret (classify_offset n)
  ∧ ∀ p, p ∈ UNDERVOLT_PRESETS → n = preset_offset p →
         _detect_undervolt fs = Ret (preset_key p).
Proof.
  intros Hfs Hlines Hpre Hl Htok Hn.
  assert (Hd : _detect_undervolt fs = Ret (classify_offset n)).
  { unfold _detect_undervolt.
    change "/etc/intel-undervolt.conf" with UNDERVOLT_CONF.
    rewrite Hfs, Hlines, (_detect_undervolt_scan_first pre l post Hpre Hl).
    unfold line_result, last_part. rewrite Htok. simpl.
    by rewrite (int_of_float_text_str_int n Hn). }
  split; [exact Hd |].
  intros p Hp ->. rewrite Hd. f_equal.
  pose proof classify_offset_presets as Hall.
  rewrite Forall_forall in Hall. by apply Hall.
Qed.

Lemma _detect_undervolt_decimal_offset_witness :
  _detect_undervolt (fs_undervolt (cpu_line (-125)))
  = Ret (classify_offset (-125))
  ∧ ∀ p, p ∈ UNDERVOLT_PRESETS → -125 = preset_offset p →
         _detect_undervolt (fs_undervolt (cpu_line (-125)))
         = Ret (preset_key p).
Proof.
  apply (_detect_undervolt_decimal_offset
           (fs_undervolt (cpu_line (-125))) (cpu_line (-125))
           [] (cpu_line (-125)) [] (-125)).
  - vm_compute. reflexivity.
  - vm_compute. reflexivity.
  - constructor.
  - vm_compute. reflexivity.
  - vm_compute. reflexivity.
  - lia.
Defined.

(** ** The application *)

Section Application.

Implicit Types (self : WattSaver) (p : profile).

Lemma fold_dict_set (l acc : list string) :
  NoDup (acc ++ l) → fold_left dict_set l acc = (acc ++ l)%list.
Proof.
  revert acc. induction l as [|k l IH]; intros acc Hnd; simpl.
  - by rewrite app_nil_r.
  - unfold dict_set at 2. rewrite decide_False.
    + rewrite IH; rewrite <- app_assoc; [done | exact Hnd].
    + apply NoDup_app in Hnd as (_ & Hdis & _).
      intros Hin. apply (Hdis k Hin). by left.
Qed.

Lemma build_profiles_key p (c : CPUInfo) :
  p ∈ build_profiles c →
  key p ∈ ["powersaver"; "low"; "balanced"; "high"; "performance"].
Proof.
  intros Hin.
  assert (Hc : p ∈ candidates c).
  { eapply elem_of_sublist; [done | apply build_profiles_sublist]. }
  apply (list_elem_of_fmap_2 key) in Hc. exact Hc.
Qed.

Lemma build_profiles_no_custom (c : CPUInfo) :
  "__custom__" ∉ (key <$> build_profiles c).
Proof.
  intros (p & Hk & Hin)%list_elem_of_fmap.
  apply build_profiles_key in Hin. rewrite <- Hk in Hin.
  repeat (apply elem_of_cons in Hin as [Hin|Hin]; [discriminate |]).
  by apply elem_of_nil in Hin.
Qed.

(** The key [_detect_profile] returns names a profile, or is the
    default for a live value that cannot be read. *)
Lemma _detect_profile_key (fs : filesystem) (ps : list profile) (k : string) :
  _detect_profile fs ps = Ret k →
  k ∈ (key <$> ps)
  ∨ (k = "balanced" ∧ read_sysfs_int fs SCALING_MAX_FREQ = Ret None).
Proof.
  unfold _detect_profile.
  change (SYSFS_CPU_BASE ++ "/cpu0/cpufreq/scaling_max_freq")
    with SCALING_MAX_FREQ.
  destruct (read_sysfs_int fs SCALING_MAX_FREQ) as [[current|]|e]; simpl.
  - destruct ps as [|p0 rest]; [done |].
    destruct (nearest_loop current p0 rest) as (pre & best & post & Hfn & ->).
    intros [= <-]. left.
    apply list_elem_of_fmap_2. by eapply first_nearest_elem.
  - intros [= <-]. by right.
  - done.
Qed.

(** What [WattSaver.__init__] returns, field by field. *)
Lemma WattSaver_init_fields (fs : filesystem)
    (which : list string → run_outcome) self (icon0 : string) :
  WattSaver_init fs which = Ret (self, icon0) →
  CPUInfo_init fs = Ret (cpu self)
  ∧ self_profiles self = build_profiles (cpu self)
  ∧ has_envycontrol self = has_command which "envycontrol"
  ∧ has_undervolt self = has_command which "intel-undervolt"
  ∧ _detect_profile fs (self_profiles self) = Ret (current_profile_key self)
  ∧ _detect_undervolt fs = Ret (current_undervolt_key self)
  ∧ profile_items self = fold_left dict_set (key <$> self_profiles self) []
  ∧ undervolt_items self
    = (if has_undervolt self
       then fold_left dict_set (preset_key <$> UNDERVOLT_PRESETS) []
       else [])
  ∧ icon0 = initial_icon (self_profiles self) (current_profile_key self).
Proof.
  unfold WattSaver_init.
  destruct (CPUInfo_init fs) as [c|e]; [| done]. simpl.
  destruct (_detect_profile fs (build_profiles c)) as [pk|e] eqn:Hpk; [| done].
  simpl.
  destruct (_detect_undervolt fs) as [uk|e]; [| done]. simpl.
  intros [= <- <-]. simpl. by rewrite Hpk.
Qed.

Lemma run_helper_pair (executable : string → bool) (here : string)
    (run : subprocess) (command : string) (args : list string) :
  run_helper executable here run command args
  = (fst (run_helper executable here run command args),
     snd (run_helper executable here run command args)).
Proof. by destruct (run_helper _ _ _ _ _). Qed.

(** A failed switch in a state whose current key names no item. *)
Lemma failed_switch_key_error (executable : string → bool) (here : string)
    (run : subprocess) self p :
  self_profiles self = build_profiles (cpu self) →
  current_profile_key self ∉ profile_items self →
  p ∈ self_profiles self →
  key p ≠ current_profile_key self →
  helper_fails executable here run "set-freq" [str_int (freq_khz p)] →
  _on_profile_toggled executable here run self true (key p)
  = KeyError (current_profile_key self)
      [ShowError "Profile Switch Failed"
         (snd (run_helper executable here run "set-freq"
                 [str_int (freq_khz p)]))].
Proof.
  intros Hps Hcur Hin Hne Hfail. unfold _on_profile_toggled. simpl.
  destruct (String.eqb_spec (key p) (current_profile_key self)); [done |].
  rewrite Hps in Hin |- *.
  rewrite (find_key_NoDup _ _ (build_profiles_keys_NoDup _) Hin).
  rewrite (run_helper_pair executable here run "set-freq").
  unfold helper_fails in Hfail. rewrite Hfail.
  by rewrite decide_False by done.
Qed.

Lemma WattSaver_init_items (fs : filesystem)
    (which : list string → run_outcome) self (icon0 : string) :
  WattSaver_init fs which = Ret (self, icon0) →
  profile_items self = key <$> self_profiles self.
Proof.
  intros (_ & Hps & _ & _ & _ & _ & Hpi & _)%WattSaver_init_fields.
  rewrite Hpi, fold_dict_set; [done |]. simpl. rewrite Hps.
  apply build_profiles_keys_NoDup.
Qed.

End Application.

(** X18: the state [WattSaver.__init__] builds: the profiles are those
    of the detected CPU, the profile items are named by the keys of the
    profiles, in order, and none of them is the key of a custom
    frequency; the current profile key names an item, unless the live
    frequency cannot be read, where it is ["balanced"] whether or not
    that profile exists; the current undervolt key is one of the preset
    keys, and the undervolt items are those of the presets when
    [intel-undervolt] is installed and none otherwise. *)
Theorem WattSaver_init_invariants (fs : filesystem)
    (which : list string → run_outcome) (self : WattSaver) (icon0 : string) :
  WattSaver_init fs which = Ret (self, icon0) →
  CPUInfo_init fs = Ret (cpu self)
  ∧ self_profiles self = build_profiles (cpu self)
  ∧ profile_items self = key <$> self_profiles self
  ∧ ("__custom__" ∉ profile_items self)
  ∧ (current_profile_key self ∈ profile_items self
     ∨ (current_profile_key self = "balanced"
        ∧ read_sysfs_int fs SCALING_MAX_FREQ = Ret None))
  ∧ current_undervolt_key self ∈ PRESET_KEYS
  ∧ undervolt_items self = (if has_undervolt self then PRESET_KEYS else []).
Proof.
  intros Hinit.
  pose proof (WattSaver_init_fields _ _ _ _ Hinit)
    as (Hc & Hps & _ & _ & Hpk & Huk & Hpi & Hui & _).
  assert (Hitems : profile_items self = key <$> self_profiles self)
    by (by apply (WattSaver_init_items fs which self icon0)).
  split; [done |]. split; [done |]. split; [done |].
  split; [rewrite Hitems, Hps; apply build_profiles_no_custom |].
  split; [rewrite Hitems; by apply _detect_profile_key |].
  split; [by apply (_detect_undervolt_ret fs) |].
  rewrite Hui. by destruct (has_undervolt self).
Qed.

Lemma WattSaver_init_invariants_witness :
  WattSaver_init fs_vm which_none
  = Ret (app_vm, "power-profile-balanced-symbolic")
  ∧ CPUInfo_init fs_vm = Ret (cpu app_vm)
  ∧ self_profiles app_vm = build_profiles (cpu app_vm)
  ∧ profile_items app_vm = key <$> self_profiles app_vm
  ∧ ("__custom__" ∉ profile_items app_vm)
  ∧ (current_profile_key app_vm ∈ profile_items app_vm
     ∨ (current_profile_key app_vm = "balanced"
        ∧ read_sysfs_int fs_vm SCALING_MAX_FREQ = Ret None))
  ∧ current_undervolt_key app_vm ∈ PRESET_KEYS
  ∧ undervolt_items app_vm
    = (if has_undervolt app_vm then PRESET_KEYS else []).
Proof.
  assert (Hinit : WattSaver_init fs_vm which_none
                  = Ret (app_vm, "power-profile-balanced-symbolic"))
    by (vm_compute; reflexivity).
  split; [exact Hinit |].
  exact (WattSaver_init_invariants fs_vm which_none app_vm _ Hinit).
Defined.

(** X19: what a profile switch does in a consistent state.  Called
    for an item that is not active, for the current key, or for a key
    of no profile, [_on_profile_toggled] returns and does nothing.
    Otherwise it runs the helper on the decimal frequency of the
    profile: when the helper succeeds, it returns with the key current
    and the icon set, in a state that is consistent again; when the
    helper fails, it returns with the state as it was, after showing
    the error and making the item of the current profile active again.
    It never raises. *)
Theorem _on_profile_toggled_consistent (executable : string → bool)
    (here : string) (run : subprocess) (self : WattSaver)
    (item_active : bool) (profile_key : string) :
  consistent self →
  (item_active = false
   ∨ profile_key = current_profile_key self
   ∨ _get_profile (self_profiles self) profile_key = None →
   _on_profile_toggled executable here run self item_active profile_key
   = Returned self [])
  ∧ ∀ p,
      item_active = true →
      profile_key ≠ current_profile_key self →
      _get_profile (self_profiles self) profile_key = Some p →
      (fst (run_helper executable here run "set-freq"
              [str_int (freq_khz p)]) = true →
       _on_profile_toggled executable here run self item_active profile_key
       = Returned (set_current_profile_key self profile_key)
           [SetIcon (icon p) (label p)]
       ∧ consistent (set_current_profile_key self profile_key))
      ∧ (fst (run_helper executable here run "set-freq"
                [str_int (freq_khz p)]) = false →
         _on_profile_toggled executable here run self item_active
           profile_key
         = Returned self
             [ShowError "Profile Switch Failed"
                (snd (run_helper executable here run "set-freq"
                        [str_int (freq_khz p)]));
              SetProfileActive (current_profile_key self) true]).
Proof.
  intros (Hps & Hitems & Hcur). unfold _on_profile_toggled. split.
  - intros [->|[->|Hnone]]; [done | |].
    + destruct item_active; [| done]. simpl. by rewrite String.eqb_refl.
    + destruct item_active; [| done]. simpl.
      destruct (String.eqb profile_key (current_profile_key self)); [done |].
      by rewrite Hnone.
  - intros p -> Hne Hget. simpl.
    rewrite (proj2 (String.eqb_neq _ _) Hne), Hget.
    apply find_key_elem in Hget as [Hin Hkey].
    destruct (run_helper executable here run "set-freq"
                [str_int (freq_khz p)]) as [ok msg].
    simpl. split.
    + intros ->. split; [done |].
      split; [done |]. split; [done |]. simpl. rewrite Hitems, <- Hkey.
      by apply list_elem_of_fmap_2.
    + intros ->. by rewrite decide_True by done.
Qed.

Lemma _on_profile_toggled_consistent_witness :
  consistent app_defaults
  ∧ _on_profile_toggled only_opt_helper "/usr/lib/wattsaver" run_fails
      app_defaults true "high"
    = Returned app_defaults
        [ShowError "Profile Switch Failed" "cpufreq: permission denied";
         SetProfileActive "balanced" true]
  ∧ _on_profile_toggled only_opt_helper "/usr/lib/wattsaver" run_succeeds
      app_defaults true "high"
    = Returned (set_current_profile_key app_defaults "high")
        [SetIcon "power-profile-performance-symbolic" "High (3.20 GHz)"].
Proof.
  assert (Hc : consistent app_defaults).
  { split; [reflexivity |]. split; [reflexivity |].
    vm_compute. do 2 right. left. }
  pose proof (λ run,
    proj2 (_on_profile_toggled_consistent only_opt_helper
             "/usr/lib/wattsaver" run app_defaults true "high" Hc)
      {| key := "high"; label := "High (3.20 GHz)"; freq_khz := 3200000;
         icon := "power-profile-performance-symbolic" |}
      eq_refl ltac:(discriminate) ltac:(vm_compute; reflexivity)) as Hrun.
  split; [exact Hc |]. split.
  - exact (proj2 (Hrun run_fails) ltac:(vm_compute; reflexivity)).
  - exact (proj1 (proj1 (Hrun run_succeeds) ltac:(vm_compute; reflexivity))).
Defined.

(** X20: at start-up a failed switch can raise [KeyError].  When the
    live frequency cannot be read the current key is ["balanced"]; when
    moreover the Balanced profile shares its bucket with an earlier one
    and is not returned, no item has that key, and a switch to any
    profile that the helper fails to apply ends, after the error
    dialog, in the look-up of the item of ["balanced"]. *)
Theorem _on_profile_toggled_key_error_at_start (fs : filesystem)
    (which : list string → run_outcome) (executable : string → bool)
    (here : string) (run : subprocess) (self : WattSaver) (icon0 : string)
    (p : profile) :
  WattSaver_init fs which = Ret (self, icon0) →
  read_sysfs_int fs SCALING_MAX_FREQ = Ret None →
  "balanced" ∉ (key <$> build_profiles (cpu self)) →
  p ∈ self_profiles self →
  helper_fails executable here run "set-freq" [str_int (freq_khz p)] →
  current_profile_key self = "balanced"
  ∧ ∃ msg,
      _on_profile_toggled executable here run self true (key p)
      = KeyError "balanced" [ShowError "Profile Switch Failed" msg].
Proof.
  intros Hinit Hread Hno Hin Hfail.
  pose proof (WattSaver_init_items _ _ _ _ Hinit) as Hitems.
  pose proof (WattSaver_init_fields _ _ _ _ Hinit)
    as (_ & Hps & _ & _ & Hpk & _).
  assert (Hcur : current_profile_key self = "balanced").
  { revert Hpk. unfold _detect_profile.
    change (SYSFS_CPU_BASE ++ "/cpu0/cpufreq/scaling_max_freq")
      with SCALING_MAX_FREQ.
    rewrite Hread. simpl. by intros [= <-]. }
  split; [exact Hcur |]. eexists. rewrite <- Hcur.
  apply failed_switch_key_error; try done.
  - by rewrite Hitems, Hps, Hcur.
  - intros E. apply Hno. rewrite <- Hcur, <- E, <- Hps.
    by apply list_elem_of_fmap_2.
Qed.

Lemma _on_profile_toggled_key_error_at_start_witness :
  current_profile_key app_vm = "balanced"
  ∧ ∃ msg,
      _on_profile_toggled no_helper "/usr/lib/wattsaver" run_succeeds app_vm
        true "powersaver"
      = KeyError "balanced" [ShowError "Profile Switch Failed" msg].
Proof.
  apply (_on_profile_toggled_key_error_at_start fs_vm which_none no_helper
           "/usr/lib/wattsaver" run_succeeds app_vm
           "power-profile-balanced-symbolic"
           {| key := "powersaver"; label := "Power Saver (0.80 GHz)";
              freq_khz := 800000;
              icon := "power-profile-power-saver-symbolic" |}).
  - vm_compute. reflexivity.
  - vm_compute. reflexivity.
  - vm_compute. intros Hin.
    repeat (apply elem_of_cons in Hin as [Hin|Hin]; [discriminate |]).
    by apply elem_of_nil in Hin.
  - vm_compute. left.
  - reflexivity.
Defined.

(** X21: a custom frequency leaves the state on the key
    ["__custom__"], which names no item: when the helper has set it,
    [_on_custom_freq] returns with that key current and every profile
    item made inactive, and the next switch to a profile that fails
    raises [KeyError]. *)
Theorem _on_custom_freq_then_failed_switch (executable : string → bool)
    (here : string) (run run' : subprocess) (self : WattSaver)
    (freq_ghz : spec_float) (khz : Z) (p : profile) :
  consistent self →
  PyFloat.to_int (PyFloat.mul freq_ghz (PyFloat.of_int 1000000)) = Ret khz →
  fst (run_helper executable here run "set-freq" [str_int khz]) = true →
  p ∈ self_profiles self →
  helper_fails executable here run' "set-freq" [str_int (freq_khz p)] →
  ∃ self' msg,
    _on_custom_freq executable here run self true freq_ghz
    = Returned self'
        (SetIcon "power-profile-balanced-symbolic"
           ("Custom (" ++ PyFloat.format_f 2 freq_ghz ++ " GHz)")
         :: ((λ k, SetProfileActive k false) <$> profile_items self))
    ∧ current_profile_key self' = "__custom__"
    ∧ _on_profile_toggled executable here run' self' true (key p)
      = KeyError "__custom__" [ShowError "Profile Switch Failed" msg].
Proof.
  intros (Hps & Hitems & Hcur) Hkhz Hok Hin Hfail.
  assert (Hno : "__custom__" ∉ profile_items self)
    by (rewrite Hitems, Hps; apply build_profiles_no_custom).
  assert (Hne : key p ≠ "__custom__").
  { intros E. apply Hno. rewrite Hitems, <- E. by apply list_elem_of_fmap_2. }
  pose proof (failed_switch_key_error executable here run'
                (set_current_profile_key self "__custom__") p
                Hps Hno Hin Hne Hfail) as Hmsg.
  exists (set_current_profile_key self "__custom__"). eexists.
  split; [| split; [done | exact Hmsg]].
  unfold _on_custom_freq, negb. rewrite Hkhz.
  rewrite (run_helper_pair executable here run "set-freq"). by rewrite Hok.
Qed.

Lemma _on_custom_freq_then_failed_switch_witness :
  ∃ self' msg,
    _on_custom_freq only_opt_helper "/usr/lib/wattsaver" run_succeeds
      app_defaults true two_ghz
    = Returned self'
        (SetIcon "power-profile-balanced-symbolic"
           ("Custom (" ++ PyFloat.format_f 2 two_ghz ++ " GHz)")
         :: ((λ k, SetProfileActive k false) <$> profile_items app_defaults))
    ∧ current_profile_key self' = "__custom__"
    ∧ _on_profile_toggled only_opt_helper "/usr/lib/wattsaver" run_dismissed
        self' true "high"
      = KeyError "__custom__" [ShowError "Profile Switch Failed" msg].
Proof.
  apply (_on_custom_freq_then_failed_switch only_opt_helper
           "/usr/lib/wattsaver" run_succeeds run_dismissed app_defaults
           two_ghz 2000000
           {| key := "high"; label := "High (3.20 GHz)"; freq_khz := 3200000;
              icon := "power-profile-performance-symbolic" |}).
  - split; [reflexivity |]. split; [reflexivity |].
    vm_compute. do 2 right. left.
  - vm_compute. reflexivity.
  - vm_compute. reflexivity.
  - vm_compute. do 3 right. left.
  - vm_compute. reflexivity.
Defined.

Section Presets.

Lemma preset_offset_of_spec (k : string) (offset : Z) :
  preset_offset_of k = Some offset →
  ∃ p, p ∈ UNDERVOLT_PRESETS ∧ preset_key p = k ∧ preset_offset p = offset.
Proof.
  unfold preset_offset_of.
  destruct (List.find _ UNDERVOLT_PRESETS) as [p|] eqn:Hfind; [| done].
  intros [= <-]. apply find_some in Hfind as [Hin Hk].
  exists p. split; [by apply list_elem_of_In |].
  split; [by apply String.eqb_eq | done].
Qed.

Lemma preset_offset_of_preset (p : preset) :
  p ∈ UNDERVOLT_PRESETS →
  preset_offset_of (preset_key p) = Some (preset_offset p).
Proof.
  intros Hin.
  repeat (apply elem_of_cons in Hin as [->|Hin]; [reflexivity |]).
  by apply elem_of_nil in Hin.
Qed.

Lemma preset_key_in (p : preset) :
  p ∈ UNDERVOLT_PRESETS → preset_key p ∈ PRESET_KEYS.
Proof. apply list_elem_of_fmap_2. Qed.

Lemma custom_not_preset : "__custom__" ∉ PRESET_KEYS.
Proof.
  intros Hin. vm_compute in Hin.
  repeat (apply elem_of_cons in Hin as [Hin|Hin]; [discriminate |]).
  by apply elem_of_nil in Hin.
Qed.

End Presets.

(** X22: what an undervolt switch does with the items of the four
    presets and a preset key current, as [__init__] leaves them.
    Called for an item that is not active, for the current key, or for
    a key of no preset, [_on_undervolt_toggled] returns and does
    nothing.  Otherwise it runs the helper on the decimal offset of the
    preset with the key: when the helper succeeds, it returns with the
    key current, a preset key again; when the helper fails, it returns
    with the state as it was, after showing the error and making the
    item of the current preset active again.  It never raises. *)
Theorem _on_undervolt_toggled_presets (executable : string → bool)
    (here : string) (run : subprocess) (self : WattSaver)
    (item_active : bool) (k : string) :
  undervolt_items self = PRESET_KEYS →
  current_undervolt_key self ∈ PRESET_KEYS →
  (item_active = false
   ∨ k = current_undervolt_key self
   ∨ preset_offset_of k = None →
   _on_undervolt_toggled executable here run self item_active k
   = Returned self [])
  ∧ ∀ offset,
      item_active = true →
      k ≠ current_undervolt_key self →
      preset_offset_of k = Some offset →
      (∃ p, p ∈ UNDERVOLT_PRESETS ∧ preset_key p = k
            ∧ preset_offset p = offset)
      ∧ (fst (run_helper executable here run "set-undervolt"
                [str_int offset]) = true →
         _on_undervolt_toggled executable here run self item_active k
         = Returned (set_current_undervolt_key self k) []
         ∧ undervolt_items (set_current_undervolt_key self k) = PRESET_KEYS
         ∧ current_undervolt_key (set_current_undervolt_key self k)
           ∈ PRESET_KEYS)
      ∧ (fst (run_helper executable here run "set-undervolt"
                [str_int offset]) = false →
         _on_undervolt_toggled executable here run self item_active k
         = Returned self
             [ShowError "Undervolt Failed"
                (snd (run_helper executable here run "set-undervolt"
                        [str_int offset]));
              SetUndervoltActive (current_undervolt_key self) true]).
Proof.
  intros Hitems Hcur. unfold _on_undervolt_toggled. split.
  - intros [->|[->|Hnone]]; [done | |].
    + destruct item_active; [| done]. simpl. by rewrite String.eqb_refl.
    + destruct item_active; [| done]. simpl.
      destruct (String.eqb k (current_undervolt_key self)); [done |].
      by rewrite Hnone.
  - intros offset -> Hne Hoff. simpl.
    rewrite (proj2 (String.eqb_neq _ _) Hne), Hoff.
    pose proof (preset_offset_of_spec _ _ Hoff) as (p & Hin & Hk & Hp).
    destruct (run_helper executable here run "set-undervolt"
                [str_int offset]) as [ok msg].
    simpl. split; [by exists p |]. split.
    + intros ->. split; [done |]. split; [done |]. simpl.
      rewrite <- Hk. by apply preset_key_in.
    + intros ->. by rewrite decide_True by (by rewrite Hitems).
Qed.

Lemma _on_undervolt_toggled_presets_witness :
  _on_undervolt_toggled only_opt_helper "/usr/lib/wattsaver" run_fails
    app_defaults true "medium"
  = Returned app_defaults
      [ShowError "Undervolt Failed" "cpufreq: permission denied";
       SetUndervoltActive "none" true]
  ∧ _on_undervolt_toggled only_opt_helper "/usr/lib/wattsaver" run_succeeds
      app_defaults true "medium"
    = Returned (set_current_undervolt_key app_defaults "medium") [].
Proof.
  pose proof (λ run,
    proj2 (_on_undervolt_toggled_presets only_opt_helper
             "/usr/lib/wattsaver" run app_defaults true "medium"
             eq_refl ltac:(vm_compute; left))
      (-100) eq_refl ltac:(discriminate) eq_refl) as Hrun.
  split.
  - exact (proj2 (proj2 (Hrun run_fails)) ltac:(vm_compute; reflexivity)).
  - exact (proj1 (proj1 (proj2 (Hrun run_succeeds))
                    ltac:(vm_compute; reflexivity))).
Defined.

(** X23: a custom undervolt leaves the state on the key
    ["__custom__"], which names no item: when the helper has applied
    it, [_on_custom_undervolt] returns with that key current and every
    preset item made inactive, and the next switch to a preset that
    fails raises [KeyError] after its error dialog. *)
Theorem _on_custom_undervolt_then_failed_switch
    (executable : string → bool) (here : string) (run run' : subprocess)
    (self : WattSaver) (value : spec_float) (offset : Z) (p : preset) :
  undervolt_items self = PRESET_KEYS →
  PyFloat.to_int value = Ret offset →
  fst (run_helper executable here run "set-undervolt" [str_int offset])
  = true →
  p ∈ UNDERVOLT_PRESETS →
  helper_fails executable here run' "set-undervolt"
    [str_int (preset_offset p)] →
  ∃ self' msg,
    _on_custom_undervolt executable here run self true value
    = Returned self'
        ((λ k, SetUndervoltActive k false) <$> undervolt_items self)
    ∧ current_undervolt_key self' = "__custom__"
    ∧ _on_undervolt_toggled executable here run' self' true (preset_key p)
      = KeyError "__custom__" [ShowError "Undervolt Failed" msg].
Proof.
  intros Hitems Hoff Hok Hin Hfail.
  exists (set_current_undervolt_key self "__custom__").
  eexists. split; [| split; [done |]].
  - unfold _on_custom_undervolt, negb. rewrite Hoff.
    rewrite (run_helper_pair executable here run "set-undervolt").
    by rewrite Hok.
  - unfold _on_undervolt_toggled, negb.
    change (current_undervolt_key (set_current_undervolt_key self "__custom__"))
      with "__custom__".
    change (undervolt_items (set_current_undervolt_key self "__custom__"))
      with (undervolt_items self).
    destruct (String.eqb_spec (preset_key p) "__custom__") as [E|_].
    { exfalso. apply custom_not_preset. rewrite <- E. by apply preset_key_in. }
    rewrite (preset_offset_of_preset p Hin).
    rewrite (run_helper_pair executable here run' "set-undervolt").
    unfold helper_fails in Hfail. rewrite Hfail.
    rewrite decide_False; [reflexivity |].
    rewrite Hitems. apply custom_not_preset.
Qed.

Lemma _on_custom_undervolt_then_failed_switch_witness :
  ∃ self' msg,
    _on_custom_undervolt only_opt_helper "/usr/lib/wattsaver" run_succeeds
      app_defaults true (PyFloat.of_int (-80))
    = Returned self'
        ((λ k, SetUndervoltActive k false) <$> undervolt_items app_defaults)
    ∧ current_undervolt_key self' = "__custom__"
    ∧ _on_undervolt_toggled only_opt_helper "/usr/lib/wattsaver"
        run_dismissed self' true "light"
      = KeyError "__custom__" [ShowError "Undervolt Failed" msg].
Proof.
  apply (_on_custom_undervolt_then_failed_switch only_opt_helper
           "/usr/lib/wattsaver" run_succeeds run_dismissed app_defaults
           (PyFloat.of_int (-80)) (-80)
           {| preset_key := "light"; preset_label := "Light (-50 mV)";
              preset_offset := -50 |}).
  - reflexivity.
  - vm_compute. reflexivity.
  - vm_compute. reflexivity.
  - vm_compute. right. left.
  - vm_compute. reflexivity.
Defined.

(** ** Labels *)

Lemma fmt_exact_range : forallb fmt_exact (int_range 0 1001) = true.
Proof. vm_compute. reflexivity. Qed.

(** X24: a frequency that is a multiple of 10 MHz, up to 10 GHz, is
    written exactly: in GHz with one decimal when it is a whole number
    of GHz and with two decimals otherwise. *)
Theorem _fmt_ghz_exact (k : Z) :
  0 <= k <= 1000 → _fmt_ghz (10000 * k) = ghz_text k.
Proof.
  intros H. pose proof fmt_exact_range as Hall.
  rewrite forallb_forall in Hall.
  apply String.eqb_eq, Hall, list_elem_of_In, int_range_elem. lia.
Qed.

Lemma _fmt_ghz_exact_witness :
  _fmt_ghz (10000 * 240) = ghz_text 240
  ∧ ghz_text 240 = "2.40 GHz" ∧ ghz_text 400 = "4.0 GHz".
Proof.
  split; [apply (_fmt_ghz_exact 240); lia |].
  split; vm_compute; reflexivity.
Defined.

(** ** The helper, continued *)

(** X25: which helper runs, and when the call succeeds.  The helper
    under [/opt] is taken whenever it is executable, the one beside the
    script only otherwise, and a path returned is an executable one of
    the two; [run_helper] reports success exactly when a helper was
    found and its command, under [pkexec], exited with status 0. *)
Theorem find_helper_priority (executable : string → bool) (here : string) :
  (executable OPT_HELPER = true →
   find_helper executable here = Some OPT_HELPER)
  ∧ (executable OPT_HELPER = false →
     find_helper executable here
     = if executable (path_join here "wattsaver-helper.sh")
       then Some (path_join here "wattsaver-helper.sh") else None)
  ∧ (∀ helper,
       find_helper executable here = Some helper →
       executable helper = true ∧ helper ∈ HELPER_PATHS here)
  ∧ (∀ run command args,
       fst (run_helper executable here run command args) = true
       ↔ ∃ helper stdout stderr,
           find_helper executable here = Some helper
           ∧ run ("pkexec" :: helper :: command :: args)%list 30
             = Completed 0 stdout stderr).
Proof.
  unfold find_helper, HELPER_PATHS.
  change "/opt/wattsaver/wattsaver-helper.sh" with OPT_HELPER.
  split; [| split; [| split]].
  - intros H. simpl. by rewrite H.
  - intros H. simpl. by rewrite H.
  - intros helper Hf. apply find_some in Hf as [Hin Hex].
    split; [done | by apply list_elem_of_In].
  - intros run command args. unfold run_helper, find_helper, HELPER_PATHS.
    change "/opt/wattsaver/wattsaver-helper.sh" with OPT_HELPER.
    destruct (List.find executable _) as [helper|]; simpl.
    + destruct (run _ 30) as [rc out err| |msg] eqn:Hrun; simpl.
      * destruct (Z.eqb_spec rc 0) as [->|Hrc]; simpl.
        -- split; [| done]. intros _. by exists helper, out, err.
        -- split; [by destruct (rc =? 126) |].
           intros (h & o & e & Hh & Hr). injection Hh as <-.
           rewrite Hrun in Hr. by injection Hr as -> _ _.
      * split; [done |]. intros (h & o & e & Hh & Hr). injection Hh as <-.
        rewrite Hrun in Hr. discriminate Hr.
      * split; [done |]. intros (h & o & e & Hh & Hr). injection Hh as <-.
        rewrite Hrun in Hr. discriminate Hr.
    + split; [done |]. by intros (h & o & e & ? & _).
Qed.

(** ** Switching the GPU *)

(** X26: what [_on_gpu_switch] does.  It never changes the state.  For
    the mode that the query already reports it does nothing: no
    confirmation, no helper.  For another mode it does nothing unless
    the confirmation is given; then the helper is run with the mode as
    its argument, and success updates the GPU item and shows the reboot
    notice, while failure shows the error.  A query that fails or runs
    into its time-out reports no mode, so that no mode of the menu is
    skipped. *)
Theorem _on_gpu_switch_outcomes (executable : string → bool) (here : string)
    (run : subprocess) (self : WattSaver) (mode : string)
    (response_ok : bool) :
  (mode = _detect_gpu_mode run →
   _on_gpu_switch executable here run self mode response_ok
   = Returned self [])
  ∧ (mode ≠ _detect_gpu_mode run →
     (response_ok = false →
      _on_gpu_switch executable here run self mode response_ok
      = Returned self [])
     ∧ (response_ok = true →
        ∀ ok msg,
          run_helper executable here run "set-gpu" [mode] = (ok, msg) →
          _on_gpu_switch executable here run self mode response_ok
          = Returned self
              (if ok
               then [SetGpuLabel ("GPU: " ++ mode);
                     ShowInfo "GPU Mode Changed"
                       ("Switched to " ++ mode ++ ". Please reboot.")]
               else [ShowError "GPU Switch Failed" msg])))
  ∧ (mode ∈ GPU_MODES →
     run ["envycontrol"; "--query"] 5 = TimeoutExpired
     ∨ (∃ message, run ["envycontrol"; "--query"] 5 = Failed message) →
     mode ≠ _detect_gpu_mode run).
Proof.
  unfold _on_gpu_switch. split; [| split].
  - intros <-. by rewrite String.eqb_refl.
  - intros Hne. apply String.eqb_neq in Hne. rewrite Hne. split.
    + by intros ->.
    + intros -> ok msg ->. by destruct ok.
  - intros Hin Hq.
    assert (Hu : _detect_gpu_mode run = "unknown").
    { unfold _detect_gpu_mode. by destruct Hq as [->|[message ->]]. }
    rewrite Hu. intros ->.
    repeat (apply elem_of_cons in Hin as [Hin|Hin]; [discriminate |]).
    by apply elem_of_nil in Hin.
Qed.

Example _on_gpu_switch_same_mode :
  _on_gpu_switch no_helper "/usr/lib/wattsaver" run_hybrid app_defaults
    "hybrid" true
  = Returned app_defaults [].
Proof. vm_compute. reflexivity. Qed.
